(** * AI coach: progress streaks, flashcard scheduling, roadmap completion
      and persistence

    A shallow embedding of [models.py], of the managers of
    [business_logic.py], of [persistence.py] with its default state and its
    state file, and of the review session of [coach.py], followed by the
    properties proved about them.

    Conventions of the embedding.
    - A Python [str] is a [string], an [int] is a [Z], a [float] is a
      binary64 [float], [Optional[T]] is [option T], a [List[T]] is a [list].
    - An exception (KeyError, ValueError) is the result [None] of a function
      into [option].
    - The standard [datetime] library is not part of the repository: its
      parsing and printing functions are section variables, and the clock
      readings of [datetime.now()] are arguments.  A calendar day is the
      proleptic Gregorian ordinal of [date.toordinal()], an instant is a
      number of microseconds.
    - The ids cut from [uuid.uuid4()] are arguments as well.
    - A method that mutates its manager is a function from the state before
      to the result and the state after. *)

From Stdlib Require Import ZArith List String Ascii Bool Lia.
From Stdlib Require Import Sorting.Sorted Sorting.Permutation.
From Stdlib Require Import PrimFloat.
Import ListNotations.

Local Open Scope string_scope.
Local Open Scope Z_scope.

(** ** models.py *)

Module MilestoneStatus.
Inductive t : Set := NOT_STARTED | IN_PROGRESS | COMPLETED.

Definition value (s : t) : string :=
  match s with
  | NOT_STARTED => "not_started"
  | IN_PROGRESS => "in_progress"
  | COMPLETED => "completed"
  end.

(** [MilestoneStatus(v)]: the member whose value is [v], ValueError otherwise. *)
Definition of_value (v : string) : option t :=
  if (v =? "not_started")%string then Some NOT_STARTED
  else if (v =? "in_progress")%string then Some IN_PROGRESS
  else if (v =? "completed")%string then Some COMPLETED
  else None.

Definition eqb (a b : t) : bool :=
  match a, b with
  | NOT_STARTED, NOT_STARTED | IN_PROGRESS, IN_PROGRESS | COMPLETED, COMPLETED => true
  | _, _ => false
  end.
End MilestoneStatus.

Module ResourceStatus.
Inductive t : Set := TODO | IN_PROGRESS | COMPLETED.

Definition value (s : t) : string :=
  match s with
  | TODO => "todo"
  | IN_PROGRESS => "in_progress"
  | COMPLETED => "completed"
  end.

Definition of_value (v : string) : option t :=
  if (v =? "todo")%string then Some TODO
  else if (v =? "in_progress")%string then Some IN_PROGRESS
  else if (v =? "completed")%string then Some COMPLETED
  else None.
End ResourceStatus.

Module DifficultyLevel.
Inductive t : Set := BEGINNER | INTERMEDIATE | ADVANCED.

Definition value (s : t) : string :=
  match s with
  | BEGINNER => "beginner"
  | INTERMEDIATE => "intermediate"
  | ADVANCED => "advanced"
  end.

Definition of_value (v : string) : option t :=
  if (v =? "beginner")%string then Some BEGINNER
  else if (v =? "intermediate")%string then Some INTERMEDIATE
  else if (v =? "advanced")%string then Some ADVANCED
  else None.
End DifficultyLevel.

Module CardStatus.
Inductive t : Set := NEW | REVIEWING | DIFFICULT | MASTERED.

Definition value (s : t) : string :=
  match s with
  | NEW => "new"
  | REVIEWING => "reviewing"
  | DIFFICULT => "difficult"
  | MASTERED => "mastered"
  end.

Definition of_value (v : string) : option t :=
  if (v =? "new")%string then Some NEW
  else if (v =? "reviewing")%string then Some REVIEWING
  else if (v =? "difficult")%string then Some DIFFICULT
  else if (v =? "mastered")%string then Some MASTERED
  else None.

Definition eqb (a b : t) : bool :=
  match a, b with
  | NEW, NEW | REVIEWING, REVIEWING | DIFFICULT, DIFFICULT | MASTERED, MASTERED => true
  | _, _ => false
  end.
End CardStatus.

Module ProjectStatus.
Inductive t : Set := PLANNING | IN_PROGRESS | COMPLETED.

Definition value (s : t) : string :=
  match s with
  | PLANNING => "planning"
  | IN_PROGRESS => "in_progress"
  | COMPLETED => "completed"
  end.

Definition of_value (v : string) : option t :=
  if (v =? "planning")%string then Some PLANNING
  else if (v =? "in_progress")%string then Some IN_PROGRESS
  else if (v =? "completed")%string then Some COMPLETED
  else None.
End ProjectStatus.

Module WeeklyTask.
Record t : Set := mk {
  task_id : string;
  name : string;
  description : string;
  status : MilestoneStatus.t;
  priority : Z }.
End WeeklyTask.

Module Week.
Record t : Set := mk {
  week_num : Z;
  name : string;
  description : string;
  tasks : list WeeklyTask.t;
  status : MilestoneStatus.t }.
End Week.

Module Month.
Record t : Set := mk {
  month_num : Z;
  name : string;
  description : string;
  weeks : list Week.t;
  status : MilestoneStatus.t }.
End Month.

Module Quarter.
Record t : Set := mk {
  quarter_num : Z;
  name : string;
  description : string;
  focus_areas : list string;
  months : list Month.t;
  status : MilestoneStatus.t }.
End Quarter.

Module Year.
Record t : Set := mk {
  year_num : Z;
  name : string;
  description : string;
  focus_areas : list string;
  quarters : list Quarter.t;
  status : MilestoneStatus.t }.
End Year.

Module Roadmap.
Record t : Set := mk {
  years : list Year.t;
  created_at : string;
  last_updated : string }.
End Roadmap.

Module DailySession.
Record t : Set := mk {
  date : string;            (* YYYY-MM-DD *)
  duration_hours : float;
  topics_covered : list string;
  resources_used : list string;
  notes : string;
  mood : option string;
  session_id : string }.
End DailySession.

Module ProgressState.
Record t : Set := mk {
  daily_sessions : list DailySession.t;
  current_streak : Z;
  longest_streak : Z;
  last_session_date : option string;
  total_hours : float;
  completed_milestones : Z;
  total_milestones : Z;
  updated_at : string }.
End ProgressState.

Module Resource.
Record t : Set := mk {
  resource_id : string;
  title : string;
  resource_type : string;
  url : string;
  difficulty : DifficultyLevel.t;
  description : string;
  mapped_topics : list string;
  status : ResourceStatus.t;
  added_date : string;
  completion_date : option string;
  notes : string }.
End Resource.

Module Flashcard.
Record t : Set := mk {
  card_id : string;
  question : string;
  answer : string;
  topic : string;
  status : CardStatus.t;
  difficulty : DifficultyLevel.t;
  review_count : Z;
  last_reviewed : option string;
  created_at : string;
  next_review : option string }.
End Flashcard.

Module FlashcardDeck.
Record t : Set := mk {
  deck_id : string;
  topic : string;
  description : string;
  cards : list Flashcard.t;
  created_at : string;
  total_reviews : Z }.
End FlashcardDeck.

Module GitHubProject.
Record t : Set := mk {
  project_id : string;
  name : string;
  repo_url : string;
  description : string;
  skills_covered : list string;
  status : ProjectStatus.t;
  created_at : string;
  last_updated : string;
  notes : string;
  has_readme : bool;
  has_docs : bool;
  has_tests : bool;
  has_demo : bool;
  blog_post_url : option string }.
End GitHubProject.

Module WeeklyTip.
Record t : Set := mk {
  tip_id : string;
  week : Z;
  category : string;
  title : string;
  content : string;
  source : string;
  created_at : string }.
End WeeklyTip.

Module AppState.
Record t : Set := mk {
  roadmap : Roadmap.t;
  progress : ProgressState.t;
  resources : list Resource.t;
  flashcard_decks : list FlashcardDeck.t;
  github_projects : list GitHubProject.t;
  weekly_tips : list WeeklyTip.t;
  last_updated : string }.
End AppState.

(** ** Python built-ins used by the managers *)

Module Py.
Section ListSort.
Context {A : Type}.
Variable le : A -> A -> bool.

(** [list.sort] and [sorted] are stable: an element goes in front of the
    first element of the sorted suffix that is not smaller than it. *)
Fixpoint insert (x : A) (l : list A) : list A :=
  match l with
  | [] => [x]
  | y :: l' => if le x y then x :: y :: l' else y :: insert x l'
  end.

Definition sorted (l : list A) : list A := fold_right insert [] l.
End ListSort.

(** A [dict] keeps its keys in the order of their first insertion; a later
    assignment to a key replaces the value in place. *)
Fixpoint dict_set {V : Type} (k : string) (v : V) (d : list (string * V)) : list (string * V) :=
  match d with
  | [] => [(k, v)]
  | (k', v') :: d' =>
      if (k' =? k)%string then (k', v) :: d' else (k', v') :: dict_set k v d'
  end.

Definition dict_keys {V : Type} (d : list (string * V)) : list string := map fst d.

(** [l[-1]] of a non-empty list; the default stands for the IndexError. *)
Definition last_item {T : Type} (l : list T) (d : T) : T := List.last l d.

(** [l[:n]]: the first [n] items, and for a negative [n] all but the last [-n]. *)
Definition slice_to {T : Type} (l : list T) (n : Z) : list T :=
  if 0 <=? n then firstn (Z.to_nat n) l
  else firstn (List.length l - Z.to_nat (- n))%nat l.
End Py.

(** ** business_logic.py: ProgressManager *)

Module ProgressManager.
Section Streak.
(** [datetime.strptime(s, "%Y-%m-%d")] as the ordinal of the day it denotes;
    [None] when it raises ValueError. *)
Variable strptime : string -> option Z.

(** [sessions_by_date = {s.date: s for s in self.progress.daily_sessions}] *)
Definition sessions_by_date (sessions : list DailySession.t) : list (string * DailySession.t) :=
  fold_left (fun d s => Py.dict_set (DailySession.date s) s d) sessions [].

(** [dates = sorted(sessions_by_date.keys())] *)
Definition streak_dates (sessions : list DailySession.t) : list string :=
  Py.sorted String.leb (Py.dict_keys (sessions_by_date sessions)).

(** The body of [for i, date in enumerate(dates)] from the second date on:
    [prev] is [dates[i-1]]; the state is [(longest_streak, temp_streak)]. *)
Fixpoint streak_scan (prev : string) (rest : list string) (longest_streak temp_streak : Z)
  : option (Z * Z) :=
  match rest with
  | [] => Some (longest_streak, temp_streak)
  | date :: rest' =>
      match strptime prev, strptime date with
      | Some prev_date, Some curr_date =>
          if curr_date - prev_date =? 1
          then streak_scan date rest' longest_streak (temp_streak + 1)
          else streak_scan date rest' (Z.max longest_streak temp_streak) 1
      | _, _ => None
      end
  end.

(** The whole loop, started with [longest_streak = 0] and [temp_streak = 1]. *)
Definition streak_loop (dates : list string) : option (Z * Z) :=
  match dates with
  | [] => Some (0, 1)
  | first :: rest => streak_scan first rest 0 1
  end.

Definition set_streaks (p : ProgressState.t) (current longest : Z) : ProgressState.t :=
  ProgressState.mk (ProgressState.daily_sessions p) current longest
    (ProgressState.last_session_date p) (ProgressState.total_hours p)
    (ProgressState.completed_milestones p) (ProgressState.total_milestones p)
    (ProgressState.updated_at p).

(** [_update_streak], with [today] the day of [datetime.now().date()]. *)
Definition _update_streak (p : ProgressState.t) (today : Z) : option ProgressState.t :=
  match ProgressState.daily_sessions p with
  | [] => Some (set_streaks p 0 (ProgressState.longest_streak p))
  | _ :: _ =>
      let dates := streak_dates (ProgressState.daily_sessions p) in
      match streak_loop dates with
      | None => None
      | Some (longest_streak, temp_streak) =>
          let longest_streak := Z.max longest_streak temp_streak in
          match dates with
          | [] => Some (set_streaks p 0 longest_streak)
          | _ :: _ =>
              match strptime (Py.last_item dates EmptyString) with
              | None => None
              | Some last_date =>
                  let days_since := today - last_date in
                  let current_streak :=
                    if days_since =? 0 then temp_streak
                    else if days_since =? 1 then temp_streak
                    else 0 in
                  Some (set_streaks p current_streak longest_streak)
              end
          end
      end
  end.

(** [log_session]: [today] is the text of [datetime.now().strftime("%Y-%m-%d")],
    [stamp] the text of the session's [session_id] default, [updated] the text
    written to [updated_at], [today_day] the day read by [_update_streak].
    The result is the state after the call and the session returned; when
    [_update_streak] raises, what was written before it stays written and
    nothing is returned. *)
Definition log_session (p : ProgressState.t) (duration_hours : float)
    (topics resources : list string) (notes : string) (mood : option string)
    (today stamp updated : string) (today_day : Z)
  : ProgressState.t * option DailySession.t :=
  let session := DailySession.mk today duration_hours topics resources notes mood stamp in
  let p1 := ProgressState.mk
              (ProgressState.daily_sessions p ++ [session])
              (ProgressState.current_streak p) (ProgressState.longest_streak p)
              (Some today)
              (PrimFloat.add (ProgressState.total_hours p) duration_hours)
              (ProgressState.completed_milestones p) (ProgressState.total_milestones p)
              updated in
  match _update_streak p1 today_day with
  | None => (p1, None)
  | Some p2 => (p2, Some session)
  end.
End Streak.
End ProgressManager.

(** ** business_logic.py: RoadmapManager *)

Module RoadmapManager.
(** The objects [_calculate_completion] is handed: it looks for the
    attributes [quarters], [months], [weeks], [tasks] in this order, and an
    object with none of them takes the [else] branch. *)
Inductive node : Set :=
  | OfYear (y : Year.t)
  | OfQuarter (q : Quarter.t)
  | OfMonth (m : Month.t)
  | OfWeek (w : Week.t)
  | OfOther.

(** The statuses of [items], in order; [None] for the [else] branch. *)
Definition item_statuses (obj : node) : option (list MilestoneStatus.t) :=
  match obj with
  | OfYear y => Some (map Quarter.status (Year.quarters y))
  | OfQuarter q => Some (map Month.status (Quarter.months q))
  | OfMonth m => Some (map Week.status (Month.weeks m))
  | OfWeek w => Some (map WeeklyTask.status (Week.tasks w))
  | OfOther => None
  end.

(** [sum(1 for item in items if item.status == MilestoneStatus.COMPLETED)] *)
Fixpoint completed_count (items : list MilestoneStatus.t) : Z :=
  match items with
  | [] => 0
  | st :: items' =>
      (if MilestoneStatus.eqb st MilestoneStatus.COMPLETED then 1 else 0)
      + completed_count items'
  end.

(** [int(100 * completed / len(items))]: the division raises
    ZeroDivisionError on an empty list.  The quotient of the two integers is
    a float and [int] truncates it; the embedding takes the truncated exact
    quotient, which the rounding of the division cannot move across an
    integer for any list that fits in memory. *)
Definition percent_of (completed len : Z) : option Z :=
  if len =? 0 then None else Some (Z.quot (100 * completed) len).

Definition _calculate_completion (obj : node) : option Z :=
  match item_statuses obj with
  | None => Some 0
  | Some [] => Some 0
  | Some (st :: items') =>
      let items := st :: items' in
      percent_of (completed_count items) (Z.of_nat (List.length items))
  end.
End RoadmapManager.

(** ** business_logic.py: FlashcardManager *)

Module FlashcardManager.
(** [timedelta(days=d, hours=h)] in microseconds. *)
Definition timedelta (days hours : Z) : Z := (days * 86400 + hours * 3600) * 1000000.

Section Scheduling.
(** [datetime.isoformat()] of an instant, and [datetime.fromisoformat(s)]
    ([None] when it raises ValueError). *)
Variable isoformat : Z -> string.
Variable fromisoformat : string -> option Z.

Definition all_cards (decks : list FlashcardDeck.t) : list Flashcard.t :=
  flat_map FlashcardDeck.cards decks.

(** The first component of the pair appended to [due_cards] for a card;
    [now] is the reading of [datetime.now()] taken for this card. *)
Definition tier (now : Z) (card : Flashcard.t) : option Z :=
  match Flashcard.status card with
  | CardStatus.NEW => Some 0
  | CardStatus.DIFFICULT => Some 1
  | _ =>
      match Flashcard.next_review card with
      | None => Some 3
      | Some text =>
          if (text =? EmptyString)%string then Some 3
          else match fromisoformat text with
               | None => None
               | Some t => if t <=? now then Some 2 else Some 3
               end
      end
  end.

(** The loop that fills [due_cards]; [clock i] is the reading of the clock
    while the [i]-th card of [all_cards] is looked at. *)
Fixpoint due_cards (clock : nat -> Z) (i : nat) (cards : list Flashcard.t)
  : option (list (Z * Flashcard.t)) :=
  match cards with
  | [] => Some []
  | card :: cards' =>
      match tier (clock i) card, due_cards clock (S i) cards' with
      | Some k, Some rest => Some ((k, card) :: rest)
      | _, _ => None
      end
  end.

(** The order of the keys [(x[0], x[1].review_count)]. *)
Definition key_le (x y : Z * Flashcard.t) : bool :=
  (fst x <? fst y)
  || ((fst x =? fst y) && (Flashcard.review_count (snd x) <=? Flashcard.review_count (snd y))).

Definition get_cards_for_review (decks : list FlashcardDeck.t) (num_cards : Z)
    (clock : nat -> Z) : option (list Flashcard.t) :=
  match due_cards clock 0%nat (all_cards decks) with
  | None => None
  | Some due => Some (map snd (Py.slice_to (Py.sorted key_le due) num_cards))
  end.

Definition set_review (card : Flashcard.t) (status : CardStatus.t) (review_count : Z)
    (last_reviewed next_review : option string) : Flashcard.t :=
  Flashcard.mk (Flashcard.card_id card) (Flashcard.question card) (Flashcard.answer card)
    (Flashcard.topic card) status (Flashcard.difficulty card) review_count last_reviewed
    (Flashcard.created_at card) next_review.

(** What [mark_card_review] does to the card it found: [now_reviewed] is the
    clock reading written to [last_reviewed], [now_scheduled] the later
    reading from which [next_review] is counted. *)
Definition review_card (card : Flashcard.t) (result : string)
    (now_reviewed now_scheduled : Z) : Flashcard.t :=
  let review_count := Flashcard.review_count card + 1 in
  let last_reviewed := Some (isoformat now_reviewed) in
  let '(status, next_review) :=
    if (result =? "mastered")%string then
      (CardStatus.MASTERED, Some (isoformat (now_scheduled + timedelta 30 0)))
    else if (result =? "easy")%string then
      (CardStatus.REVIEWING, Some (isoformat (now_scheduled + timedelta 7 0)))
    else if (result =? "hard")%string then
      (CardStatus.REVIEWING, Some (isoformat (now_scheduled + timedelta 1 0)))
    else if (result =? "difficult")%string then
      (CardStatus.DIFFICULT, Some (isoformat (now_scheduled + timedelta 0 6)))
    else (Flashcard.status card, Flashcard.next_review card) in
  let status :=
    if CardStatus.eqb status CardStatus.NEW then CardStatus.REVIEWING else status in
  set_review card status review_count last_reviewed next_review.

(** [for card in deck.cards]: the cards with the first match reviewed, or
    [None] when no card of the deck has the id. *)
Fixpoint mark_in_cards (cards : list Flashcard.t) (card_id result : string)
    (now_reviewed now_scheduled : Z) : option (list Flashcard.t) :=
  match cards with
  | [] => None
  | card :: cards' =>
      if (Flashcard.card_id card =? card_id)%string
      then Some (review_card card result now_reviewed now_scheduled :: cards')
      else match mark_in_cards cards' card_id result now_reviewed now_scheduled with
           | Some cards'' => Some (card :: cards'')
           | None => None
           end
  end.

(** [for deck in self.decks]: the deck of the first match also counts the review. *)
Fixpoint mark_in_decks (decks : list FlashcardDeck.t) (card_id result : string)
    (now_reviewed now_scheduled : Z) : option (list FlashcardDeck.t) :=
  match decks with
  | [] => None
  | deck :: decks' =>
      match mark_in_cards (FlashcardDeck.cards deck) card_id result now_reviewed now_scheduled with
      | Some cards' =>
          Some (FlashcardDeck.mk (FlashcardDeck.deck_id deck) (FlashcardDeck.topic deck)
                  (FlashcardDeck.description deck) cards' (FlashcardDeck.created_at deck)
                  (FlashcardDeck.total_reviews deck + 1) :: decks')
      | None =>
          match mark_in_decks decks' card_id result now_reviewed now_scheduled with
          | Some decks'' => Some (deck :: decks'')
          | None => None
          end
      end
  end.

(** [mark_card_review]: the returned flag and the decks after the call. *)
Definition mark_card_review (decks : list FlashcardDeck.t) (card_id result : string)
    (now_reviewed now_scheduled : Z) : bool * list FlashcardDeck.t :=
  match mark_in_decks decks card_id result now_reviewed now_scheduled with
  | Some decks' => (true, decks')
  | None => (false, decks)
  end.
End Scheduling.
End FlashcardManager.

(** ** persistence.py: the persisted document *)

Module Json.
(** The values a document is made of: what [json.dump] accepts and
    [json.load] returns.  A [dict] is the list of its items in order. *)
#[local] Unset Elimination Schemes.
Inductive t : Set :=
  | Null
  | Bool (b : bool)
  | Int (z : Z)
  | Float (f : float)
  | Str (s : string)
  | List (l : list t)
  | Dict (d : list (string * t)).
#[local] Set Elimination Schemes.

Fixpoint assoc (k : string) (d : list (string * t)) : option t :=
  match d with
  | [] => None
  | (k', v) :: d' => if (k' =? k)%string then Some v else assoc k d'
  end.

(** [data[k]]: KeyError on a missing key. *)
Definition item (k : string) (data : t) : option t :=
  match data with
  | Dict d => assoc k d
  | _ => None
  end.

(** [data.get(k, default)] *)
Definition get (k : string) (default : t) (data : t) : option t :=
  match data with
  | Dict d => Some (match assoc k d with Some v => v | None => default end)
  | _ => None
  end.

(** The typed readings of a value.  A value of another type than the field
    of the dataclass declares is outside the typed data model and is an
    error here. *)
Definition as_str (v : t) : option string :=
  match v with Str s => Some s | _ => None end.

Definition as_int (v : t) : option Z :=
  match v with Int z => Some z | _ => None end.

Definition as_float (v : t) : option float :=
  match v with Float f => Some f | _ => None end.

Definition as_bool (v : t) : option bool :=
  match v with Bool b => Some b | _ => None end.

Definition as_opt_str (v : t) : option (option string) :=
  match v with Null => Some None | Str s => Some (Some s) | _ => None end.

Definition as_list (v : t) : option (list t) :=
  match v with List l => Some l | _ => None end.

Definition of_opt_str (o : option string) : t :=
  match o with Some s => Str s | None => Null end.

Definition of_strs (l : list string) : t := List (map Str l).
End Json.

Module Err.
Definition bind {A B : Type} (o : option A) (f : A -> option B) : option B :=
  match o with
  | Some a => f a
  | None => None
  end.

(** A list comprehension whose element expression may raise. *)
Fixpoint mapM {A B : Type} (f : A -> option B) (l : list A) : option (list B) :=
  match l with
  | [] => Some []
  | a :: l' =>
      match f a with
      | Some b => match mapM f l' with Some bs => Some (b :: bs) | None => None end
      | None => None
      end
  end.
End Err.

Notation "x <- e ;; k" := (Err.bind e (fun x => k))
  (at level 61, e at next level, right associativity).

Module StorageManager.
Import Json.

(** [_serialize_roadmap] is one nested dict display; each level of it is a
    function here, innermost first.  The same holds for the session of
    [_serialize_progress] and the card of [_serialize_deck]. *)
Definition _serialize_task (t : WeeklyTask.t) : Json.t :=
  Dict [ ("task_id", Str (WeeklyTask.task_id t));
         ("name", Str (WeeklyTask.name t));
         ("description", Str (WeeklyTask.description t));
         ("status", Str (MilestoneStatus.value (WeeklyTask.status t)));
         ("priority", Int (WeeklyTask.priority t)) ].

Definition _serialize_week (w : Week.t) : Json.t :=
  Dict [ ("week_num", Int (Week.week_num w));
         ("name", Str (Week.name w));
         ("description", Str (Week.description w));
         ("status", Str (MilestoneStatus.value (Week.status w)));
         ("tasks", List (map _serialize_task (Week.tasks w))) ].

Definition _serialize_month (m : Month.t) : Json.t :=
  Dict [ ("month_num", Int (Month.month_num m));
         ("name", Str (Month.name m));
         ("description", Str (Month.description m));
         ("status", Str (MilestoneStatus.value (Month.status m)));
         ("weeks", List (map _serialize_week (Month.weeks m))) ].

Definition _serialize_quarter (q : Quarter.t) : Json.t :=
  Dict [ ("quarter_num", Int (Quarter.quarter_num q));
         ("name", Str (Quarter.name q));
         ("description", Str (Quarter.description q));
         ("focus_areas", of_strs (Quarter.focus_areas q));
         ("status", Str (MilestoneStatus.value (Quarter.status q)));
         ("months", List (map _serialize_month (Quarter.months q))) ].

Definition _serialize_year (y : Year.t) : Json.t :=
  Dict [ ("year_num", Int (Year.year_num y));
         ("name", Str (Year.name y));
         ("description", Str (Year.description y));
         ("focus_areas", of_strs (Year.focus_areas y));
         ("status", Str (MilestoneStatus.value (Year.status y)));
         ("quarters", List (map _serialize_quarter (Year.quarters y))) ].

Definition _serialize_roadmap (roadmap : Roadmap.t) : Json.t :=
  Dict [ ("years", List (map _serialize_year (Roadmap.years roadmap)));
         ("created_at", Str (Roadmap.created_at roadmap));
         ("last_updated", Str (Roadmap.last_updated roadmap)) ].

Definition _serialize_session (s : DailySession.t) : Json.t :=
  Dict [ ("date", Str (DailySession.date s));
         ("duration_hours", Float (DailySession.duration_hours s));
         ("topics_covered", of_strs (DailySession.topics_covered s));
         ("resources_used", of_strs (DailySession.resources_used s));
         ("notes", Str (DailySession.notes s));
         ("mood", of_opt_str (DailySession.mood s));
         ("session_id", Str (DailySession.session_id s)) ].

Definition _serialize_progress (progress : ProgressState.t) : Json.t :=
  Dict [ ("daily_sessions", List (map _serialize_session (ProgressState.daily_sessions progress)));
         ("current_streak", Int (ProgressState.current_streak progress));
         ("longest_streak", Int (ProgressState.longest_streak progress));
         ("last_session_date", of_opt_str (ProgressState.last_session_date progress));
         ("total_hours", Float (ProgressState.total_hours progress));
         ("completed_milestones", Int (ProgressState.completed_milestones progress));
         ("total_milestones", Int (ProgressState.total_milestones progress));
         ("updated_at", Str (ProgressState.updated_at progress)) ].

Definition _serialize_resource (resource : Resource.t) : Json.t :=
  Dict [ ("resource_id", Str (Resource.resource_id resource));
         ("title", Str (Resource.title resource));
         ("resource_type", Str (Resource.resource_type resource));
         ("url", Str (Resource.url resource));
         ("difficulty", Str (DifficultyLevel.value (Resource.difficulty resource)));
         ("description", Str (Resource.description resource));
         ("mapped_topics", of_strs (Resource.mapped_topics resource));
         ("status", Str (ResourceStatus.value (Resource.status resource)));
         ("added_date", Str (Resource.added_date resource));
         ("completion_date", of_opt_str (Resource.completion_date resource));
         ("notes", Str (Resource.notes resource)) ].

Definition _serialize_card (c : Flashcard.t) : Json.t :=
  Dict [ ("card_id", Str (Flashcard.card_id c));
         ("question", Str (Flashcard.question c));
         ("answer", Str (Flashcard.answer c));
         ("topic", Str (Flashcard.topic c));
         ("status", Str (CardStatus.value (Flashcard.status c)));
         ("difficulty", Str (DifficultyLevel.value (Flashcard.difficulty c)));
         ("review_count", Int (Flashcard.review_count c));
         ("last_reviewed", of_opt_str (Flashcard.last_reviewed c));
         ("created_at", Str (Flashcard.created_at c));
         ("next_review", of_opt_str (Flashcard.next_review c)) ].

Definition _serialize_deck (deck : FlashcardDeck.t) : Json.t :=
  Dict [ ("deck_id", Str (FlashcardDeck.deck_id deck));
         ("topic", Str (FlashcardDeck.topic deck));
         ("description", Str (FlashcardDeck.description deck));
         ("cards", List (map _serialize_card (FlashcardDeck.cards deck)));
         ("created_at", Str (FlashcardDeck.created_at deck));
         ("total_reviews", Int (FlashcardDeck.total_reviews deck)) ].

Definition _serialize_project (project : GitHubProject.t) : Json.t :=
  Dict [ ("project_id", Str (GitHubProject.project_id project));
         ("name", Str (GitHubProject.name project));
         ("repo_url", Str (GitHubProject.repo_url project));
         ("description", Str (GitHubProject.description project));
         ("skills_covered", of_strs (GitHubProject.skills_covered project));
         ("status", Str (ProjectStatus.value (GitHubProject.status project)));
         ("created_at", Str (GitHubProject.created_at project));
         ("last_updated", Str (GitHubProject.last_updated project));
         ("notes", Str (GitHubProject.notes project));
         ("has_readme", Bool (GitHubProject.has_readme project));
         ("has_docs", Bool (GitHubProject.has_docs project));
         ("has_tests", Bool (GitHubProject.has_tests project));
         ("has_demo", Bool (GitHubProject.has_demo project));
         ("blog_post_url", of_opt_str (GitHubProject.blog_post_url project)) ].

Definition _serialize_tip (tip : WeeklyTip.t) : Json.t :=
  Dict [ ("tip_id", Str (WeeklyTip.tip_id tip));
         ("week", Int (WeeklyTip.week tip));
         ("category", Str (WeeklyTip.category tip));
         ("title", Str (WeeklyTip.title tip));
         ("content", Str (WeeklyTip.content tip));
         ("source", Str (WeeklyTip.source tip));
         ("created_at", Str (WeeklyTip.created_at tip)) ].

Definition _serialize_state (state : AppState.t) : Json.t :=
  Dict [ ("roadmap", _serialize_roadmap (AppState.roadmap state));
         ("progress", _serialize_progress (AppState.progress state));
         ("resources", List (map _serialize_resource (AppState.resources state)));
         ("flashcard_decks", List (map _serialize_deck (AppState.flashcard_decks state)));
         ("github_projects", List (map _serialize_project (AppState.github_projects state)));
         ("weekly_tips", List (map _serialize_tip (AppState.weekly_tips state)));
         ("last_updated", Str (AppState.last_updated state)) ].

Section Deserialize.
(** The text of [datetime.now().isoformat()], the default of the time stamps
    of a document that lacks them. *)
Variable now : string.

(** [Enum(data.get(k, default))] *)
Definition get_enum {E : Set} (of_value : string -> option E) (k default : string)
    (data : Json.t) : option E :=
  v <- get k (Str default) data ;; s <- as_str v ;; of_value s.

Definition item_str (k : string) (data : Json.t) : option string :=
  v <- item k data ;; as_str v.

Definition item_int (k : string) (data : Json.t) : option Z :=
  v <- item k data ;; as_int v.

Definition item_float (k : string) (data : Json.t) : option float :=
  v <- item k data ;; as_float v.

Definition item_strs (k : string) (data : Json.t) : option (list string) :=
  v <- item k data ;; l <- as_list v ;; Err.mapM as_str l.

Definition get_str (k default : string) (data : Json.t) : option string :=
  v <- get k (Str default) data ;; as_str v.

Definition get_int (k : string) (default : Z) (data : Json.t) : option Z :=
  v <- get k (Int default) data ;; as_int v.

Definition get_float (k : string) (default : float) (data : Json.t) : option float :=
  v <- get k (Float default) data ;; as_float v.

Definition get_bool (k : string) (default : bool) (data : Json.t) : option bool :=
  v <- get k (Bool default) data ;; as_bool v.

(** [data.get(k)] of an optional text *)
Definition get_opt_str (k : string) (data : Json.t) : option (option string) :=
  v <- get k Null data ;; as_opt_str v.

Definition get_strs (k : string) (data : Json.t) : option (list string) :=
  v <- get k (List []) data ;; l <- as_list v ;; Err.mapM as_str l.

(** [[f(x) for x in data.get(k, [])]] *)
Definition get_items {T : Type} (f : Json.t -> option T) (k : string) (data : Json.t)
  : option (list T) :=
  v <- get k (List []) data ;; l <- as_list v ;; Err.mapM f l.

Definition _deserialize_task (t : Json.t) : option WeeklyTask.t :=
  task_id <- item_str "task_id" t ;;
  name <- item_str "name" t ;;
  description <- item_str "description" t ;;
  status <- get_enum MilestoneStatus.of_value "status" "not_started" t ;;
  priority <- get_int "priority" 1 t ;;
  Some (WeeklyTask.mk task_id name description status priority).

Definition _deserialize_week (w_data : Json.t) : option Week.t :=
  tasks <- get_items _deserialize_task "tasks" w_data ;;
  week_num <- item_int "week_num" w_data ;;
  name <- item_str "name" w_data ;;
  description <- item_str "description" w_data ;;
  status <- get_enum MilestoneStatus.of_value "status" "not_started" w_data ;;
  Some (Week.mk week_num name description tasks status).

Definition _deserialize_month (m_data : Json.t) : option Month.t :=
  weeks <- get_items _deserialize_week "weeks" m_data ;;
  month_num <- item_int "month_num" m_data ;;
  name <- item_str "name" m_data ;;
  description <- item_str "description" m_data ;;
  status <- get_enum MilestoneStatus.of_value "status" "not_started" m_data ;;
  Some (Month.mk month_num name description weeks status).

Definition _deserialize_quarter (q_data : Json.t) : option Quarter.t :=
  months <- get_items _deserialize_month "months" q_data ;;
  quarter_num <- item_int "quarter_num" q_data ;;
  name <- item_str "name" q_data ;;
  description <- item_str "description" q_data ;;
  focus_areas <- get_strs "focus_areas" q_data ;;
  status <- get_enum MilestoneStatus.of_value "status" "not_started" q_data ;;
  Some (Quarter.mk quarter_num name description focus_areas months status).

Definition _deserialize_year (y_data : Json.t) : option Year.t :=
  quarters <- get_items _deserialize_quarter "quarters" y_data ;;
  year_num <- item_int "year_num" y_data ;;
  name <- item_str "name" y_data ;;
  description <- item_str "description" y_data ;;
  focus_areas <- get_strs "focus_areas" y_data ;;
  status <- get_enum MilestoneStatus.of_value "status" "not_started" y_data ;;
  Some (Year.mk year_num name description focus_areas quarters status).

Definition _deserialize_roadmap (data : Json.t) : option Roadmap.t :=
  years <- get_items _deserialize_year "years" data ;;
  created_at <- get_str "created_at" now data ;;
  last_updated <- get_str "last_updated" now data ;;
  Some (Roadmap.mk years created_at last_updated).

Definition _deserialize_session (s : Json.t) : option DailySession.t :=
  date <- item_str "date" s ;;
  duration_hours <- item_float "duration_hours" s ;;
  topics_covered <- item_strs "topics_covered" s ;;
  resources_used <- item_strs "resources_used" s ;;
  notes <- item_str "notes" s ;;
  mood <- get_opt_str "mood" s ;;
  session_id <- get_str "session_id" now s ;;
  Some (DailySession.mk date duration_hours topics_covered resources_used notes mood session_id).

Definition _deserialize_progress (data : Json.t) : option ProgressState.t :=
  sessions <- get_items _deserialize_session "daily_sessions" data ;;
  current_streak <- get_int "current_streak" 0 data ;;
  longest_streak <- get_int "longest_streak" 0 data ;;
  last_session_date <- get_opt_str "last_session_date" data ;;
  total_hours <- get_float "total_hours" 0%float data ;;
  completed_milestones <- get_int "completed_milestones" 0 data ;;
  total_milestones <- get_int "total_milestones" 0 data ;;
  updated_at <- get_str "updated_at" now data ;;
  Some (ProgressState.mk sessions current_streak longest_streak last_session_date
          total_hours completed_milestones total_milestones updated_at).

Definition _deserialize_resource (data : Json.t) : option Resource.t :=
  resource_id <- item_str "resource_id" data ;;
  title <- item_str "title" data ;;
  resource_type <- item_str "resource_type" data ;;
  url <- item_str "url" data ;;
  difficulty <- (s <- item_str "difficulty" data ;; DifficultyLevel.of_value s) ;;
  description <- item_str "description" data ;;
  mapped_topics <- item_strs "mapped_topics" data ;;
  status <- get_enum ResourceStatus.of_value "status" "todo" data ;;
  added_date <- get_str "added_date" now data ;;
  completion_date <- get_opt_str "completion_date" data ;;
  notes <- get_str "notes" EmptyString data ;;
  Some (Resource.mk resource_id title resource_type url difficulty description
          mapped_topics status added_date completion_date notes).

Definition _deserialize_card (c : Json.t) : option Flashcard.t :=
  card_id <- item_str "card_id" c ;;
  question <- item_str "question" c ;;
  answer <- item_str "answer" c ;;
  topic <- item_str "topic" c ;;
  status <- get_enum CardStatus.of_value "status" "new" c ;;
  difficulty <- get_enum DifficultyLevel.of_value "difficulty" "beginner" c ;;
  review_count <- get_int "review_count" 0 c ;;
  last_reviewed <- get_opt_str "last_reviewed" c ;;
  created_at <- get_str "created_at" now c ;;
  next_review <- get_opt_str "next_review" c ;;
  Some (Flashcard.mk card_id question answer topic status difficulty review_count
          last_reviewed created_at next_review).

Definition _deserialize_deck (data : Json.t) : option FlashcardDeck.t :=
  cards <- get_items _deserialize_card "cards" data ;;
  deck_id <- item_str "deck_id" data ;;
  topic <- item_str "topic" data ;;
  description <- item_str "description" data ;;
  created_at <- get_str "created_at" now data ;;
  total_reviews <- get_int "total_reviews" 0 data ;;
  Some (FlashcardDeck.mk deck_id topic description cards created_at total_reviews).

Definition _deserialize_project (data : Json.t) : option GitHubProject.t :=
  project_id <- item_str "project_id" data ;;
  name <- item_str "name" data ;;
  repo_url <- item_str "repo_url" data ;;
  description <- item_str "description" data ;;
  skills_covered <- item_strs "skills_covered" data ;;
  status <- get_enum ProjectStatus.of_value "status" "planning" data ;;
  created_at <- get_str "created_at" now data ;;
  last_updated <- get_str "last_updated" now data ;;
  notes <- get_str "notes" EmptyString data ;;
  has_readme <- get_bool "has_readme" false data ;;
  has_docs <- get_bool "has_docs" false data ;;
  has_tests <- get_bool "has_tests" false data ;;
  has_demo <- get_bool "has_demo" false data ;;
  blog_post_url <- get_opt_str "blog_post_url" data ;;
  Some (GitHubProject.mk project_id name repo_url description skills_covered status
          created_at last_updated notes has_readme has_docs has_tests has_demo
          blog_post_url).

Definition _deserialize_tip (data : Json.t) : option WeeklyTip.t :=
  tip_id <- item_str "tip_id" data ;;
  week <- item_int "week" data ;;
  category <- item_str "category" data ;;
  title <- item_str "title" data ;;
  content <- item_str "content" data ;;
  source <- get_str "source" "template" data ;;
  created_at <- get_str "created_at" now data ;;
  Some (WeeklyTip.mk tip_id week category title content source created_at).

Definition _deserialize_state (data : Json.t) : option AppState.t :=
  roadmap <- (d <- get "roadmap" (Dict []) data ;; _deserialize_roadmap d) ;;
  progress <- (d <- get "progress" (Dict []) data ;; _deserialize_progress d) ;;
  resources <- get_items _deserialize_resource "resources" data ;;
  decks <- get_items _deserialize_deck "flashcard_decks" data ;;
  projects <- get_items _deserialize_project "github_projects" data ;;
  tips <- get_items _deserialize_tip "weekly_tips" data ;;
  last_updated <- get_str "last_updated" now data ;;
  Some (AppState.mk roadmap progress resources decks projects tips last_updated).
End Deserialize.
End StorageManager.

(** ** A reference [datetime]

    The managers are stated over any [strptime], [isoformat] and
    [fromisoformat]; the examples run them with the functions below, written
    after the pure-Python [datetime] module.  The two parsers accept the
    texts the printers write (zero-padded fields; [strptime] and
    [fromisoformat] of Python accept some more). *)

Module Datetime.
Definition _is_leap (year : Z) : bool :=
  (year mod 4 =? 0) && (negb (year mod 100 =? 0) || (year mod 400 =? 0)).

Definition _days_before_year (year : Z) : Z :=
  let y := year - 1 in y * 365 + y / 4 - y / 100 + y / 400.

Definition _DAYS_IN_MONTH : list Z := [-1; 31; 28; 31; 30; 31; 30; 31; 31; 30; 31; 30; 31].
Definition _DAYS_BEFORE_MONTH : list Z :=
  [-1; 0; 31; 59; 90; 120; 151; 181; 212; 243; 273; 304; 334].

Definition _days_in_month (year month : Z) : Z :=
  if (month =? 2) && _is_leap year then 29
  else nth (Z.to_nat month) _DAYS_IN_MONTH 0.

Definition _days_before_month (year month : Z) : Z :=
  nth (Z.to_nat month) _DAYS_BEFORE_MONTH 0
  + (if (2 <? month) && _is_leap year then 1 else 0).

Definition _ymd2ord (year month day : Z) : Z :=
  _days_before_year year + _days_before_month year month + day.

Definition _ord2ymd (n : Z) : Z * Z * Z :=
  let n := n - 1 in
  let n400 := n / 146097 in
  let n := n mod 146097 in
  let year := n400 * 400 + 1 in
  let n100 := n / 36524 in
  let n := n mod 36524 in
  let n4 := n / 1461 in
  let n := n mod 1461 in
  let n1 := n / 365 in
  let n := n mod 365 in
  let year := year + n100 * 100 + n4 * 4 + n1 in
  if (n1 =? 4) || (n100 =? 4) then (year - 1, 12, 31)
  else
    let leapyear := (n1 =? 3) && (negb (n4 =? 24) || (n100 =? 3)) in
    let month := Z.shiftr (n + 50) 5 in
    let preceding := nth (Z.to_nat month) _DAYS_BEFORE_MONTH 0
                     + (if (2 <? month) && leapyear then 1 else 0) in
    if n <? preceding then
      let month := month - 1 in
      let preceding := preceding
                       - (nth (Z.to_nat month) _DAYS_IN_MONTH 0
                          + (if (month =? 2) && leapyear then 1 else 0)) in
      (year, month, n - preceding + 1)
    else (year, month, n - preceding + 1).

(** [n] written with [width] digits, zeros in front. *)
Fixpoint pad (width : nat) (n : Z) : string :=
  match width with
  | O => EmptyString
  | S w => pad w (n / 10) ++ String (ascii_of_nat (48 + Z.to_nat (n mod 10))) EmptyString
  end.

Definition digit_value (c : ascii) : option Z :=
  let n := nat_of_ascii c in
  if (48 <=? n)%nat && (n <=? 57)%nat then Some (Z.of_nat (n - 48)) else None.

(** Exactly [width] digits at the head of [s]: their value and the rest. *)
Fixpoint number (width : nat) (acc : Z) (s : string) : option (Z * string) :=
  match width with
  | O => Some (acc, s)
  | S w =>
      match s with
      | String c s' =>
          match digit_value c with
          | Some d => number w (10 * acc + d) s'
          | None => None
          end
      | EmptyString => None
      end
  end.

(** The character [c] at the head of [s]: the rest. *)
Definition expect (c : ascii) (s : string) : option string :=
  match s with
  | String c' s' => if Ascii.eqb c c' then Some s' else None
  | EmptyString => None
  end.

(** A date [YYYY-MM-DD] at the head of [s]: its ordinal and the rest. *)
Definition date_prefix (s : string) : option (Z * string) :=
  y <- number 4 0 s ;;
  s1 <- expect "-" (snd y) ;;
  m <- number 2 0 s1 ;;
  s2 <- expect "-" (snd m) ;;
  d <- number 2 0 s2 ;;
  let '(year, month, day) := (fst y, fst m, fst d) in
  if (1 <=? year) && (1 <=? month) && (month <=? 12)
     && (1 <=? day) && (day <=? _days_in_month year month)
  then Some (_ymd2ord year month day, snd d)
  else None.

(** [datetime.strptime(s, "%Y-%m-%d")] as a day. *)
Definition strptime (s : string) : option Z :=
  match date_prefix s with
  | Some (day, EmptyString) => Some day
  | _ => None
  end.

(** [date.strftime("%Y-%m-%d")] of a day. *)
Definition strftime (day : Z) : string :=
  let '(y, m, d) := _ord2ymd day in
  pad 4 y ++ "-" ++ pad 2 m ++ "-" ++ pad 2 d.

Definition microseconds_per_day : Z := 86400 * 1000000.

(** The instant of [hh:mm:ss.us] on the day [day], in microseconds. *)
Definition instant (day hh mm ss us : Z) : Z :=
  (day - 1) * microseconds_per_day + ((hh * 60 + mm) * 60 + ss) * 1000000 + us.

(** [datetime.isoformat()]: the microseconds are left out when they are 0. *)
Definition isoformat (t : Z) : string :=
  let day := t / microseconds_per_day + 1 in
  let r := t mod microseconds_per_day in
  let us := r mod 1000000 in
  let secs := r / 1000000 in
  strftime day ++ "T" ++ pad 2 (secs / 3600) ++ ":" ++ pad 2 (secs / 60 mod 60)
  ++ ":" ++ pad 2 (secs mod 60)
  ++ (if us =? 0 then EmptyString else "." ++ pad 6 us).

(** [datetime.fromisoformat] on a text of [isoformat]. *)
Definition fromisoformat (s : string) : option Z :=
  d <- date_prefix s ;;
  s1 <- expect "T" (snd d) ;;
  hh <- number 2 0 s1 ;;
  s2 <- expect ":" (snd hh) ;;
  mm <- number 2 0 s2 ;;
  s3 <- expect ":" (snd mm) ;;
  ss <- number 2 0 s3 ;;
  if (fst hh <? 24) && (fst mm <? 60) && (fst ss <? 60) then
    match snd ss with
    | EmptyString => Some (instant (fst d) (fst hh) (fst mm) (fst ss) 0)
    | rest =>
        s4 <- expect "." rest ;;
        us <- number 6 0 s4 ;;
        match snd us with
        | EmptyString => Some (instant (fst d) (fst hh) (fst mm) (fst ss) (fst us))
        | _ => None
        end
    end
  else None.

(** The day of 2024-01-01 and the instant of 2024-01-01T00:00:00. *)
Definition day_2024_01_01 : Z := 738886.
Definition t_2024_01_01 : Z := instant day_2024_01_01 0 0 0 0.
End Datetime.

(** ** The vocabulary of the specification *)

(** The four review outcomes and the transition table. *)
Module Outcome.
Inductive t : Set := MASTERED | EASY | HARD | DIFFICULT.

(** The text [mark_card_review] receives for an outcome. *)
Definition text (o : t) : string :=
  match o with
  | MASTERED => "mastered"
  | EASY => "easy"
  | HARD => "hard"
  | DIFFICULT => "difficult"
  end.

Definition new_status (o : t) : CardStatus.t :=
  match o with
  | MASTERED => CardStatus.MASTERED
  | EASY => CardStatus.REVIEWING
  | HARD => CardStatus.REVIEWING
  | DIFFICULT => CardStatus.DIFFICULT
  end.

(** What the table adds to [as_of]: 30 days, 7 days, 1 day, 6 hours. *)
Definition interval (o : t) : Z :=
  match o with
  | MASTERED => 30 * 24 * 3600 * 1000000
  | EASY => 7 * 24 * 3600 * 1000000
  | HARD => 1 * 24 * 3600 * 1000000
  | DIFFICULT => 6 * 3600 * 1000000
  end.

(** A result text is recognized when it is one of the four. *)
Definition recognized (result : string) : bool :=
  (result =? "easy")%string || (result =? "hard")%string
  || (result =? "difficult")%string || (result =? "mastered")%string.
End Outcome.

(** The card an id denotes: the first card with this id, decks in order,
    together with its deck. *)
Fixpoint find_in_cards (card_id : string) (cards : list Flashcard.t) : option Flashcard.t :=
  match cards with
  | [] => None
  | card :: cards' =>
      if (Flashcard.card_id card =? card_id)%string then Some card
      else find_in_cards card_id cards'
  end.

Fixpoint find_card (card_id : string) (decks : list FlashcardDeck.t)
  : option (FlashcardDeck.t * Flashcard.t) :=
  match decks with
  | [] => None
  | deck :: decks' =>
      match find_in_cards card_id (FlashcardDeck.cards deck) with
      | Some card => Some (deck, card)
      | None => find_card card_id decks'
      end
  end.

(** Streaks: runs of consecutive days with a session. *)
Module Streak.
Section Days.
Variable strptime : string -> option Z.

(** The day has a logged session. *)
Definition logged (sessions : list DailySession.t) (day : Z) : Prop :=
  exists s, In s sessions /\ strptime (DailySession.date s) = Some day.

(** Every date of the history is a date. *)
Definition dated (sessions : list DailySession.t) : Prop :=
  forall s, In s sessions -> strptime (DailySession.date s) <> None.

(** The dates are written so that the order of the texts is the order of
    the days, as it is for the zero-padded text [log_session] writes. *)
Definition text_order_is_day_order (sessions : list DailySession.t) : Prop :=
  forall s1 s2 d1 d2,
    In s1 sessions -> In s2 sessions ->
    strptime (DailySession.date s1) = Some d1 ->
    strptime (DailySession.date s2) = Some d2 ->
    (String.leb (DailySession.date s1) (DailySession.date s2) = true <-> d1 <= d2).
End Days.

(** The [len] days from [first] on are all in [L]: a run of consecutive days. *)
Definition run (L : Z -> Prop) (first len : Z) : Prop :=
  forall j, 0 <= j < len -> L (first + j).

(** [n] is the maximum length of a run. *)
Definition longest_run (L : Z -> Prop) (n : Z) : Prop :=
  0 < n /\ (exists first, run L first n) /\ forall first len, run L first len -> len <= n.

(** [last] is the most recent day of [L]. *)
Definition most_recent (L : Z -> Prop) (last : Z) : Prop :=
  L last /\ forall d, L d -> d <= last.

(** [n] is the length of the run that ends at [last]: the [n] days up to
    [last] are in [L] and the day before them is not. *)
Definition run_ending_at (L : Z -> Prop) (last n : Z) : Prop :=
  0 < n /\ run L (last - n + 1) n /\ ~ L (last - n).

(** What the loop of [_update_streak] has established when it has gone
    through the days [seen], the latest of them [prev]: [temp] is the length
    of the run ending at [prev], [longest] is 0 or the length of a run, and
    no run is longer than both. *)
Definition scanned (seen : list Z) (prev longest temp : Z) : Prop :=
  In prev seen
  /\ (forall d, In d seen -> d <= prev)
  /\ run_ending_at (fun d => In d seen) prev temp
  /\ 0 <= longest
  /\ (longest = 0 \/ exists first, run (fun d => In d seen) first longest)
  /\ (forall first len, run (fun d => In d seen) first len -> len <= Z.max longest temp).
End Streak.

(** The ordering of a review session. *)
Module Selection.
Section Tiers.
Variable fromisoformat : string -> option Z.

(** The card has a [next_review] and it has arrived. *)
Definition due (as_of : Z) (card : Flashcard.t) : bool :=
  match Flashcard.next_review card with
  | Some text =>
      negb (text =? EmptyString)%string
      && match fromisoformat text with
         | Some t => t <=? as_of
         | None => false
         end
  | None => false
  end.

(** The tiers in the words of the specification: NEW cards, DIFFICULT
    cards, REVIEWING cards that are due, all remaining cards. *)
Definition claimed_tier (as_of : Z) (card : Flashcard.t) : Z :=
  match Flashcard.status card with
  | CardStatus.NEW => 0
  | CardStatus.DIFFICULT => 1
  | CardStatus.REVIEWING => if due as_of card then 2 else 3
  | CardStatus.MASTERED => 3
  end.

(** The tiers with the third one open to every card that is neither NEW nor
    DIFFICULT: a due card, REVIEWING or MASTERED. *)
Definition due_tier (as_of : Z) (card : Flashcard.t) : Z :=
  match Flashcard.status card with
  | CardStatus.NEW => 0
  | CardStatus.DIFFICULT => 1
  | _ => if due as_of card then 2 else 3
  end.

(** The text of [next_review] can be read wherever the selection reads it. *)
Definition readable (card : Flashcard.t) : Prop :=
  match Flashcard.status card, Flashcard.next_review card with
  | CardStatus.NEW, _ | CardStatus.DIFFICULT, _ | _, None => True
  | _, Some text => text = EmptyString \/ fromisoformat text <> None
  end.
End Tiers.

(** [a] may stand in front of [b]: a lower tier, or the same tier and no
    more reviews. *)
Definition before (tier : Flashcard.t -> Z) (a b : Flashcard.t) : Prop :=
  tier a < tier b
  \/ (tier a = tier b /\ Flashcard.review_count a <= Flashcard.review_count b).

Definition beforeb (tier : Flashcard.t -> Z) (a b : Flashcard.t) : bool :=
  (tier a <? tier b)
  || ((tier a =? tier b) && (Flashcard.review_count a <=? Flashcard.review_count b)).

(** The cards of one tier and one review count. *)
Definition same_key (tier : Flashcard.t -> Z) (k n : Z) (card : Flashcard.t) : bool :=
  (tier card =? k) && (Flashcard.review_count card =? n).
End Selection.

(** ** Data of the examples *)

Module Sample.
Definition card (card_id : string) (status : CardStatus.t) (review_count : Z)
    (last_reviewed next_review : option string) : Flashcard.t :=
  Flashcard.mk card_id "Q" "A" "Test" status DifficultyLevel.BEGINNER review_count
    last_reviewed "2024-01-01T09:00:00" next_review.

Definition deck (cards : list Flashcard.t) (total_reviews : Z) : FlashcardDeck.t :=
  FlashcardDeck.mk "d1" "Test" EmptyString cards "2024-01-01T09:00:00" total_reviews.

(** A deck with one card never reviewed. *)
Definition fresh_decks : list FlashcardDeck.t :=
  [deck [card "c1" CardStatus.NEW 0 None None] 0].

(** A deck whose card was mastered on 2024-01-01 at 10:00. *)
Definition mastered_decks : list FlashcardDeck.t :=
  [deck [card "c1" CardStatus.MASTERED 1 (Some "2024-01-01T10:00:00")
           (Some "2024-01-31T10:00:00")] 1].

(** 2024-01-02 at 10:00. *)
Definition t_review : Z := Datetime.instant (Datetime.day_2024_01_01 + 1) 10 0 0 0.

(** A mastered card reviewed five times whose review fell due on
    2024-01-01, and a card under review, never counted, due on 2024-02-01. *)
Definition mastered_due : Flashcard.t :=
  card "m" CardStatus.MASTERED 5 (Some "2023-12-02T10:00:00") (Some "2024-01-01T10:00:00").
Definition reviewing_later : Flashcard.t :=
  card "r" CardStatus.REVIEWING 0 (Some "2024-01-25T10:00:00") (Some "2024-02-01T10:00:00").
Definition mixed_decks : list FlashcardDeck.t := [deck [mastered_due; reviewing_later] 6].

Definition session (date : string) (duration_hours : float) : DailySession.t :=
  DailySession.mk date duration_hours ["Test"] [] EmptyString None (date ++ "T10:00:00").

(** A progress state with the given history and streak fields. *)
Definition progress (sessions : list DailySession.t) (current longest : Z)
  : ProgressState.t :=
  ProgressState.mk sessions current longest None 0%float 0 0 "2024-01-01T09:00:00".

(** Sessions on the first three days of 2024, the second day twice. *)
Definition three_days : list DailySession.t :=
  [session "2024-01-02" 1.5%float; session "2024-01-01" 1.5%float;
   session "2024-01-03" 1.5%float; session "2024-01-02" 0.5%float].

(** Sessions on 2024-01-01, 2024-01-02 and 2024-01-05. *)
Definition gap_days : list DailySession.t :=
  [session "2024-01-01" 1.5%float; session "2024-01-02" 1.5%float;
   session "2024-01-05" 1.5%float].
End Sample.

(** ** business_logic.py: FlashcardManager, decks and cards *)

Module FlashcardDecks.
(** [create_deck]: [new_id] is the text of [str(uuid.uuid4())[:8]], [now]
    the text of [datetime.now().isoformat()] for [created_at].  The result is
    the deck returned and the decks after the call. *)
Definition create_deck (decks : list FlashcardDeck.t) (topic description new_id now : string)
  : FlashcardDeck.t * list FlashcardDeck.t :=
  let deck := FlashcardDeck.mk new_id topic description [] now 0 in
  (deck, (decks ++ [deck])%list).

Definition new_card (deck : FlashcardDeck.t) (question answer : string)
    (difficulty : DifficultyLevel.t) (new_id now : string) : Flashcard.t :=
  Flashcard.mk new_id question answer (FlashcardDeck.topic deck) CardStatus.NEW difficulty
    0 None now None.

Definition with_card (deck : FlashcardDeck.t) (card : Flashcard.t) : FlashcardDeck.t :=
  FlashcardDeck.mk (FlashcardDeck.deck_id deck) (FlashcardDeck.topic deck)
    (FlashcardDeck.description deck) (FlashcardDeck.cards deck ++ [card])%list
    (FlashcardDeck.created_at deck) (FlashcardDeck.total_reviews deck).

(** [add_card]: the card returned ([None] when no deck has the id) and the
    decks after the call. *)
Fixpoint add_card (decks : list FlashcardDeck.t) (deck_id question answer : string)
    (difficulty : DifficultyLevel.t) (new_id now : string)
  : option Flashcard.t * list FlashcardDeck.t :=
  match decks with
  | [] => (None, [])
  | deck :: decks' =>
      if (FlashcardDeck.deck_id deck =? deck_id)%string then
        let card := new_card deck question answer difficulty new_id now in
        (Some card, with_card deck card :: decks')
      else
        let '(r, decks'') := add_card decks' deck_id question answer difficulty new_id now in
        (r, deck :: decks'')
  end.

(** Calls of [mark_card_review] for one card, one after the other: each
    review is a result text with the two clock readings of its call. *)
Fixpoint review_repeatedly (isoformat : Z -> string) (decks : list FlashcardDeck.t)
    (card_id : string) (reviews : list (string * (Z * Z))) : list FlashcardDeck.t :=
  match reviews with
  | [] => decks
  | (result, (now_reviewed, now_scheduled)) :: reviews' =>
      review_repeatedly isoformat
        (snd (FlashcardManager.mark_card_review isoformat decks card_id result
                now_reviewed now_scheduled))
        card_id reviews'
  end.
End FlashcardDecks.

(** ** business_logic.py: ResourceManager *)

Module ResourceManager.
(** [add_resource]: [new_id] is the text of [str(uuid.uuid4())[:8]], [now]
    the text of [datetime.now().isoformat()] for [added_date]. *)
Definition add_resource (resources : list Resource.t) (title resource_type url : string)
    (difficulty : DifficultyLevel.t) (description : string) (topics : list string)
    (new_id now : string) : Resource.t * list Resource.t :=
  let resource := Resource.mk new_id title resource_type url difficulty description topics
                    ResourceStatus.TODO now None EmptyString in
  (resource, (resources ++ [resource])%list).

(** What [mark_resource_status] writes to the resource it found. *)
Definition with_status (resource : Resource.t) (status : ResourceStatus.t) (now : string)
  : Resource.t :=
  Resource.mk (Resource.resource_id resource) (Resource.title resource)
    (Resource.resource_type resource) (Resource.url resource)
    (Resource.difficulty resource) (Resource.description resource)
    (Resource.mapped_topics resource) status (Resource.added_date resource)
    (match status with
     | ResourceStatus.COMPLETED => Some now
     | _ => Resource.completion_date resource
     end)
    (Resource.notes resource).

(** [mark_resource_status]: the flag returned and the resources after the
    call; [now] is the text of [datetime.now().isoformat()]. *)
Fixpoint mark_resource_status (resources : list Resource.t) (resource_id : string)
    (status : ResourceStatus.t) (now : string) : bool * list Resource.t :=
  match resources with
  | [] => (false, [])
  | resource :: resources' =>
      if (Resource.resource_id resource =? resource_id)%string
      then (true, with_status resource status now :: resources')
      else
        let '(found, resources'') := mark_resource_status resources' resource_id status now in
        (found, resource :: resources'')
  end.

(** [[r for r in self.resources if topic in r.mapped_topics]] *)
Definition get_resources_by_topic (resources : list Resource.t) (topic : string)
  : list Resource.t :=
  filter (fun r => existsb (String.eqb topic) (Resource.mapped_topics r)) resources.
End ResourceManager.

(** ** business_logic.py: GitHubProjectManager *)

Module GitHubProjectManager.
Definition add_project (projects : list GitHubProject.t) (name repo_url description : string)
    (skills : list string) (new_id now_created now_updated : string)
  : GitHubProject.t * list GitHubProject.t :=
  let project := GitHubProject.mk new_id name repo_url description skills
                   ProjectStatus.PLANNING now_created now_updated EmptyString
                   false false false false None in
  (project, (projects ++ [project])%list).

Definition with_status (project : GitHubProject.t) (status : ProjectStatus.t) (now : string)
  : GitHubProject.t :=
  GitHubProject.mk (GitHubProject.project_id project) (GitHubProject.name project)
    (GitHubProject.repo_url project) (GitHubProject.description project)
    (GitHubProject.skills_covered project) status (GitHubProject.created_at project) now
    (GitHubProject.notes project) (GitHubProject.has_readme project)
    (GitHubProject.has_docs project) (GitHubProject.has_tests project)
    (GitHubProject.has_demo project) (GitHubProject.blog_post_url project).

Fixpoint update_project_status (projects : list GitHubProject.t) (project_id : string)
    (status : ProjectStatus.t) (now : string) : bool * list GitHubProject.t :=
  match projects with
  | [] => (false, [])
  | project :: projects' =>
      if (GitHubProject.project_id project =? project_id)%string
      then (true, with_status project status now :: projects')
      else
        let '(found, projects'') := update_project_status projects' project_id status now in
        (found, project :: projects'')
  end.

Definition valid_features : list string := ["has_readme"; "has_docs"; "has_tests"; "has_demo"].

(** [setattr(project, feature, value)] for a valid feature, and the new
    [last_updated]. *)
Definition with_feature (project : GitHubProject.t) (feature : string) (value : bool)
    (now : string) : GitHubProject.t :=
  let named name := (feature =? name)%string in
  GitHubProject.mk (GitHubProject.project_id project) (GitHubProject.name project)
    (GitHubProject.repo_url project) (GitHubProject.description project)
    (GitHubProject.skills_covered project) (GitHubProject.status project)
    (GitHubProject.created_at project) now (GitHubProject.notes project)
    (if named "has_readme" then value else GitHubProject.has_readme project)
    (if named "has_docs" then value else GitHubProject.has_docs project)
    (if named "has_tests" then value else GitHubProject.has_tests project)
    (if named "has_demo" then value else GitHubProject.has_demo project)
    (GitHubProject.blog_post_url project).

Fixpoint set_feature (projects : list GitHubProject.t) (project_id feature : string)
    (value : bool) (now : string) : bool * list GitHubProject.t :=
  match projects with
  | [] => (false, [])
  | project :: projects' =>
      if (GitHubProject.project_id project =? project_id)%string
      then (true, with_feature project feature value now :: projects')
      else
        let '(found, projects'') := set_feature projects' project_id feature value now in
        (found, project :: projects'')
  end.

(** [add_project_feature]: the feature name is checked first, then the
    projects are searched. *)
Definition add_project_feature (projects : list GitHubProject.t) (project_id feature : string)
    (value : bool) (now : string) : bool * list GitHubProject.t :=
  if existsb (String.eqb feature) valid_features
  then set_feature projects project_id feature value now
  else (false, projects).
End GitHubProjectManager.

(** ** Python built-ins used by the tips *)

Module PyStr.
(** [l[i]]: a negative index counts from the end; [None] is the IndexError. *)
Definition index {T : Type} (l : list T) (i : Z) : option T :=
  let n := Z.of_nat (List.length l) in
  if i <? 0 then
    if 0 <=? i + n then nth_error l (Z.to_nat (i + n)) else None
  else nth_error l (Z.to_nat i).

(** [a % b]: the remainder has the sign of [b]; [None] is the
    ZeroDivisionError. *)
Definition modulo (a b : Z) : option Z :=
  if b =? 0 then None else Some (a mod b).

(** [d.get(k, default)] *)
Fixpoint dict_get {V : Type} (d : list (string * V)) (k : string) (default : V) : V :=
  match d with
  | [] => default
  | (k', v) :: d' => if (k' =? k)%string then v else dict_get d' k default
  end.

(** [l[-n:]] for a positive [n]: the last [n] items, all of a shorter list. *)
Definition last_items {T : Type} (l : list T) (n : nat) : list T :=
  skipn (List.length l - n)%nat l.

(** The texts below are ASCII; the case operations are those of [str] on
    ASCII letters and leave every other character as it is. *)
Definition is_lower (c : ascii) : bool :=
  ((97 <=? N_of_ascii c) && (N_of_ascii c <=? 122))%N.

Definition is_upper (c : ascii) : bool :=
  ((65 <=? N_of_ascii c) && (N_of_ascii c <=? 90))%N.

Definition to_upper (c : ascii) : ascii :=
  if is_lower c then ascii_of_N (N_of_ascii c - 32) else c.

Definition to_lower (c : ascii) : ascii :=
  if is_upper c then ascii_of_N (N_of_ascii c + 32) else c.

(** [s.replace(old, new)] for one-character [old] and [new]. *)
Fixpoint replace_char (old new : ascii) (s : string) : string :=
  match s with
  | EmptyString => EmptyString
  | String c s' =>
      String (if Ascii.eqb c old then new else c) (replace_char old new s')
  end.

(** [s.title()]: a letter that follows a letter is lowered, any other letter
    is raised. *)
Fixpoint title_from (previous_is_cased : bool) (s : string) : string :=
  match s with
  | EmptyString => EmptyString
  | String c s' =>
      String (if previous_is_cased then to_lower c else to_upper c)
        (title_from (is_lower c || is_upper c) s')
  end.

Definition title (s : string) : string := title_from false s.

Fixpoint upper (s : string) : string :=
  match s with
  | EmptyString => EmptyString
  | String c s' => String (to_upper c) (upper s')
  end.

(** The newline character. *)
Definition nl : string := String (ascii_of_N 10) EmptyString.

(** [sep.join(lines)] *)
Fixpoint join (sep : string) (lines : list string) : string :=
  match lines with
  | [] => EmptyString
  | [line] => line
  | line :: lines' => (line ++ sep ++ join sep lines')%string
  end.

(** [s * n] *)
Fixpoint times (s : string) (n : nat) : string :=
  match n with
  | O => EmptyString
  | S n' => (s ++ times s n')%string
  end.
End PyStr.

(** ** business_logic.py: CoachingTipsManager *)

Module CoachingTipsManager.
Definition TEMPLATE_TIPS : list (string * list string) :=
  [ ("learning_strategy",
      [ "Learn by doing: Don't just watch videos. Code along and build small projects."
      ; "Spaced repetition: Review materials at increasing intervals (1 day, 3 days, 1 week, etc.)"
      ; "Active recall: Test yourself frequently with flashcards and practice problems."
      ; "Mix resources: Combine courses, papers, videos, and hands-on projects for deep learning."
      ; "Teach others: Explaining concepts solidifies understanding. Write blog posts or teach a friend."
      ; "Deep work: Block 2-3 hour focus sessions for complex topics. Avoid context switching."
      ; "Interleaving: Mix topics and problems rather than doing one thing at a time."
      ])
  ; ("time_management",
      [ "Schedule learning like meetings: Block 1.5-2 hour sessions 4-5 times/week (15-20h total)."
      ; "Morning learning: Your brain is freshest in the morning. Save admin tasks for afternoon."
      ; "Use a timer: Pomodoro (25min focused + 5min break) keeps energy high."
      ; "Batch similar tasks: Do all flashcard reviews at once, not spread throughout the day."
      ; "Track time: Log each session. Awareness helps optimize your schedule."
      ; "Weekly review: Every Sunday, plan your learning topics for the upcoming week."
      ; "Protect deep focus: Turn off notifications. Use 'Do Not Disturb' during learning blocks."
      ])
  ; ("portfolio",
      [ "Start a project early: Don't wait until you're 'ready'. Imperfect action beats perfect inaction."
      ; "Deploy something: A live demo (Hugging Face Spaces, GitHub Pages, Vercel) impresses more than notebooks."
      ; "Document well: Great documentation > great code. Recruiters read README first."
      ; "Share your learning: Tweet about insights, write Medium posts, or create YouTube videos."
      ; "Contribute to open source: Shows collaboration and real-world impact."
      ; "Diverse projects: Show breadth (ML basics, NLP, MLOps) and depth (specialized domain)."
      ; "Polish your repos: Clean code, tests, CI/CD, licenses. Shows professionalism."
      ])
  ; ("networking",
      [ "Join communities: Participate in online forums, Discord/Slack groups, and ML communities."
      ; "Attend events: Conferences, webinars, local meetups. Network with peers and senior engineers."
      ; "Engage on social media: Follow experts on Twitter/LinkedIn. Share your progress thoughtfully."
      ; "Find mentors: Reach out respectfully to senior engineers. Most are happy to help."
      ; "Collaborate: Partner on projects with others. Strengthens skills and builds relationships."
      ; "Interview prep: Practice with peers. Mock interviews reduce anxiety and improve performance."
      ; "Target companies: Follow Alphabet, Meta, OpenAI job boards. Know what skills they want."
      ])
  ].

Definition categories : list string :=
  ["learning_strategy"; "time_management"; "portfolio"; "networking"].

(** The tip of one turn of the loop: [tip_id] is the text of
    [str(uuid.uuid4())[:8]], [now] that of [datetime.now().isoformat()]. *)
Definition new_tip (tip_id now : string) (week_num : Z) (category selected_tip : string)
  : WeeklyTip.t :=
  WeeklyTip.mk tip_id week_num category
    (PyStr.title (PyStr.replace_char "_" " " category) ++ " Tip")%string
    selected_tip "template" now.

(** The loop of [generate_weekly_tips] from its [k]-th turn on: [uuid k] and
    [now k] are the id and the clock text of that turn.  [None] is the
    exception of the modulus or of the index. *)
Fixpoint tips_loop (uuid now : nat -> string) (week_num : Z) (k : nat)
    (cats : list string) (tips tips_list : list WeeklyTip.t)
  : option (list WeeklyTip.t * list WeeklyTip.t) :=
  match cats with
  | [] => Some (tips, tips_list)
  | category :: cats' =>
      let template_tips := PyStr.dict_get TEMPLATE_TIPS category [] in
      i <- PyStr.modulo week_num (Z.of_nat (List.length template_tips)) ;;
      selected_tip <- PyStr.index template_tips i ;;
      let tip := new_tip (uuid k) (now k) week_num category selected_tip in
      tips_loop uuid now week_num (S k) cats' (tips ++ [tip])%list (tips_list ++ [tip])%list
  end.

(** [generate_weekly_tips]: the tips returned and [tips_list] after the
    call.  [current_focus] is not read. *)
Definition generate_weekly_tips (tips_list : list WeeklyTip.t) (uuid now : nat -> string)
    (week_num : Z) (current_focus : string)
  : option (list WeeklyTip.t * list WeeklyTip.t) :=
  tips_loop uuid now week_num 0 categories [] tips_list.

Definition rule : string := PyStr.times "=" 70.

Definition tip_lines (tip : WeeklyTip.t) : list string :=
  [ (PyStr.nl ++ PyStr.replace_char "_" " " (PyStr.upper (WeeklyTip.category tip)))%string
  ; ("  " ++ WeeklyTip.content tip)%string ].

Definition recent_tips (tips_list : list WeeklyTip.t) : list WeeklyTip.t :=
  match tips_list with
  | [] => []
  | _ => PyStr.last_items tips_list 4
  end.

Definition get_weekly_tips_summary (tips_list : list WeeklyTip.t) : string :=
  let lines := [rule; "THIS WEEK'S COACHING TIPS"; rule] in
  let lines :=
    match recent_tips tips_list with
    | [] =>
        (lines ++ [(PyStr.nl ++ "No tips generated yet. Use 'coach tips' command to generate weekly guidance.")%string])%list
    | recent => (lines ++ flat_map tip_lines recent)%list
    end in
  PyStr.join PyStr.nl lines.

End CoachingTipsManager.

(** The tips of a week, to state what [generate_weekly_tips] builds. *)
Module Tips.
(** The text of a category in a week: the tables have seven texts each. *)
Definition tip_of_week (category : string) (week_num : Z) : string :=
  nth (Z.to_nat (week_num mod 7))
    (PyStr.dict_get CoachingTipsManager.TEMPLATE_TIPS category []) EmptyString.

(** One tip per category, in the order of the categories, the [k]-th with
    the id and the clock text of the [k]-th turn. *)
Definition of_week (uuid now : nat -> string) (week_num : Z) : list WeeklyTip.t :=
  map (fun kc : nat * string =>
         CoachingTipsManager.new_tip (uuid (fst kc)) (now (fst kc)) week_num (snd kc)
           (tip_of_week (snd kc) week_num))
      (combine (seq 0 4) CoachingTipsManager.categories).
End Tips.

(** ** business_logic.py: RoadmapManager, tasks and focus *)

Module RoadmapTasks.
Import MilestoneStatus.

(** The nested loops of [mark_task_complete] return from inside the first
    item in which the task is found: that item is the only one changed. *)
Fixpoint update_first {A : Type} (f : A -> option A) (l : list A) : option (list A) :=
  match l with
  | [] => None
  | x :: l' =>
      match f x with
      | Some x' => Some (x' :: l')
      | None =>
          match update_first f l' with
          | Some l'' => Some (x :: l'')
          | None => None
          end
      end
  end.

(** [all(item.status == MilestoneStatus.COMPLETED for item in items)] *)
Definition all_completed {A : Type} (status : A -> t) (items : list A) : bool :=
  forallb (fun item => eqb (status item) COMPLETED) items.

(** One check of [_update_parent_status]: the status after it. *)
Definition checked {A : Type} (status : A -> t) (items : list A) (old : t) : t :=
  if all_completed status items then COMPLETED else old.

Definition complete_task (task_id : string) (task : WeeklyTask.t) : option WeeklyTask.t :=
  if (WeeklyTask.task_id task =? task_id)%string then
    Some (WeeklyTask.mk (WeeklyTask.task_id task) (WeeklyTask.name task)
            (WeeklyTask.description task) COMPLETED (WeeklyTask.priority task))
  else None.

(** The week, month, quarter and year around the task found, each after its
    check of [_update_parent_status]; the checks run from the week up, so
    each sees the status the check below it has set. *)
Definition in_week (task_id : string) (week : Week.t) : option Week.t :=
  tasks <- update_first (complete_task task_id) (Week.tasks week) ;;
  Some (Week.mk (Week.week_num week) (Week.name week) (Week.description week) tasks
          (checked WeeklyTask.status tasks (Week.status week))).

Definition in_month (task_id : string) (month : Month.t) : option Month.t :=
  weeks <- update_first (in_week task_id) (Month.weeks month) ;;
  Some (Month.mk (Month.month_num month) (Month.name month) (Month.description month) weeks
          (checked Week.status weeks (Month.status month))).

Definition in_quarter (task_id : string) (quarter : Quarter.t) : option Quarter.t :=
  months <- update_first (in_month task_id) (Quarter.months quarter) ;;
  Some (Quarter.mk (Quarter.quarter_num quarter) (Quarter.name quarter)
          (Quarter.description quarter) (Quarter.focus_areas quarter) months
          (checked Month.status months (Quarter.status quarter))).

Definition in_year (task_id : string) (year : Year.t) : option Year.t :=
  quarters <- update_first (in_quarter task_id) (Year.quarters year) ;;
  Some (Year.mk (Year.year_num year) (Year.name year) (Year.description year)
          (Year.focus_areas year) quarters
          (checked Quarter.status quarters (Year.status year))).

(** [mark_task_complete]: the flag returned and the roadmap after the call. *)
Definition mark_task_complete (roadmap : Roadmap.t) (task_id : string) : bool * Roadmap.t :=
  match update_first (in_year task_id) (Roadmap.years roadmap) with
  | Some years =>
      (true, Roadmap.mk years (Roadmap.created_at roadmap) (Roadmap.last_updated roadmap))
  | None => (false, roadmap)
  end.

(** Calls of [mark_task_complete], one after the other. *)
Definition mark_tasks_complete (roadmap : Roadmap.t) (task_ids : list string) : Roadmap.t :=
  fold_left (fun r task_id => snd (mark_task_complete r task_id)) task_ids roadmap.

(** The tasks in the order the loops visit them. *)
Definition tasks_of_month (month : Month.t) : list WeeklyTask.t :=
  flat_map Week.tasks (Month.weeks month).

Definition tasks_of_quarter (quarter : Quarter.t) : list WeeklyTask.t :=
  flat_map tasks_of_month (Quarter.months quarter).

Definition tasks_of_year (year : Year.t) : list WeeklyTask.t :=
  flat_map tasks_of_quarter (Year.quarters year).

Definition all_tasks (roadmap : Roadmap.t) : list WeeklyTask.t :=
  flat_map tasks_of_year (Roadmap.years roadmap).

(** The weeks, months and quarters in the order the loops visit them. *)
Definition all_quarters (roadmap : Roadmap.t) : list Quarter.t :=
  flat_map Year.quarters (Roadmap.years roadmap).

Definition all_months (roadmap : Roadmap.t) : list Month.t :=
  flat_map Quarter.months (all_quarters roadmap).

Definition all_weeks (roadmap : Roadmap.t) : list Week.t :=
  flat_map Month.weeks (all_months roadmap).

(** [status != MilestoneStatus.COMPLETED] *)
Definition pending (status : t) : bool := negb (eqb status COMPLETED).

Definition pending_tasks (tasks : list WeeklyTask.t) : list WeeklyTask.t :=
  filter (fun task => pending (WeeklyTask.status task)) tasks.

(** The dictionary [get_current_focus] returns: the one with the five keys
    [year], [quarter], [month], [week], [tasks], or the one of a finished
    roadmap. *)
Inductive focus : Set :=
  | Focus (year quarter month week : string) (tasks : list string)
  | Finished.

(** [for x in xs: ... return ...]: the result of the first turn that
    returns. *)
Fixpoint first_return {A B : Type} (body : A -> option B) (l : list A) : option B :=
  match l with
  | [] => None
  | x :: l' =>
      match body x with
      | Some r => Some r
      | None => first_return body l'
      end
  end.

Definition focus_of_week (year quarter month : string) (week : Week.t) : option focus :=
  if pending (Week.status week) then
    Some (Focus year quarter month (Week.name week)
            (map WeeklyTask.name (pending_tasks (Week.tasks week))))
  else None.

Definition focus_of_month (year quarter : string) (month : Month.t) : option focus :=
  if pending (Month.status month) then
    first_return (focus_of_week year quarter (Month.name month)) (Month.weeks month)
  else None.

Definition focus_of_quarter (year : string) (quarter : Quarter.t) : option focus :=
  if pending (Quarter.status quarter) then
    first_return (focus_of_month year (Quarter.name quarter)) (Quarter.months quarter)
  else None.

Definition focus_of_year (year : Year.t) : option focus :=
  if pending (Year.status year) then
    first_return (focus_of_quarter (Year.name year)) (Year.quarters year)
  else None.

Definition get_current_focus (roadmap : Roadmap.t) : focus :=
  match first_return focus_of_year (Roadmap.years roadmap) with
  | Some f => f
  | None => Finished
  end.

(** [f"{week.name} - {task.name} ({task.description})"] *)
Definition entry (week : Week.t) (task : WeeklyTask.t) : string :=
  (Week.name week ++ " - " ++ WeeklyTask.name task
   ++ " (" ++ WeeklyTask.description task ++ ")")%string.

Definition entries_of_week (week : Week.t) : list string :=
  map (entry week) (pending_tasks (Week.tasks week)).

(** The loops of [get_upcoming_tasks] with the list built so far: [inl] when
    the function has returned from inside, [inr] when the loop has run to
    its end. *)
Fixpoint upcoming_loop {A : Type} (body : A -> list string -> list string + list string)
    (l : list A) (upcoming : list string) : list string + list string :=
  match l with
  | [] => inr upcoming
  | x :: l' =>
      match body x upcoming with
      | inl r => inl r
      | inr upcoming' => upcoming_loop body l' upcoming'
      end
  end.

Definition upcoming_of_week (week : Week.t) (upcoming : list string)
  : list string + list string :=
  let upcoming := (upcoming ++ entries_of_week week)%list in
  if (5 <=? List.length upcoming)%nat then inl upcoming else inr upcoming.

Definition upcoming_of_month (month : Month.t) : list string -> list string + list string :=
  upcoming_loop upcoming_of_week (Month.weeks month).

Definition upcoming_of_quarter (quarter : Quarter.t) : list string -> list string + list string :=
  upcoming_loop upcoming_of_month (Quarter.months quarter).

Definition upcoming_of_year (year : Year.t) : list string -> list string + list string :=
  upcoming_loop upcoming_of_quarter (Year.quarters year).

(** [get_upcoming_tasks]; [days_ahead] is not read. *)
Definition get_upcoming_tasks (roadmap : Roadmap.t) (days_ahead : Z) : list string :=
  match upcoming_loop upcoming_of_year (Roadmap.years roadmap) [] with
  | inl upcoming => upcoming
  | inr upcoming => upcoming
  end.
End RoadmapTasks.

(** The states of a roadmap, to state what the calls keep. *)
Module RoadmapState.
Import MilestoneStatus RoadmapTasks.

(** The task after [task.status = MilestoneStatus.COMPLETED]. *)
Definition done (task : WeeklyTask.t) : WeeklyTask.t :=
  WeeklyTask.mk (WeeklyTask.task_id task) (WeeklyTask.name task)
    (WeeklyTask.description task) COMPLETED (WeeklyTask.priority task).

(** The tasks before and after a call that finds the task: the first one
    with the id is done, the others are as before. *)
Definition marks (task_id : string) (before after : list WeeklyTask.t) : Prop :=
  exists pre task post,
    before = (pre ++ task :: post)%list /\ after = (pre ++ done task :: post)%list
    /\ Forall (fun t => WeeklyTask.task_id t <> task_id) pre
    /\ WeeklyTask.task_id task = task_id.

(** No task has the id. *)
Definition absent (task_id : string) (tasks : list WeeklyTask.t) : Prop :=
  Forall (fun t => WeeklyTask.task_id t <> task_id) tasks.

(** A status after a call: the one before, or COMPLETED. *)
Definition advanced (before after : t) : Prop := after = before \/ after = COMPLETED.

(** An item after a call: its status and the statuses of all its parts
    have advanced, and it has as many parts as before. *)
Definition task_after (before after : WeeklyTask.t) : Prop :=
  advanced (WeeklyTask.status before) (WeeklyTask.status after).

Definition week_after (before after : Week.t) : Prop :=
  Forall2 task_after (Week.tasks before) (Week.tasks after)
  /\ advanced (Week.status before) (Week.status after).

Definition month_after (before after : Month.t) : Prop :=
  Forall2 week_after (Month.weeks before) (Month.weeks after)
  /\ advanced (Month.status before) (Month.status after).

Definition quarter_after (before after : Quarter.t) : Prop :=
  Forall2 month_after (Quarter.months before) (Quarter.months after)
  /\ advanced (Quarter.status before) (Quarter.status after).

Definition year_after (before after : Year.t) : Prop :=
  Forall2 quarter_after (Year.quarters before) (Year.quarters after)
  /\ advanced (Year.status before) (Year.status after).

(** A week is COMPLETED exactly when all its tasks are; a month, quarter or
    year that is COMPLETED has all its parts COMPLETED. *)
Definition week_ok (week : Week.t) : bool :=
  Bool.eqb (eqb (Week.status week) COMPLETED)
    (all_completed WeeklyTask.status (Week.tasks week)).

Definition sound {A : Type} (status : A -> t) (items : list A) (st : t) : bool :=
  implb (eqb st COMPLETED) (all_completed status items).

Definition month_ok (month : Month.t) : bool :=
  sound Week.status (Month.weeks month) (Month.status month)
  && forallb week_ok (Month.weeks month).

Definition quarter_ok (quarter : Quarter.t) : bool :=
  sound Month.status (Quarter.months quarter) (Quarter.status quarter)
  && forallb month_ok (Quarter.months quarter).

Definition year_ok (year : Year.t) : bool :=
  sound Quarter.status (Year.quarters year) (Year.status year)
  && forallb quarter_ok (Year.quarters year).

Definition consistent (roadmap : Roadmap.t) : bool :=
  forallb year_ok (Roadmap.years roadmap).

(** A part that no call of [mark_task_complete] can complete: it is not
    COMPLETED and it has no parts, or one of its parts is such a part. *)
Definition no_items {A : Type} (items : list A) : bool :=
  match items with
  | [] => true
  | _ => false
  end.

Definition week_blocked (week : Week.t) : bool :=
  pending (Week.status week) && no_items (Week.tasks week).

Definition month_blocked (month : Month.t) : bool :=
  pending (Month.status month)
  && (no_items (Month.weeks month) || existsb week_blocked (Month.weeks month)).

Definition quarter_blocked (quarter : Quarter.t) : bool :=
  pending (Quarter.status quarter)
  && (no_items (Quarter.months quarter) || existsb month_blocked (Quarter.months quarter)).

Definition year_blocked (year : Year.t) : bool :=
  pending (Year.status year)
  && (no_items (Year.quarters year) || existsb quarter_blocked (Year.quarters year)).

(** Every year, quarter, month and week, as [_calculate_completion] is
    handed them. *)
Definition nodes (roadmap : Roadmap.t) : list RoadmapManager.node :=
  (map RoadmapManager.OfYear (Roadmap.years roadmap)
   ++ map RoadmapManager.OfQuarter (all_quarters roadmap)
   ++ map RoadmapManager.OfMonth (all_months roadmap)
   ++ map RoadmapManager.OfWeek (all_weeks roadmap))%list.

(** The weeks in the order of the loops, each with the names of its year,
    quarter and month. *)
Definition located_in_month (year quarter : string) (month : Month.t)
  : list ((string * string * string) * Week.t) :=
  map (fun week => ((year, quarter, Month.name month), week)) (Month.weeks month).

Definition located_in_quarter (year : string) (quarter : Quarter.t)
  : list ((string * string * string) * Week.t) :=
  flat_map (located_in_month year (Quarter.name quarter)) (Quarter.months quarter).

Definition located_in_year (year : Year.t) : list ((string * string * string) * Week.t) :=
  flat_map (located_in_quarter (Year.name year)) (Year.quarters year).

Definition located (roadmap : Roadmap.t) : list ((string * string * string) * Week.t) :=
  flat_map located_in_year (Roadmap.years roadmap).

Definition has_pending (week : Week.t) : bool :=
  existsb (fun task => pending (WeeklyTask.status task)) (Week.tasks week).

Definition focus_on (place : (string * string * string) * Week.t) : focus :=
  let '((year, quarter, month), week) := place in
  Focus year quarter month (Week.name week)
    (map WeeklyTask.name (pending_tasks (Week.tasks week))).

(** The first week, in the order of the loops, with a task to do. *)
Definition first_pending_week (roadmap : Roadmap.t) : focus :=
  match find (fun place => has_pending (snd place)) (located roadmap) with
  | Some place => focus_on place
  | None => Finished
  end.

(** The entries of all the tasks to do. *)
Definition pending_entries (roadmap : Roadmap.t) : list string :=
  flat_map entries_of_week (all_weeks roadmap).

(** What a loop of [get_upcoming_tasks] has done with the list [upcoming]
    it started from, over items whose entries are [entries]: it has run to
    its end and added them all, or it has returned five entries or more
    that the entries not yet added would follow. *)
Definition loop_result (upcoming entries : list string) (r : list string + list string) : Prop :=
  match r with
  | inr upcoming' => upcoming' = (upcoming ++ entries)%list
  | inl returned =>
      exists rest,
        (upcoming ++ entries)%list = (returned ++ rest)%list
        /\ (5 <= List.length returned)%nat
  end.
End RoadmapState.

(** ** persistence.py: the default state and the state file *)

Module StorageFile.
Import MilestoneStatus.

(** The constructors as [_create_default_roadmap] calls them: the status is
    the default of the dataclass, and so is the priority of a task. *)
Definition task (task_id name description : string) : WeeklyTask.t :=
  WeeklyTask.mk task_id name description NOT_STARTED 1.

Definition week (week_num : Z) (name description : string) (tasks : list WeeklyTask.t)
  : Week.t :=
  Week.mk week_num name description tasks NOT_STARTED.

Definition month (month_num : Z) (name description : string) (weeks : list Week.t)
  : Month.t :=
  Month.mk month_num name description weeks NOT_STARTED.

Definition quarter (quarter_num : Z) (name description : string) (focus_areas : list string)
    (months : list Month.t) : Quarter.t :=
  Quarter.mk quarter_num name description focus_areas months NOT_STARTED.

Definition year (year_num : Z) (name description : string) (focus_areas : list string)
    (quarters : list Quarter.t) : Year.t :=
  Year.mk year_num name description focus_areas quarters NOT_STARTED.

(** The months, quarters and years under the names they have in
    [_create_default_roadmap], each with the parts assigned to it there. *)
Definition m1_1 : Month.t :=
  month 1 "Python Essentials" "Master Python for ML"
    [ week 1 "Setup & Basics" "Environment setup, syntax, OOP concepts"
        [ task "w1_t1" "Install Python & tools" "Set up environment, Jupyter, git"
        ; task "w1_t2" "Python basics" "Variables, control flow, functions"
        ; task "w1_t3" "OOP fundamentals" "Classes, inheritance, polymorphism" ]
    ; week 2 "Libraries & Data" "NumPy, Pandas fundamentals"
        [ task "w2_t1" "NumPy fundamentals" "Arrays, operations, broadcasting"
        ; task "w2_t2" "Pandas basics" "DataFrames, indexing, groupby"
        ; task "w2_t3" "Data visualization" "Matplotlib, Seaborn basics" ]
    ; week 3 "Advanced Python" "Functional programming, testing"
        [ task "w3_t1" "Functional programming" "Lambda, map, filter, comprehensions"
        ; task "w3_t2" "Testing & debugging" "Unit tests with pytest"
        ; task "w3_t3" "Code quality" "Linting, formatting, documentation" ]
    ; week 4 "Python Project" "Small project exercise"
        [ task "w4_t1" "Project planning" "Design simple data tool"
        ; task "w4_t2" "Implementation" "Build & test"
        ; task "w4_t3" "Documentation" "README, comments, examples" ] ].

Definition m1_2 : Month.t :=
  month 2 "Linear Algebra" "Mathematical foundation for ML"
    [ week 1 "Vectors & Matrices" "Core concepts"
        [ task "v1_t1" "Vector operations" "Dot product, norms, angles"
        ; task "v1_t2" "Matrix operations" "Multiplication, transpose, rank" ]
    ; week 2 "Decompositions" "Eigenvalues, SVD"
        [ task "v2_t1" "Eigenvalues/eigenvectors" "Understanding spectral decomposition"
        ; task "v2_t2" "SVD & applications" "Dimensionality reduction" ]
    ; week 3 "Advanced Topics" "Norms, distances, projections"
        [ task "v3_t1" "Norms & distances" "L1, L2, Euclidean"
        ; task "v3_t2" "Linear transformations" "Projections and rotations" ]
    ; week 4 "LA for ML" "Practical applications"
        [ task "v4_t1" "LA in ML" "Covariance, PCA concepts" ] ].

Definition m1_3 : Month.t :=
  month 3 "Calculus & Probability" "Optimization and uncertainty"
    [ week 1 "Single Variable Calculus" "Derivatives, optimization"
        [ task "c1_t1" "Derivatives" "Limits, definition, rules"
        ; task "c1_t2" "Optimization" "Critical points, gradients" ]
    ; week 2 "Multivariable Calculus" "Gradients, Hessians"
        [ task "c2_t1" "Partial derivatives" "Multivariable chain rule"
        ; task "c2_t2" "Optimization" "Gradient descent intuition" ]
    ; week 3 "Probability Fundamentals" "Distributions, independence"
        [ task "c3_t1" "Basic probability" "Rules, conditional probability"
        ; task "c3_t2" "Distributions" "Normal, exponential, Poisson" ]
    ; week 4 "Statistics Essentials" "Hypothesis testing, estimation"
        [ task "c4_t1" "Descriptive statistics" "Mean, variance, correlation"
        ; task "c4_t2" "Inference basics" "Hypothesis testing concepts" ] ].

Definition q1 : Quarter.t :=
  quarter 1 "Q1: Python & Math Foundations"
    "Build solid programming and mathematical foundation"
    ["Python"; "Linear Algebra"; "Calculus"; "Probability & Statistics"]
    [m1_1; m1_2; m1_3].

Definition m2_1 : Month.t :=
  month 1 "Regression & Linear Models" "Linear & logistic regression"
    [ week 1 "Linear Regression" "Theory and practice"
        [ task "lr1" "Linear regression theory" "OLS, assumptions, diagnostics"
        ; task "lr2" "Scikit-learn usage" "Fit, predict, evaluate"
        ; task "lr3" "Regularization" "Ridge, Lasso, ElasticNet" ]
    ; week 2 "Logistic Regression" "Binary and multiclass"
        [ task "log1" "Logistic regression" "Sigmoid, cross-entropy loss"
        ; task "log2" "Binary classification" "Decision boundaries"
        ; task "log3" "Multiclass methods" "One-vs-Rest, multinomial" ]
    ; week 3 "Feature Engineering" "Preprocessing and selection"
        [ task "fe1" "Feature scaling" "Normalization, standardization"
        ; task "fe2" "Feature selection" "Univariate, recursive, model-based"
        ; task "fe3" "Handling missing data" "Imputation strategies" ]
    ; week 4 "Evaluation Metrics" "Measuring model performance"
        [ task "em1" "Regression metrics" "MSE, RÂ², MAE"
        ; task "em2" "Classification metrics" "Accuracy, precision, recall, F1, AUC" ] ].

Definition q2 : Quarter.t :=
  quarter 2 "Q2: Classical ML Fundamentals"
    "Regression, classification, and evaluation"
    ["Regression"; "Classification"; "Evaluation Metrics"; "Feature Engineering"]
    [m2_1].

Definition q3 : Quarter.t :=
  quarter 3 "Q3: Advanced Classical ML"
    "Tree-based methods, ensembles, clustering"
    ["Decision Trees"; "Ensemble Methods"; "Clustering"; "Dimensionality Reduction"]
    [].

Definition q4 : Quarter.t :=
  quarter 4 "Q4: Deep Learning Basics & Portfolio"
    "Neural networks and first major project"
    ["Neural Network Basics"; "CNNs"; "RNNs"; "First Portfolio Project"]
    [].

Definition year1 : Year.t :=
  year 1 "Year 1: AI/ML Foundations"
    "Master fundamentals: Python, Math, Classical ML, Basic Deep Learning"
    ["Python Programming"; "Mathematics for ML"; "Classical ML"; "Deep Learning Basics"; "Portfolio Start"]
    [q1; q2; q3; q4].

Definition q5 : Quarter.t :=
  quarter 1 "Q1: Transformers & LLMs"
    "Attention, transformers, and large language models"
    ["Attention Mechanism"; "Transformer Architecture"; "Pre-trained LLMs"; "Fine-tuning"]
    [].

Definition q6 : Quarter.t :=
  quarter 2 "Q2: GenAI & RAG"
    "Generative AI, prompt engineering, RAG systems"
    ["Prompt Engineering"; "RAG Systems"; "Vector Databases"; "GenAI Applications"]
    [].

Definition q7 : Quarter.t :=
  quarter 3 "Q3: MLOps & System Design"
    "Production ML, deployment, and system design"
    ["ML Pipeline Design"; "Model Serving"; "Monitoring"; "Scalability"]
    [].

Definition q8 : Quarter.t :=
  quarter 4 "Q4: Interview Prep & Portfolio Polish"
    "Final preparation for target roles"
    ["System Design Interviews"; "ML Design Questions"; "Portfolio Review"; "Networking"]
    [].

Definition year2 : Year.t :=
  year 2 "Year 2: Advanced AI/ML & Specialization"
    "LLMs, GenAI, MLOps, System Design, Specialization"
    ["Transformers & LLMs"; "MLOps & Deployment"; "System Design"; "Specialization Domains"; "Advanced Portfolio"]
    [q5; q6; q7; q8].

(** [created] and [updated] are the two clock texts of [Roadmap()]. *)
Definition _create_default_roadmap (created updated : string) : Roadmap.t :=
  Roadmap.mk [year1; year2] created updated.

(** [ProgressState()] with the clock text of its [updated_at]. *)
Definition new_progress (updated : string) : ProgressState.t :=
  ProgressState.mk [] 0 0 None 0%float 0 0 updated.

(** [_create_default_state]: [clock k] is the text of the [k]-th call of
    [datetime.now().isoformat()], two for the roadmap, one for the progress
    and one for the state. *)
Definition _create_default_state (clock : nat -> string) : AppState.t :=
  AppState.mk (_create_default_roadmap (clock 0%nat) (clock 1%nat))
    (new_progress (clock 2%nat)) [] [] [] [] (clock 3%nat).

(** The state file: not there, there but not to be opened or not JSON, or
    holding a document. *)
Inductive file : Set :=
  | Absent
  | Unreadable
  | Holds (data : Json.t).

(** [load_state]: every exception of the reading ends in the default
    state.  [now] is the clock text the deserialiser takes for a missing
    time stamp. *)
Definition load_state (clock : nat -> string) (now : string) (f : file) : AppState.t :=
  match f with
  | Absent => _create_default_state clock
  | Unreadable => _create_default_state clock
  | Holds data =>
      match StorageManager._deserialize_state now data with
      | Some state => state
      | None => _create_default_state clock
      end
  end.

(** [save_state]: the file after the call.  When the file cannot be opened
    for writing the exception is printed and the file stays as it is. *)
Definition save_state (state : AppState.t) (writable : bool) (f : file) : file :=
  if writable then Holds (StorageManager._serialize_state state) else f.
End StorageFile.

(** ** coach.py: a review session *)

Module CareerCoach.
Section Session.
Variable isoformat : Z -> string.
Variable fromisoformat : string -> option Z.

(** The loop of [review_flashcards] from its [i]-th card on: [answers i] is
    the result the user has entered for that card, once the input loop has
    accepted it, with the two clock readings of the call of
    [mark_card_review]. *)
Fixpoint review_cards (decks : list FlashcardDeck.t) (cards : list Flashcard.t)
    (answers : nat -> string * (Z * Z)) (i : nat) : list FlashcardDeck.t :=
  match cards with
  | [] => decks
  | card :: cards' =>
      let '(result, (now_reviewed, now_scheduled)) := answers i in
      review_cards
        (snd (FlashcardManager.mark_card_review isoformat decks (Flashcard.card_id card)
                result now_reviewed now_scheduled))
        cards' answers (S i)
  end.

(** [review_flashcards]: the decks when the session is over; [None] when
    the selection raises.  With no card selected it returns at once. *)
Definition review_flashcards (decks : list FlashcardDeck.t) (num_cards : Z)
    (clock : nat -> Z) (answers : nat -> string * (Z * Z)) : option (list FlashcardDeck.t) :=
  match FlashcardManager.get_cards_for_review fromisoformat decks num_cards clock with
  | None => None
  | Some cards => Some (review_cards decks cards answers 0%nat)
  end.
End Session.
End CareerCoach.

(** The cards of a session, to state what it does to each. *)
Module Session.
(** The place in the session of the card with an id, counted from [i]. *)
Fixpoint position (card_id : string) (cards : list Flashcard.t) (i : nat) : option nat :=
  match cards with
  | [] => None
  | card :: cards' =>
      if (Flashcard.card_id card =? card_id)%string then Some i
      else position card_id cards' (S i)
  end.

(** A card after the session: reviewed with the answer given at its place
    when it was selected, as it was otherwise. *)
Definition reviewed (isoformat : Z -> string) (cards : list Flashcard.t)
    (answers : nat -> string * (Z * Z)) (i : nat) (card : Flashcard.t) : Flashcard.t :=
  match position (Flashcard.card_id card) cards i with
  | Some j =>
      FlashcardManager.review_card isoformat card (fst (answers j))
        (fst (snd (answers j))) (snd (snd (answers j)))
  | None => card
  end.

(** The cards of a list before and after a call that finds the id in it:
    the first card with the id is reviewed, the others are as before. *)
Definition one_reviewed (isoformat : Z -> string) (card_id result : string) (t1 t2 : Z)
    (before after : list Flashcard.t) : Prop :=
  exists pre card post,
    before = (pre ++ card :: post)%list
    /\ after = (pre ++ FlashcardManager.review_card isoformat card result t1 t2 :: post)%list
    /\ Forall (fun c => Flashcard.card_id c <> card_id) pre
    /\ Flashcard.card_id card = card_id.

(** The reviews counted by all the decks. *)
Fixpoint reviews (decks : list FlashcardDeck.t) : Z :=
  match decks with
  | [] => 0
  | deck :: decks' => FlashcardDeck.total_reviews deck + reviews decks'
  end.
End Session.

(** ** The progress states the code builds *)

Module Built.
(** [self.progress.daily_sessions.append(session)] *)
Definition with_session (p : ProgressState.t) (session : DailySession.t) : ProgressState.t :=
  ProgressState.mk (ProgressState.daily_sessions p ++ [session])
    (ProgressState.current_streak p) (ProgressState.longest_streak p)
    (ProgressState.last_session_date p) (ProgressState.total_hours p)
    (ProgressState.completed_milestones p) (ProgressState.total_milestones p)
    (ProgressState.updated_at p).

Section States.
Variable strptime : string -> option Z.

(** A progress state is made by [ProgressState()], and from a state by a
    session appended to its history (as the test of the streaks does before
    it calls [_update_streak]), by [_update_streak], by [log_session], and
    by reading back the document written for it.  Nothing under [src/]
    removes a session or writes a streak field in another way. *)
Inductive progress : ProgressState.t -> Prop :=
  | fresh (updated : string) : progress (StorageFile.new_progress updated)
  | appended (p : ProgressState.t) (session : DailySession.t) :
      progress p -> progress (with_session p session)
  | recomputed (p p' : ProgressState.t) (today : Z) :
      progress p -> ProgressManager._update_streak strptime p today = Some p' -> progress p'
  | logged (p : ProgressState.t) (duration_hours : float) (topics resources : list string)
      (notes : string) (mood : option string) (today stamp updated : string) (today_day : Z) :
      progress p ->
      progress (fst (ProgressManager.log_session strptime p duration_hours topics resources
                       notes mood today stamp updated today_day))
  | loaded (p p' : ProgressState.t) (now : string) :
      progress p ->
      StorageManager._deserialize_progress now (StorageManager._serialize_progress p) = Some p' ->
      progress p'.
End States.
End Built.

(** ** Further data of the examples *)

Module Cases.
(** A history whose second session has a date that is no date. *)
Definition bad_days : list DailySession.t :=
  [Sample.session "2024-01-01" 1.5%float; Sample.session "2024-13-01" 1.5%float].

(** The three days of [Sample.three_days] and a session on the fourth. *)
Definition fourth_day : DailySession.t :=
  DailySession.mk "2024-01-04" 2%float ["Test"] [] EmptyString None "2024-01-04T10:00:00".

Definition resource (resource_id title : string) : Resource.t :=
  Resource.mk resource_id title "course" "https://example.com" DifficultyLevel.BEGINNER
    "Test" ["Test"] ResourceStatus.TODO "2024-01-01T09:00:00" None EmptyString.

Definition task (task_id name : string) (status : MilestoneStatus.t) : WeeklyTask.t :=
  WeeklyTask.mk task_id name "Test" status 1.

(** A roadmap of one month with two weeks: the first week has one task done
    and one to do, the second one task to do. *)
Definition roadmap : Roadmap.t :=
  Roadmap.mk
    [ Year.mk 1 "Year 1" "Test" []
        [ Quarter.mk 1 "Q1" "Test" []
            [ Month.mk 1 "Month 1" "Test"
                [ Week.mk 1 "Week 1" "Test"
                    [ task "a" "Read" MilestoneStatus.COMPLETED
                    ; task "b" "Code" MilestoneStatus.NOT_STARTED ]
                    MilestoneStatus.IN_PROGRESS
                ; Week.mk 2 "Week 2" "Test"
                    [ task "c" "Write" MilestoneStatus.NOT_STARTED ]
                    MilestoneStatus.NOT_STARTED ]
                MilestoneStatus.NOT_STARTED ]
            MilestoneStatus.NOT_STARTED ]
        MilestoneStatus.NOT_STARTED ]
    "2024-01-01T09:00:00" "2024-01-01T09:00:00".

(** The record of a resource with a status that ResourceStatus does not
    have, and a document with this one resource. *)
Definition resource_fields : list (string * Json.t) :=
  [ ("resource_id", Json.Str "r1"); ("title", Json.Str "Course")
  ; ("resource_type", Json.Str "course"); ("url", Json.Str "https://example.com")
  ; ("difficulty", Json.Str "beginner"); ("description", Json.Str "Test")
  ; ("mapped_topics", Json.List []); ("status", Json.Str "done") ].

Definition document : list (string * Json.t) :=
  [ ("roadmap", Json.Dict []); ("resources", Json.List [Json.Dict resource_fields]) ].
End Cases.

(** * Properties *)

(** ** Persistence: the document read back is the state written *)

Section RoundTrip.
Import Json StorageManager.
Variable now : string.

Lemma mapM_map {A B : Type} (f : B -> option A) (g : A -> B) (l : list A) :
  (forall a, f (g a) = Some a) -> Err.mapM f (map g l) = Some l.
Proof.
  intros Hfg. induction l as [|a l IH]; simpl.
  - reflexivity.
  - now rewrite Hfg, IH.
Qed.

Lemma mapM_as_str (l : list string) : Err.mapM as_str (map Str l) = Some l.
Proof. now apply mapM_map. Qed.

Lemma as_opt_str_of (o : option string) : as_opt_str (of_opt_str o) = Some o.
Proof. now destruct o. Qed.

Lemma milestone_of_value (s : MilestoneStatus.t) :
  MilestoneStatus.of_value (MilestoneStatus.value s) = Some s.
Proof. now destruct s. Qed.

Lemma resource_status_of_value (s : ResourceStatus.t) :
  ResourceStatus.of_value (ResourceStatus.value s) = Some s.
Proof. now destruct s. Qed.

Lemma difficulty_of_value (s : DifficultyLevel.t) :
  DifficultyLevel.of_value (DifficultyLevel.value s) = Some s.
Proof. now destruct s. Qed.

Lemma card_status_of_value (s : CardStatus.t) :
  CardStatus.of_value (CardStatus.value s) = Some s.
Proof. now destruct s. Qed.

Lemma project_status_of_value (s : ProjectStatus.t) :
  ProjectStatus.of_value (ProjectStatus.value s) = Some s.
Proof. now destruct s. Qed.

(** One record: look the keys up, then rewrite with the round trips of the
    parts. *)
Ltac roundtrip :=
  cbn;
  repeat (first
    [ rewrite mapM_as_str
    | rewrite as_opt_str_of
    | rewrite milestone_of_value
    | rewrite resource_status_of_value
    | rewrite difficulty_of_value
    | rewrite card_status_of_value
    | rewrite project_status_of_value ]; cbn);
  try reflexivity.

Lemma task_roundtrip (t : WeeklyTask.t) :
  _deserialize_task (_serialize_task t) = Some t.
Proof. destruct t. roundtrip. Qed.

Lemma week_roundtrip (w : Week.t) : _deserialize_week (_serialize_week w) = Some w.
Proof.
  destruct w. unfold _deserialize_week, get_items. cbn.
  rewrite (mapM_map _ _ _ task_roundtrip). roundtrip.
Qed.

Lemma month_roundtrip (m : Month.t) : _deserialize_month (_serialize_month m) = Some m.
Proof.
  destruct m. unfold _deserialize_month, get_items. cbn.
  rewrite (mapM_map _ _ _ week_roundtrip). roundtrip.
Qed.

Lemma quarter_roundtrip (q : Quarter.t) :
  _deserialize_quarter (_serialize_quarter q) = Some q.
Proof.
  destruct q. unfold _deserialize_quarter, get_items. cbn.
  rewrite (mapM_map _ _ _ month_roundtrip). roundtrip.
Qed.

Lemma year_roundtrip (y : Year.t) : _deserialize_year (_serialize_year y) = Some y.
Proof.
  destruct y. unfold _deserialize_year, get_items. cbn.
  rewrite (mapM_map _ _ _ quarter_roundtrip). roundtrip.
Qed.

Lemma roadmap_roundtrip (r : Roadmap.t) :
  _deserialize_roadmap now (_serialize_roadmap r) = Some r.
Proof.
  destruct r. unfold _deserialize_roadmap, get_items. cbn.
  rewrite (mapM_map _ _ _ year_roundtrip). roundtrip.
Qed.

Lemma session_roundtrip (s : DailySession.t) :
  _deserialize_session now (_serialize_session s) = Some s.
Proof. destruct s. roundtrip. Qed.

Lemma progress_roundtrip (p : ProgressState.t) :
  _deserialize_progress now (_serialize_progress p) = Some p.
Proof.
  destruct p. unfold _deserialize_progress, get_items. cbn.
  rewrite (mapM_map _ _ _ session_roundtrip). roundtrip.
Qed.

Lemma resource_roundtrip (r : Resource.t) :
  _deserialize_resource now (_serialize_resource r) = Some r.
Proof. destruct r. roundtrip. Qed.

Lemma card_roundtrip (c : Flashcard.t) :
  _deserialize_card now (_serialize_card c) = Some c.
Proof. destruct c. roundtrip. Qed.

Lemma deck_roundtrip (d : FlashcardDeck.t) :
  _deserialize_deck now (_serialize_deck d) = Some d.
Proof.
  destruct d. unfold _deserialize_deck, get_items. cbn.
  rewrite (mapM_map _ _ _ card_roundtrip). roundtrip.
Qed.

Lemma project_roundtrip (p : GitHubProject.t) :
  _deserialize_project now (_serialize_project p) = Some p.
Proof. destruct p. roundtrip. Qed.

Lemma tip_roundtrip (t : WeeklyTip.t) :
  _deserialize_tip now (_serialize_tip t) = Some t.
Proof. destruct t. roundtrip. Qed.

(** C9. For every application state, [_deserialize_state] applied to the
    document [_serialize_state] builds succeeds and returns a state equal to
    the one written, field by field: the progress state with every daily
    session, every deck with every card, and the roadmap, resources, projects
    and tips as well. *)
Theorem serialize_deserialize_state (state : AppState.t) :
  _deserialize_state now (_serialize_state state) = Some state.
Proof.
  destruct state. unfold _deserialize_state, get_items. cbn.
  rewrite roadmap_roundtrip. cbn.
  rewrite progress_roundtrip. cbn.
  rewrite (mapM_map _ _ _ resource_roundtrip). cbn.
  rewrite (mapM_map _ _ _ deck_roundtrip). cbn.
  rewrite (mapM_map _ _ _ project_roundtrip). cbn.
  rewrite (mapM_map _ _ _ tip_roundtrip). reflexivity.
Qed.
End RoundTrip.

(** ** Roadmap: the completion percentage *)

Section Completion.
Import RoadmapManager.

Lemma completed_count_bounds (items : list MilestoneStatus.t) :
  0 <= completed_count items <= Z.of_nat (List.length items).
Proof.
  induction items as [|st items IH]; simpl completed_count.
  - simpl. lia.
  - rewrite length_cons, Nat2Z.inj_succ.
    destruct (MilestoneStatus.eqb st MilestoneStatus.COMPLETED); lia.
Qed.

Lemma percent_of_bounds (completed len : Z) :
  0 <= completed <= len -> 0 < len ->
  exists n, percent_of completed len = Some n /\ 0 <= n <= 100.
Proof.
  intros Hc Hlen. unfold percent_of.
  destruct (Z.eqb_spec len 0) as [E|_]; [lia|].
  eexists; split; [reflexivity|].
  rewrite Z.quot_div_nonneg by lia. split.
  - apply Z.div_pos; lia.
  - apply Z.div_le_upper_bound; lia.
Qed.

(** C10. For every object handed to [_calculate_completion] (a year, a
    quarter, a month, a week, or an object without children) the call
    returns, without a division by zero, an integer between 0 and 100; when
    the list of children is empty the result is 0. *)
Theorem calculate_completion_range (obj : node) :
  exists n, _calculate_completion obj = Some n /\ 0 <= n <= 100 /\
            (item_statuses obj = Some [] -> n = 0).
Proof.
  unfold _calculate_completion.
  destruct (item_statuses obj) as [[|st items]|] eqn:E.
  - exists 0. repeat split; lia.
  - destruct (percent_of_bounds (completed_count (st :: items))
                (Z.of_nat (List.length (st :: items)))) as (n & Hn & Hr).
    + apply completed_count_bounds.
    + simpl List.length. lia.
    + exists n. repeat split; try tauto; try lia; try discriminate.
  - exists 0. repeat split; try lia; try discriminate.
Qed.
End Completion.

(** ** Flashcards: one review *)

Section Review.
Import FlashcardManager.
Variable isoformat : Z -> string.

Lemma review_card_id (card : Flashcard.t) (result : string) (t1 t2 : Z) :
  Flashcard.card_id (review_card isoformat card result t1 t2) = Flashcard.card_id card.
Proof.
  unfold review_card.
  repeat match goal with |- context [if ?b then _ else _] => destruct b end;
    reflexivity.
Qed.

Lemma mark_in_cards_found (cards : list Flashcard.t) (card_id result : string)
    (t1 t2 : Z) (card : Flashcard.t) :
  find_in_cards card_id cards = Some card ->
  exists cards',
    mark_in_cards isoformat cards card_id result t1 t2 = Some cards'
    /\ find_in_cards card_id cards' = Some (review_card isoformat card result t1 t2).
Proof.
  induction cards as [|c cards IH]; simpl; [discriminate|].
  destruct (Flashcard.card_id c =? card_id)%string eqn:E.
  - intros [= ->]. eexists; split; [reflexivity|].
    simpl. now rewrite review_card_id, E.
  - intros H. destruct (IH H) as (cards' & -> & Hf).
    eexists; split; [reflexivity|]. simpl. now rewrite E.
Qed.

Lemma mark_in_cards_missing (cards : list Flashcard.t) (card_id result : string)
    (t1 t2 : Z) :
  find_in_cards card_id cards = None ->
  mark_in_cards isoformat cards card_id result t1 t2 = None.
Proof.
  induction cards as [|c cards IH]; simpl; [reflexivity|].
  destruct (Flashcard.card_id c =? card_id)%string; [discriminate|].
  intros H. now rewrite IH.
Qed.

(** The call finds the card the id denotes, reviews it, and counts the
    review in its deck. *)
Lemma mark_card_review_found (decks : list FlashcardDeck.t) (card_id result : string)
    (t1 t2 : Z) (deck : FlashcardDeck.t) (card : Flashcard.t) :
  find_card card_id decks = Some (deck, card) ->
  exists decks' deck',
    mark_card_review isoformat decks card_id result t1 t2 = (true, decks')
    /\ find_card card_id decks' = Some (deck', review_card isoformat card result t1 t2)
    /\ FlashcardDeck.total_reviews deck' = FlashcardDeck.total_reviews deck + 1
    /\ FlashcardDeck.deck_id deck' = FlashcardDeck.deck_id deck
    /\ List.length decks' = List.length decks.
Proof.
  unfold mark_card_review.
  induction decks as [|d decks IH]; simpl; [discriminate|].
  destruct (find_in_cards card_id (FlashcardDeck.cards d)) as [c|] eqn:E.
  - intros [= -> ->].
    destruct (mark_in_cards_found _ _ result t1 t2 _ E) as (cards' & -> & Hf).
    do 2 eexists; split; [reflexivity|]. simpl. rewrite Hf. auto.
  - intros H. rewrite (mark_in_cards_missing _ _ result t1 t2 E).
    destruct (IH H) as (decks' & deck' & Hm & Hf & Ht & Hi & Hl).
    destruct (mark_in_decks isoformat decks card_id result t1 t2); [|discriminate].
    injection Hm as <-.
    do 2 eexists; split; [reflexivity|]. simpl. rewrite E, Hf. auto.
Qed.

Lemma mark_card_review_missing (decks : list FlashcardDeck.t) (card_id result : string)
    (t1 t2 : Z) :
  find_card card_id decks = None ->
  mark_card_review isoformat decks card_id result t1 t2 = (false, decks).
Proof.
  unfold mark_card_review.
  induction decks as [|d decks IH]; simpl; [reflexivity|].
  destruct (find_in_cards card_id (FlashcardDeck.cards d)) eqn:E; [discriminate|].
  intros H. rewrite (mark_in_cards_missing _ _ result t1 t2 E).
  specialize (IH H).
  now destruct (mark_in_decks isoformat decks card_id result t1 t2).
Qed.

Lemma timedelta_interval (o : Outcome.t) :
  Outcome.interval o =
  match o with
  | Outcome.MASTERED => timedelta 30 0
  | Outcome.EASY => timedelta 7 0
  | Outcome.HARD => timedelta 1 0
  | Outcome.DIFFICULT => timedelta 0 6
  end.
Proof. now destruct o. Qed.

(** The review of a card with a recognized outcome, as the table has it. *)
Lemma review_card_recognized (card : Flashcard.t) (o : Outcome.t) (t1 t2 : Z) :
  review_card isoformat card (Outcome.text o) t1 t2 =
  set_review card (Outcome.new_status o) (Flashcard.review_count card + 1)
    (Some (isoformat t1)) (Some (isoformat (t2 + Outcome.interval o))).
Proof. destruct o; reflexivity. Qed.

(** The review of a card with any other text. *)
Lemma review_card_unrecognized (card : Flashcard.t) (result : string) (t1 t2 : Z) :
  Outcome.recognized result = false ->
  review_card isoformat card result t1 t2 =
  set_review card
    (if CardStatus.eqb (Flashcard.status card) CardStatus.NEW
     then CardStatus.REVIEWING else Flashcard.status card)
    (Flashcard.review_count card + 1) (Some (isoformat t1)) (Flashcard.next_review card).
Proof.
  unfold Outcome.recognized. intros H.
  apply orb_false_elim in H as [H Hm]. apply orb_false_elim in H as [H Hd].
  apply orb_false_elim in H as [He Hh].
  unfold review_card. now rewrite Hm, He, Hh, Hd.
Qed.

(** C3. For every collection of decks, every card in it (found by its id)
    and every recognized outcome, [mark_card_review] returns True and leaves
    the card with the status of the transition table (mastered: MASTERED,
    easy and hard: REVIEWING, difficult: DIFFICULT), with [next_review] the
    text of [as_of] plus 30 days, 7 days, 1 day or 6 hours, and with
    [review_count] one more than before; a card that was NEW is REVIEWING
    afterwards unless the outcome set MASTERED or DIFFICULT, so NEW never
    survives. *)
Theorem mark_card_review_transition (decks : list FlashcardDeck.t) (card_id : string)
    (o : Outcome.t) (now_reviewed as_of : Z) (deck : FlashcardDeck.t) (card : Flashcard.t) :
  find_card card_id decks = Some (deck, card) ->
  exists decks' deck' card',
    mark_card_review isoformat decks card_id (Outcome.text o) now_reviewed as_of
      = (true, decks')
    /\ find_card card_id decks' = Some (deck', card')
    /\ Flashcard.status card' = Outcome.new_status o
    /\ Flashcard.next_review card' = Some (isoformat (as_of + Outcome.interval o))
    /\ Flashcard.review_count card' = Flashcard.review_count card + 1
    /\ (Flashcard.status card = CardStatus.NEW ->
        Outcome.new_status o <> CardStatus.MASTERED ->
        Outcome.new_status o <> CardStatus.DIFFICULT ->
        Flashcard.status card' = CardStatus.REVIEWING)
    /\ Flashcard.status card' <> CardStatus.NEW.
Proof.
  intros Hfind.
  destruct (mark_card_review_found _ _ (Outcome.text o) now_reviewed as_of _ _ Hfind)
    as (decks' & deck' & Hm & Hf & _).
  exists decks', deck', (review_card isoformat card (Outcome.text o) now_reviewed as_of).
  rewrite review_card_recognized in *. simpl.
  repeat split; try assumption.
  - destruct o; simpl; congruence.
  - destruct o; discriminate.
Qed.

(** C5, as the code has it.  A result text outside the four recognized ones
    is not rejected: for every card found by its id the call returns True,
    [review_count] and the deck's [total_reviews] grow by one and
    [last_reviewed] is set to the time of the call; [next_review] is left as
    it was, and the status is left as it was except that NEW becomes
    REVIEWING. *)
Theorem mark_card_review_unrecognized (decks : list FlashcardDeck.t)
    (card_id result : string) (now_reviewed as_of : Z)
    (deck : FlashcardDeck.t) (card : Flashcard.t) :
  Outcome.recognized result = false ->
  find_card card_id decks = Some (deck, card) ->
  exists decks' deck' card',
    mark_card_review isoformat decks card_id result now_reviewed as_of = (true, decks')
    /\ find_card card_id decks' = Some (deck', card')
    /\ Flashcard.review_count card' = Flashcard.review_count card + 1
    /\ Flashcard.last_reviewed card' = Some (isoformat now_reviewed)
    /\ Flashcard.next_review card' = Flashcard.next_review card
    /\ Flashcard.status card' =
       (if CardStatus.eqb (Flashcard.status card) CardStatus.NEW
        then CardStatus.REVIEWING else Flashcard.status card)
    /\ FlashcardDeck.total_reviews deck' = FlashcardDeck.total_reviews deck + 1.
Proof.
  intros Hres Hfind.
  destruct (mark_card_review_found _ _ result now_reviewed as_of _ _ Hfind)
    as (decks' & deck' & Hm & Hf & Ht & _).
  exists decks', deck', (review_card isoformat card result now_reviewed as_of).
  rewrite (review_card_unrecognized _ _ _ _ Hres) in *. simpl.
  repeat split; assumption.
Qed.

Section Moves.
Variable fromisoformat : string -> option Z.

Lemma interval_pos (o : Outcome.t) : 0 < Outcome.interval o.
Proof. destruct o; reflexivity. Qed.

(** C7, as the code has it.  For every card found by its id whose
    [next_review] is set and every recognized outcome, the new [next_review]
    is [as_of] plus the interval of the outcome, whatever it was before: it is
    strictly later than [as_of], hence strictly later than the previous
    [next_review] of a card that was due, and in general strictly later than
    the previous one exactly when that one is earlier than [as_of] plus the
    interval. *)
Theorem next_review_after_review (decks : list FlashcardDeck.t) (card_id : string)
    (o : Outcome.t) (now_reviewed as_of : Z) (deck : FlashcardDeck.t)
    (card : Flashcard.t) (old : string) (t_old : Z) :
  find_card card_id decks = Some (deck, card) ->
  Flashcard.next_review card = Some old ->
  fromisoformat old = Some t_old ->
  fromisoformat (isoformat (as_of + Outcome.interval o)) = Some (as_of + Outcome.interval o) ->
  exists decks' deck' card' new t_new,
    mark_card_review isoformat decks card_id (Outcome.text o) now_reviewed as_of
      = (true, decks')
    /\ find_card card_id decks' = Some (deck', card')
    /\ Flashcard.next_review card' = Some new
    /\ fromisoformat new = Some t_new
    /\ t_new = as_of + Outcome.interval o
    /\ as_of < t_new
    /\ (t_old <= as_of -> t_old < t_new)
    /\ (t_old < t_new <-> t_old < as_of + Outcome.interval o).
Proof.
  intros Hfind Hold Hparse Hiso.
  destruct (mark_card_review_found _ _ (Outcome.text o) now_reviewed as_of _ _ Hfind)
    as (decks' & deck' & Hm & Hf & _).
  exists decks', deck', (review_card isoformat card (Outcome.text o) now_reviewed as_of),
    (isoformat (as_of + Outcome.interval o)), (as_of + Outcome.interval o).
  rewrite review_card_recognized in *. simpl.
  pose proof (interval_pos o).
  repeat split; try assumption; lia.
Qed.
End Moves.
End Review.

(** C3 on the sample deck: the fresh card reviewed as easy on 2024-01-02. *)
Lemma mark_card_review_transition_witness :
  exists decks' deck' card',
    FlashcardManager.mark_card_review Datetime.isoformat Sample.fresh_decks "c1"
      (Outcome.text Outcome.EASY) Sample.t_review Sample.t_review = (true, decks')
    /\ find_card "c1" decks' = Some (deck', card')
    /\ Flashcard.status card' = Outcome.new_status Outcome.EASY
    /\ Flashcard.next_review card'
       = Some (Datetime.isoformat (Sample.t_review + Outcome.interval Outcome.EASY))
    /\ Flashcard.review_count card' = 0 + 1
    /\ (CardStatus.NEW = CardStatus.NEW ->
        Outcome.new_status Outcome.EASY <> CardStatus.MASTERED ->
        Outcome.new_status Outcome.EASY <> CardStatus.DIFFICULT ->
        Flashcard.status card' = CardStatus.REVIEWING)
    /\ Flashcard.status card' <> CardStatus.NEW.
Proof.
  apply (mark_card_review_transition Datetime.isoformat Sample.fresh_decks "c1"
           Outcome.EASY Sample.t_review Sample.t_review
           (Sample.deck [Sample.card "c1" CardStatus.NEW 0 None None] 0)
           (Sample.card "c1" CardStatus.NEW 0 None None)).
  reflexivity.
Defined.

(** The specification's example: a NEW card reviewed as easy at [t] is
    REVIEWING with [review_count] 1 and [next_review] seven days after [t]. *)
Example fresh_card_easy :
  FlashcardManager.mark_card_review Datetime.isoformat Sample.fresh_decks "c1" "easy"
    Sample.t_review Sample.t_review
  = (true, [Sample.deck [Sample.card "c1" CardStatus.REVIEWING 1
                           (Some "2024-01-02T10:00:00") (Some "2024-01-09T10:00:00")] 1]).
Proof. vm_compute. reflexivity. Qed.

(** Against C5 as stated: the text "great" is none of the four outcomes, yet the call
    returns True and the card and its deck are changed. *)
Lemma unrecognized_outcome_mutates :
  Outcome.recognized "great" = false
  /\ FlashcardManager.mark_card_review Datetime.isoformat Sample.fresh_decks "c1" "great"
       Sample.t_review Sample.t_review
     = (true, [Sample.deck [Sample.card "c1" CardStatus.REVIEWING 1
                              (Some "2024-01-02T10:00:00") None] 1])
  /\ Sample.fresh_decks = [Sample.deck [Sample.card "c1" CardStatus.NEW 0 None None] 0].
Proof. repeat split; vm_compute; reflexivity. Qed.

(** C5 as the code has it, on the same call. *)
Lemma mark_card_review_unrecognized_witness :
  exists decks' deck' card',
    FlashcardManager.mark_card_review Datetime.isoformat Sample.fresh_decks "c1" "great"
      Sample.t_review Sample.t_review = (true, decks')
    /\ find_card "c1" decks' = Some (deck', card')
    /\ Flashcard.review_count card' = 0 + 1
    /\ Flashcard.last_reviewed card' = Some (Datetime.isoformat Sample.t_review)
    /\ Flashcard.next_review card' = None
    /\ Flashcard.status card' = CardStatus.REVIEWING
    /\ FlashcardDeck.total_reviews deck' = 0 + 1.
Proof.
  apply (mark_card_review_unrecognized Datetime.isoformat Sample.fresh_decks "c1" "great"
           Sample.t_review Sample.t_review
           (Sample.deck [Sample.card "c1" CardStatus.NEW 0 None None] 0)
           (Sample.card "c1" CardStatus.NEW 0 None None));
    reflexivity.
Defined.

(** Against C7 as stated: a card mastered on 2024-01-01 is due on 2024-01-31; reviewed
    as difficult on 2024-01-02 at 10:00 its [next_review] becomes 16:00 of
    that day, 29 days earlier than it was. *)
Lemma next_review_moves_back :
  exists deck' card',
    FlashcardManager.mark_card_review Datetime.isoformat Sample.mastered_decks "c1"
      "difficult" Sample.t_review Sample.t_review = (true, [deck'])
    /\ find_card "c1" [deck'] = Some (deck', card')
    /\ find_card "c1" Sample.mastered_decks
       = Some (Sample.deck [Sample.card "c1" CardStatus.MASTERED 1
                              (Some "2024-01-01T10:00:00") (Some "2024-01-31T10:00:00")] 1,
               Sample.card "c1" CardStatus.MASTERED 1
                 (Some "2024-01-01T10:00:00") (Some "2024-01-31T10:00:00"))
    /\ Flashcard.next_review card' = Some "2024-01-02T16:00:00"
    /\ Datetime.fromisoformat "2024-01-02T16:00:00" = Some 63839808000000000
    /\ Datetime.fromisoformat "2024-01-31T10:00:00" = Some 63842292000000000
    /\ 63839808000000000 < 63842292000000000.
Proof.
  do 2 eexists. repeat split; vm_compute; reflexivity.
Qed.

(** C7 as the code has it, on the same call. *)
Lemma next_review_after_review_witness :
  exists decks' deck' card' new t_new,
    FlashcardManager.mark_card_review Datetime.isoformat Sample.mastered_decks "c1"
      (Outcome.text Outcome.DIFFICULT) Sample.t_review Sample.t_review = (true, decks')
    /\ find_card "c1" decks' = Some (deck', card')
    /\ Flashcard.next_review card' = Some new
    /\ Datetime.fromisoformat new = Some t_new
    /\ t_new = Sample.t_review + Outcome.interval Outcome.DIFFICULT
    /\ Sample.t_review < t_new
    /\ (63842292000000000 <= Sample.t_review -> 63842292000000000 < t_new)
    /\ (63842292000000000 < t_new
        <-> 63842292000000000 < Sample.t_review + Outcome.interval Outcome.DIFFICULT).
Proof.
  apply (next_review_after_review Datetime.isoformat Datetime.fromisoformat
           Sample.mastered_decks "c1" Outcome.DIFFICULT Sample.t_review Sample.t_review
           (Sample.deck [Sample.card "c1" CardStatus.MASTERED 1
                           (Some "2024-01-01T10:00:00") (Some "2024-01-31T10:00:00")] 1)
           (Sample.card "c1" CardStatus.MASTERED 1
              (Some "2024-01-01T10:00:00") (Some "2024-01-31T10:00:00"))
           "2024-01-31T10:00:00" 63842292000000000);
    vm_compute; reflexivity.
Defined.

(** ** The stable sort *)

Section SortFacts.
Context {A : Type}.
Variable le : A -> A -> bool.

Lemma insert_perm (x : A) (l : list A) : Permutation (Py.insert le x l) (x :: l).
Proof.
  induction l as [|y l IH]; simpl.
  - reflexivity.
  - destruct (le x y).
    + reflexivity.
    + rewrite IH. apply perm_swap.
Qed.

Lemma sorted_perm (l : list A) : Permutation (Py.sorted le l) l.
Proof.
  induction l as [|x l IH]; simpl.
  - reflexivity.
  - rewrite insert_perm. now constructor.
Qed.

Lemma sorted_In (x : A) (l : list A) : In x (Py.sorted le l) <-> In x l.
Proof.
  split; apply Permutation_in; [|symmetry]; apply sorted_perm.
Qed.

Lemma sorted_length (l : list A) : List.length (Py.sorted le l) = List.length l.
Proof. apply Permutation_length, sorted_perm. Qed.

Hypothesis le_total : forall x y, le x y = true \/ le y x = true.

Lemma insert_HdRel (a x : A) (l : list A) :
  le a x = true -> HdRel (fun u v => le u v = true) a l ->
  HdRel (fun u v => le u v = true) a (Py.insert le x l).
Proof.
  intros Hax Hal. destruct l as [|y l]; simpl.
  - now constructor.
  - destruct (le x y); constructor; [assumption|now inversion Hal].
Qed.

Lemma insert_Sorted (x : A) (l : list A) :
  Sorted (fun u v => le u v = true) l ->
  Sorted (fun u v => le u v = true) (Py.insert le x l).
Proof.
  induction 1 as [|y l Hs IH Hhd]; simpl.
  - repeat constructor.
  - destruct (le x y) eqn:E.
    + repeat constructor; assumption.
    + constructor; [assumption|].
      apply insert_HdRel; [|assumption].
      destruct (le_total x y); congruence.
Qed.

Lemma sorted_Sorted (l : list A) : Sorted (fun u v => le u v = true) (Py.sorted le l).
Proof.
  induction l as [|x l IH]; simpl.
  - constructor.
  - now apply insert_Sorted.
Qed.
End SortFacts.

Section SortStable.
Context {A : Type}.
Variable le : A -> A -> bool.
Variable p : A -> bool.
(** [p] picks a class of elements no element of which is moved in front of
    another: whatever goes after a picked [x] is not picked. *)
Hypothesis p_class : forall x y, p x = true -> le x y = false -> p y = false.

Lemma filter_insert (x : A) (l : list A) :
  filter p (Py.insert le x l) = filter p (x :: l).
Proof.
  induction l as [|y l IH]; simpl in *.
  - reflexivity.
  - destruct (le x y) eqn:E; simpl.
    + reflexivity.
    + rewrite IH. destruct (p x) eqn:Px.
      * now rewrite (p_class x y Px E).
      * reflexivity.
Qed.

Lemma filter_sorted (l : list A) : filter p (Py.sorted le l) = filter p l.
Proof.
  induction l as [|x l IH]; simpl.
  - reflexivity.
  - rewrite filter_insert. simpl. now rewrite IH.
Qed.
End SortStable.

Section SortMap.
Context {A B : Type}.
Variable f : A -> B.
Variable le : B -> B -> bool.

Lemma insert_map (x : A) (l : list A) :
  Py.insert le (f x) (map f l) = map f (Py.insert (fun a b => le (f a) (f b)) x l).
Proof.
  induction l as [|y l IH]; simpl.
  - reflexivity.
  - destruct (le (f x) (f y)); simpl; [reflexivity|now rewrite IH].
Qed.

Lemma sorted_map (l : list A) :
  Py.sorted le (map f l) = map f (Py.sorted (fun a b => le (f a) (f b)) l).
Proof.
  induction l as [|x l IH]; simpl.
  - reflexivity.
  - now rewrite IH, insert_map.
Qed.
End SortMap.

(** ** Flashcards: the selection for a review session *)

Section Select.
Import FlashcardManager Selection.
Variable fromisoformat : string -> option Z.
Variable as_of : Z.

Local Abbreviation tier_of := (due_tier fromisoformat as_of).

Lemma tier_due_tier (card : Flashcard.t) :
  readable fromisoformat card ->
  tier fromisoformat as_of card = Some (tier_of card).
Proof.
  unfold readable, tier, due_tier, due.
  destruct (Flashcard.status card); try reflexivity;
    (destruct (Flashcard.next_review card) as [text|]; [|reflexivity]);
    (destruct (String.eqb_spec text EmptyString) as [->|Hne]; [reflexivity|]);
    (intros [->|Hp]; [contradiction|]); simpl;
    (destruct (fromisoformat text) as [t|]; [|contradiction]);
    now destruct (t <=? as_of).
Qed.

Lemma due_cards_tiers (cards : list Flashcard.t) (i : nat) :
  Forall (readable fromisoformat) cards ->
  due_cards fromisoformat (fun _ => as_of) i cards
  = Some (map (fun card => (tier_of card, card)) cards).
Proof.
  intros H. revert i. induction H as [|card cards Hc _ IH]; intros i; simpl.
  - reflexivity.
  - now rewrite (tier_due_tier _ Hc), IH.
Qed.

Lemma beforeb_before (tier : Flashcard.t -> Z) (a b : Flashcard.t) :
  beforeb tier a b = true <-> before tier a b.
Proof. unfold beforeb, before. lia. Qed.

Lemma beforeb_total (tier : Flashcard.t -> Z) (a b : Flashcard.t) :
  beforeb tier a b = true \/ beforeb tier b a = true.
Proof. rewrite !beforeb_before. unfold before. lia. Qed.

Lemma before_trans (tier : Flashcard.t -> Z) (a b c : Flashcard.t) :
  before tier a b -> before tier b c -> before tier a c.
Proof. unfold before. lia. Qed.

Lemma same_key_class (tier : Flashcard.t -> Z) (k n : Z) (x y : Flashcard.t) :
  same_key tier k n x = true -> beforeb tier x y = false -> same_key tier k n y = false.
Proof. unfold same_key, beforeb. lia. Qed.

Lemma Sorted_before (tier : Flashcard.t -> Z) (l : list Flashcard.t) :
  Sorted (fun u v => beforeb tier u v = true) l -> StronglySorted (before tier) l.
Proof.
  intros H. apply Sorted_StronglySorted.
  - intros a b c. apply before_trans.
  - induction H as [|a l _ IH Hhd]; constructor; [assumption|].
    destruct Hhd; constructor. now apply beforeb_before.
Qed.

Lemma firstn_at_most {T : Type} (n : Z) (l : list T) :
  0 <= n -> Z.of_nat (List.length (firstn (Z.to_nat n) l)) <= n.
Proof.
  intros Hn. rewrite length_firstn. lia.
Qed.

(** C4, as the code has it.  For every collection of decks whose
    [next_review] texts can be read, every instant [as_of] and every limit
    that is not negative, [get_cards_for_review] returns the first [limit]
    cards, so at most [limit], of one ordering of all the cards: NEW cards,
    then DIFFICULT cards, then the cards of any other status (REVIEWING or
    MASTERED) whose [next_review] is set and not after [as_of], then the
    rest; within a tier by ascending [review_count]; cards of one tier and
    one count in the order of the decks. *)
Theorem get_cards_for_review_ordering (decks : list FlashcardDeck.t) (limit : Z) :
  0 <= limit ->
  Forall (readable fromisoformat) (all_cards decks) ->
  exists ordering,
    get_cards_for_review fromisoformat decks limit (fun _ => as_of)
      = Some (firstn (Z.to_nat limit) ordering)
    /\ Z.of_nat (List.length (firstn (Z.to_nat limit) ordering)) <= limit
    /\ Permutation ordering (all_cards decks)
    /\ StronglySorted (before tier_of) ordering
    /\ (forall k n, filter (same_key tier_of k n) ordering
                    = filter (same_key tier_of k n) (all_cards decks)).
Proof.
  intros Hlimit Hread.
  exists (Py.sorted (beforeb tier_of) (all_cards decks)).
  split; [|split; [|split; [|split]]].
  - unfold get_cards_for_review. rewrite (due_cards_tiers _ _ Hread).
    unfold Py.slice_to. destruct (Z.leb_spec 0 limit) as [_|]; [|lia].
    rewrite (sorted_map (fun card => (tier_of card, card)) key_le).
    rewrite firstn_map, map_map. simpl. now rewrite map_id.
  - now apply firstn_at_most.
  - apply sorted_perm.
  - apply Sorted_before, sorted_Sorted, beforeb_total.
  - intros k n. apply filter_sorted. apply same_key_class.
Qed.
End Select.

(** Against C4 as stated: on 2024-01-02 the mastered card, due since the day before,
    is the one returned, although in the claimed tiers it stands with the
    card that is not due yet and has more reviews than it. *)
Lemma mastered_due_card_selected_first :
  FlashcardManager.get_cards_for_review Datetime.fromisoformat Sample.mixed_decks 1
    (fun _ => Sample.t_review) = Some [Sample.mastered_due]
  /\ Selection.claimed_tier Datetime.fromisoformat Sample.t_review Sample.mastered_due = 3
  /\ Selection.claimed_tier Datetime.fromisoformat Sample.t_review Sample.reviewing_later = 3
  /\ Flashcard.review_count Sample.reviewing_later
     < Flashcard.review_count Sample.mastered_due
  /\ firstn 1 (Py.sorted
                 (Selection.beforeb
                    (Selection.claimed_tier Datetime.fromisoformat Sample.t_review))
                 (FlashcardManager.all_cards Sample.mixed_decks))
     = [Sample.reviewing_later].
Proof. repeat split; vm_compute; reflexivity. Qed.

(** C4 as the code has it, on the same decks. *)
Lemma get_cards_for_review_ordering_witness :
  exists ordering,
    FlashcardManager.get_cards_for_review Datetime.fromisoformat Sample.mixed_decks 1
      (fun _ => Sample.t_review) = Some (firstn (Z.to_nat 1) ordering)
    /\ Z.of_nat (List.length (firstn (Z.to_nat 1) ordering)) <= 1
    /\ Permutation ordering (FlashcardManager.all_cards Sample.mixed_decks)
    /\ StronglySorted
         (Selection.before (Selection.due_tier Datetime.fromisoformat Sample.t_review))
         ordering
    /\ (forall k n,
          filter (Selection.same_key
                    (Selection.due_tier Datetime.fromisoformat Sample.t_review) k n)
            ordering
          = filter (Selection.same_key
                      (Selection.due_tier Datetime.fromisoformat Sample.t_review) k n)
              (FlashcardManager.all_cards Sample.mixed_decks)).
Proof.
  apply (get_cards_for_review_ordering Datetime.fromisoformat Sample.t_review
           Sample.mixed_decks 1).
  - lia.
  - change (Forall (Selection.readable Datetime.fromisoformat)
              [Sample.mastered_due; Sample.reviewing_later]).
    apply Forall_cons; [|apply Forall_cons; [|apply Forall_nil]];
      vm_compute; right; intros H; discriminate H.
Defined.

(** A negative limit is a slice from the end: all but the last card. *)
Example negative_limit_slices :
  FlashcardManager.get_cards_for_review Datetime.fromisoformat Sample.mixed_decks (-1)
    (fun _ => Sample.t_review) = Some [Sample.mastered_due].
Proof. vm_compute. reflexivity. Qed.

(** ** Progress: logging a session *)

Section Logging.
Import ProgressManager.
Variable strptime : string -> option Z.

Lemma update_streak_sets (p p' : ProgressState.t) (today : Z) :
  _update_streak strptime p today = Some p' ->
  exists current longest, p' = set_streaks p current longest.
Proof.
  unfold _update_streak.
  destruct (ProgressState.daily_sessions p) as [|s ss].
  - intros [= <-]. eauto.
  - destruct (streak_loop _ _) as [[l t]|]; [|discriminate].
    destruct (streak_dates _); [intros [= <-]; eauto|].
    destruct (strptime _); [|discriminate].
    intros [= <-]. eauto.
Qed.

(** What [log_session] has written when it returns or raises. *)
Lemma log_session_written (p : ProgressState.t) (duration_hours : float)
    (topics resources : list string) (notes : string) (mood : option string)
    (today stamp updated : string) (today_day : Z) :
  let p' := fst (log_session strptime p duration_hours topics resources notes mood
                   today stamp updated today_day) in
  ProgressState.daily_sessions p'
    = (ProgressState.daily_sessions p
       ++ [DailySession.mk today duration_hours topics resources notes mood stamp])%list
  /\ ProgressState.total_hours p'
     = PrimFloat.add (ProgressState.total_hours p) duration_hours
  /\ ProgressState.last_session_date p' = Some today
  /\ ProgressState.updated_at p' = updated.
Proof.
  unfold log_session.
  destruct (_update_streak _ _ _) as [p2|] eqn:E; simpl.
  - apply update_streak_sets in E as (c & l & ->). simpl. auto.
  - auto.
Qed.

(** A state the code has built has both streaks 0 as long as its history is
    empty: it is the state of [ProgressState()], for every call that writes
    to a state appends a session first or leaves the streaks of an empty
    history at 0. *)
Lemma built_empty_zero (p : ProgressState.t) :
  Built.progress strptime p ->
  ProgressState.daily_sessions p = [] ->
  ProgressState.current_streak p = 0 /\ ProgressState.longest_streak p = 0.
Proof.
  intros Hbuilt. induction Hbuilt as
    [ updated
    | p session _ _
    | p p' today _ IH Hupdate
    | p duration_hours topics resources notes mood today stamp updated today_day _ _
    | p p' now _ IH Hload ].
  - intros _. split; reflexivity.
  - cbn [Built.with_session ProgressState.daily_sessions]. intros E.
    apply app_eq_nil in E. destruct E as [_ E]. discriminate E.
  - intros E. unfold _update_streak in Hupdate.
    destruct (ProgressState.daily_sessions p) as [| s0 ss] eqn:Es.
    + injection Hupdate as <-. destruct (IH eq_refl) as [_ Hlongest].
      cbn. split; [reflexivity | exact Hlongest].
    + exfalso.
      destruct (streak_loop _ _) as [[l t] |]; [| discriminate].
      destruct (streak_dates _).
      * injection Hupdate as <-. cbn in E. rewrite Es in E. discriminate E.
      * destruct (strptime _); [| discriminate].
        injection Hupdate as <-. cbn in E. rewrite Es in E. discriminate E.
  - intros E.
    destruct (log_session_written p duration_hours topics resources notes mood
                today stamp updated today_day) as [Hhistory _].
    cbv zeta in Hhistory. rewrite Hhistory in E.
    apply app_eq_nil in E. destruct E as [_ E]. discriminate E.
  - rewrite (progress_roundtrip now p) in Hload. injection Hload as <-. exact IH.
Qed.

End Logging.

(** Against C6 as stated: a session of -1.5 hours logged on 2024-01-02 into an empty
    state is appended and counted, and the hours logged become negative. *)
Lemma negative_duration_logged :
  PrimFloat.ltb (-1.5)%float 0%float = true
  /\ ProgressManager.log_session Datetime.strptime (Sample.progress [] 0 0) (-1.5)%float
       ["Test"] [] EmptyString None "2024-01-02" "2024-01-02T10:00:00" "2024-01-02T10:00:05"
       (Datetime.day_2024_01_01 + 1)
     = (ProgressState.mk [Sample.session "2024-01-02" (-1.5)%float] 1 1
          (Some "2024-01-02") (-1.5)%float 0 0 "2024-01-02T10:00:05",
        Some (Sample.session "2024-01-02" (-1.5)%float))
  /\ Sample.progress [] 0 0
     = ProgressState.mk [] 0 0 None 0%float 0 0 "2024-01-01T09:00:00".
Proof. repeat split; vm_compute; reflexivity. Qed.


(** ** Progress: the dates of the history, once each and in order *)

Section Dates.
Import ProgressManager.

Lemma dict_set_keys_In {V : Type} (k k' : string) (v : V) (d : list (string * V)) :
  In k' (Py.dict_keys (Py.dict_set k v d)) <-> k' = k \/ In k' (Py.dict_keys d).
Proof.
  unfold Py.dict_keys. induction d as [|[k0 v0] d IH]; simpl.
  - intuition.
  - destruct (String.eqb_spec k0 k) as [->|Hne]; simpl.
    + intuition.
    + rewrite IH. intuition.
Qed.

Lemma dict_set_keys_NoDup {V : Type} (k : string) (v : V) (d : list (string * V)) :
  NoDup (Py.dict_keys d) -> NoDup (Py.dict_keys (Py.dict_set k v d)).
Proof.
  unfold Py.dict_keys. induction d as [|[k0 v0] d IH]; simpl; intros Hnd.
  - constructor; [intros []|constructor].
  - destruct (String.eqb_spec k0 k) as [->|Hne]; simpl.
    + assumption.
    + inversion Hnd as [|? ? Hnotin Hnd']; subst. constructor.
      * intros Hin. apply (dict_set_keys_In k k0 v d) in Hin.
        destruct Hin as [->|Hin]; [now apply Hne|now apply Hnotin].
      * now apply IH.
Qed.

Lemma sessions_fold_keys (sessions : list DailySession.t)
    (d : list (string * DailySession.t)) (k : string) :
  In k (Py.dict_keys
          (fold_left (fun d s => Py.dict_set (DailySession.date s) s d) sessions d))
  <-> In k (Py.dict_keys d) \/ In k (map DailySession.date sessions).
Proof.
  revert d. induction sessions as [|s sessions IH]; intros d; simpl.
  - intuition.
  - rewrite IH, dict_set_keys_In. intuition.
Qed.

Lemma sessions_fold_NoDup (sessions : list DailySession.t)
    (d : list (string * DailySession.t)) :
  NoDup (Py.dict_keys d) ->
  NoDup (Py.dict_keys
           (fold_left (fun d s => Py.dict_set (DailySession.date s) s d) sessions d)).
Proof.
  revert d. induction sessions as [|s sessions IH]; intros d Hnd; simpl.
  - assumption.
  - now apply IH, dict_set_keys_NoDup.
Qed.

Lemma streak_dates_In (sessions : list DailySession.t) (k : string) :
  In k (streak_dates sessions) <-> In k (map DailySession.date sessions).
Proof.
  unfold streak_dates, sessions_by_date.
  rewrite sorted_In, sessions_fold_keys. simpl. intuition.
Qed.

Lemma streak_dates_NoDup (sessions : list DailySession.t) :
  NoDup (streak_dates sessions).
Proof.
  unfold streak_dates, sessions_by_date.
  eapply Permutation_NoDup.
  - symmetry. apply sorted_perm.
  - apply sessions_fold_NoDup. constructor.
Qed.

Lemma streak_dates_Sorted (sessions : list DailySession.t) :
  Sorted (fun a b => String.leb a b = true) (streak_dates sessions).
Proof. apply sorted_Sorted, String.leb_total. Qed.

Variable strptime : string -> option Z.

Lemma parse_all (l : list string) :
  (forall s, In s l -> strptime s <> None) ->
  exists days, Forall2 (fun s day => strptime s = Some day) l days.
Proof.
  induction l as [|s l IH]; intros H.
  - exists []. constructor.
  - destruct IH as (days & Hdays); [intros; apply H; now right|].
    destruct (strptime s) as [day|] eqn:E.
    + exists (day :: days). now constructor.
    + exfalso. apply (H s); [now left|assumption].
Qed.

Lemma parsed_In_days (l : list string) (days : list Z) (day : Z) :
  Forall2 (fun s d => strptime s = Some d) l days ->
  In day days <-> exists s, In s l /\ strptime s = Some day.
Proof.
  induction 1 as [|s d l days Hs _ IH]; simpl.
  - split; [intros []|intros (s & [] & _)].
  - rewrite IH. split.
    + intros [<-|(s' & Hin & Hp)]; eauto.
    + intros (s' & [<-|Hin] & Hp); [left; congruence|eauto].
Qed.

(** Texts in text order, without repetition, whose order is the order of
    their days, are the texts of strictly increasing days. *)
Lemma sorted_texts_days (l : list string) (days : list Z) :
  Sorted (fun a b => String.leb a b = true) l ->
  NoDup l ->
  (forall a b da db, In a l -> In b l -> strptime a = Some da -> strptime b = Some db ->
                     (String.leb a b = true <-> da <= db)) ->
  Forall2 (fun s d => strptime s = Some d) l days ->
  Sorted Z.lt days.
Proof.
  intros Hs Hnd Hord H. induction H as [|a da l days Ha Hrest IH].
  - constructor.
  - inversion Hs as [|? ? Hs' Hhd]; subst.
    inversion Hnd as [|? ? Hnotin Hnd']; subst.
    constructor.
    + apply IH; try assumption.
      intros; apply Hord; simpl; auto.
    + destruct Hrest as [|b db l days Hb Hrest]; constructor.
      inversion Hhd as [|? ? Hab]; subst.
      assert (Hle : da <= db) by (apply (Hord a b); simpl; auto).
      assert (Hne : da <> db).
      { intros ->. apply Hnotin. left.
        apply String.leb_antisym; [|assumption].
        apply (Hord b a db db); simpl; auto; lia. }
      lia.
Qed.
End Dates.

(** ** Progress: the loop over the days *)

Section Scan.
Import ProgressManager Streak.

Lemma run_weaken (L L' : Z -> Prop) (first len : Z) :
  (forall d, L d -> L' d) -> run L first len -> run L' first len.
Proof. unfold run. auto. Qed.

Lemma scanned_first (first : Z) : scanned [first] first 0 1.
Proof.
  unfold scanned, run_ending_at, run. simpl.
  refine (conj _ (conj _ (conj (conj _ (conj _ _)) (conj _ (conj _ _))))).
  - now left.
  - intros d [<-|[]]. lia.
  - lia.
  - intros j Hj. left. lia.
  - intros [H|[]]. lia.
  - lia.
  - now left.
  - intros a len H.
    destruct (Z_lt_le_dec len 2) as [|Hlen]; [lia|].
    destruct (H 0) as [H0|[]]; [lia|].
    destruct (H 1) as [H1|[]]; [lia|]. lia.
Qed.

(** The next day is the day after [prev]: the run grows. *)
Lemma scanned_extend (seen : list Z) (prev longest temp : Z) :
  scanned seen prev longest temp ->
  scanned (seen ++ [prev + 1]) (prev + 1) longest (temp + 1).
Proof.
  unfold scanned, run_ending_at, run.
  intros (Hin & Hmax & (Htemp & Hrun & Hstop) & Hl0 & Hl & Hub).
  refine (conj _ (conj _ (conj (conj _ (conj _ _)) (conj _ (conj _ _))))).
  - apply in_or_app. right. now left.
  - intros d Hd. apply in_app_or in Hd as [Hd|[<-|[]]]; [|lia].
    specialize (Hmax d Hd). lia.
  - lia.
  - intros j Hj. apply in_or_app.
    destruct (Z.eq_dec j temp) as [->|Hne].
    + right. left. lia.
    + left. replace (prev + 1 - (temp + 1) + 1 + j) with (prev - temp + 1 + j) by lia.
      apply Hrun. lia.
  - intros Hd. apply in_app_or in Hd as [Hd|[Hd|[]]]; [|lia].
    apply Hstop. now replace (prev - temp) with (prev + 1 - (temp + 1)) by lia.
  - assumption.
  - destruct Hl as [->|(a & Ha)]; [now left|right].
    exists a. intros j Hj. apply in_or_app. left. now apply Ha.
  - intros a len H.
    destruct (Z_lt_le_dec len 1) as [|Hlen]; [lia|].
    assert (Hlast : a + (len - 1) <= prev + 1).
    { specialize (H (len - 1) ltac:(lia)).
      apply in_app_or in H as [H|[<-|[]]]; [|lia]. specialize (Hmax _ H). lia. }
    destruct (Z.eq_dec (a + (len - 1)) (prev + 1)) as [Heq|Hne].
    + destruct (Z_le_gt_dec a (prev - temp)) as [Hlow|]; [|lia].
      exfalso. specialize (H (prev - temp - a) ltac:(lia)).
      replace (a + (prev - temp - a)) with (prev - temp) in H by lia.
      apply in_app_or in H as [H|[H|[]]]; [now apply Hstop|lia].
    + enough (len <= Z.max longest temp) by lia.
      apply (Hub a). intros j Hj. specialize (H j Hj).
      apply in_app_or in H as [H|[H|[]]]; [assumption|lia].
Qed.

(** The next day is later than the day after [prev]: the run is closed and
    a new one starts. *)
Lemma scanned_restart (seen : list Z) (prev longest temp next : Z) :
  scanned seen prev longest temp ->
  prev + 1 < next ->
  scanned (seen ++ [next]) next (Z.max longest temp) 1.
Proof.
  unfold scanned, run_ending_at, run.
  intros (Hin & Hmax & (Htemp & Hrun & Hstop) & Hl0 & Hl & Hub) Hgap.
  refine (conj _ (conj _ (conj (conj _ (conj _ _)) (conj _ (conj _ _))))).
  - apply in_or_app. right. now left.
  - intros d Hd. apply in_app_or in Hd as [Hd|[<-|[]]]; [|lia].
    specialize (Hmax d Hd). lia.
  - lia.
  - intros j Hj. apply in_or_app. right. left. lia.
  - intros Hd. apply in_app_or in Hd as [Hd|[Hd|[]]]; [|lia].
    specialize (Hmax _ Hd). lia.
  - lia.
  - right. destruct (Z.max_spec longest temp) as [[_ ->]|[Hle ->]].
    + exists (prev - temp + 1). intros j Hj. apply in_or_app. left. now apply Hrun.
    + destruct Hl as [->|(a & Ha)]; [lia|].
      exists a. intros j Hj. apply in_or_app. left. now apply Ha.
  - intros a len H.
    destruct (Z_lt_le_dec len 2) as [|Hlen]; [lia|].
    enough (len <= Z.max longest temp) by lia.
    assert (Hlast : a + (len - 1) <= next).
    { specialize (H (len - 1) ltac:(lia)).
      apply in_app_or in H as [H|[<-|[]]]; [|lia]. specialize (Hmax _ H). lia. }
    assert (Hbefore : a + (len - 2) <= prev).
    { specialize (H (len - 2) ltac:(lia)).
      apply in_app_or in H as [H|[H|[]]]; [|lia]. now apply Hmax. }
    destruct (Z.eq_dec (a + (len - 1)) next) as [Heq|Hne]; [lia|].
    apply (Hub a). intros j Hj. specialize (H j Hj).
    apply in_app_or in H as [H|[H|[]]]; [assumption|lia].
Qed.
End Scan.

(** ** Progress: the streaks after a recomputation *)

Section Streaks.
Import ProgressManager Streak.
Variable strptime : string -> option Z.

Lemma last_cons {T : Type} (x d : T) (l : list T) : List.last (x :: l) d = List.last l x.
Proof.
  revert x d. induction l as [|y l IH]; intros x d.
  - reflexivity.
  - change (List.last (y :: l) d = List.last (y :: l) x).
    now rewrite (IH y d), (IH y x).
Qed.

Lemma last_In {T : Type} (x : T) (l : list T) : In (List.last l x) (x :: l).
Proof.
  revert x. induction l as [|y l IH]; intros x.
  - now left.
  - rewrite last_cons. right. apply IH.
Qed.

(** The loop over dates in text order whose days increase. *)
Lemma streak_scan_scanned (rest_s : list string) (rest : list Z) :
  Forall2 (fun s d => strptime s = Some d) rest_s rest ->
  forall (prev_s : string) (prev : Z) (seen : list Z) (longest temp : Z),
    strptime prev_s = Some prev ->
    Sorted Z.lt (prev :: rest) ->
    scanned seen prev longest temp ->
    exists longest' temp',
      streak_scan strptime prev_s rest_s longest temp = Some (longest', temp')
      /\ scanned (seen ++ rest) (List.last rest prev) longest' temp'
      /\ strptime (List.last rest_s prev_s) = Some (List.last rest prev).
Proof.
  induction 1 as [|next_s next rest_s rest Hnext _ IH];
    intros prev_s prev seen longest temp Hprev Hsorted Hinv.
  - exists longest, temp. simpl. now rewrite app_nil_r.
  - inversion Hsorted as [|? ? Hsorted' Hhd]; subst.
    inversion Hhd as [|? ? Hlt]; subst.
    simpl streak_scan. rewrite Hprev, Hnext, !last_cons.
    replace (seen ++ next :: rest)%list with ((seen ++ [next]) ++ rest)%list
      by now rewrite <- app_assoc.
    destruct (Z.eqb_spec (next - prev) 1) as [Hone|Hgap].
    + replace next with (prev + 1) in * by lia.
      apply (IH next_s); try assumption. now apply scanned_extend.
    + apply (IH next_s); try assumption.
      apply (scanned_restart _ prev); [assumption|lia].
Qed.

(** The loop never makes [longest_streak] negative. *)
Lemma streak_scan_nonneg (rest : list string) :
  forall (prev : string) (longest temp longest' temp' : Z),
    streak_scan strptime prev rest longest temp = Some (longest', temp') ->
    0 <= longest -> 0 <= longest'.
Proof.
  induction rest as [|date rest IH]; simpl; intros prev longest temp longest' temp' H Hl.
  - injection H as <- _. assumption.
  - destruct (strptime prev) as [prev_date|]; [|discriminate].
    destruct (strptime date) as [curr_date|]; [|discriminate].
    destruct (curr_date - prev_date =? 1); apply IH in H; lia.
Qed.

(** The loop ends when every date can be read. *)
Lemma streak_scan_total (rest : list string) :
  forall (prev : string) (longest temp : Z),
    (forall s, In s (prev :: rest) -> strptime s <> None) ->
    exists r, streak_scan strptime prev rest longest temp = Some r.
Proof.
  induction rest as [|date rest IH]; simpl; intros prev longest temp H.
  - eauto.
  - destruct (strptime prev) as [prev_date|] eqn:Ep; [|exfalso; apply (H prev); auto].
    destruct (strptime date) as [curr_date|] eqn:Ed; [|exfalso; apply (H date); auto].
    destruct (curr_date - prev_date =? 1); apply IH; intros s Hs; apply H; auto.
Qed.

Lemma dated_dates (sessions : list DailySession.t) :
  dated strptime sessions ->
  forall s, In s (streak_dates sessions) -> strptime s <> None.
Proof.
  intros Hd s Hs. apply streak_dates_In, in_map_iff in Hs as (x & <- & Hx).
  now apply Hd.
Qed.

(** C2. For every session history and every state whose [longest_streak]
    is not negative, a streak recomputation that returns leaves
    [longest_streak >= current_streak]; and it returns whenever every date of
    the history can be read. *)
Theorem update_streak_invariant (p : ProgressState.t) (today : Z) :
  0 <= ProgressState.longest_streak p ->
  (forall p', _update_streak strptime p today = Some p' ->
              ProgressState.current_streak p' <= ProgressState.longest_streak p')
  /\ (dated strptime (ProgressState.daily_sessions p) ->
      exists p', _update_streak strptime p today = Some p').
Proof.
  intros Hlongest. unfold _update_streak.
  destruct (ProgressState.daily_sessions p) as [|s0 ss] eqn:Es.
  - split; [intros p' [= <-]; assumption|eauto].
  - set (sessions := s0 :: ss). split.
    + intros p'. unfold streak_loop.
      destruct (streak_dates sessions) as [|first rest]; [intros [= <-]; simpl; lia|].
      destruct (streak_scan _ _ _ _ _) as [[l t]|] eqn:E; [|discriminate].
      apply streak_scan_nonneg in E; [|lia].
      destruct (strptime _); [|discriminate].
      intros [= <-]. simpl.
      destruct (today - z =? 0); [lia|]. destruct (today - z =? 1); lia.
    + intros Hd. pose proof (dated_dates _ Hd) as Hdates. unfold streak_loop.
      destruct (streak_dates sessions) as [|first rest]; [eauto|].
      destruct (streak_scan_total rest first 0 1 Hdates) as ([l t] & ->).
      destruct (strptime (Py.last_item (first :: rest) EmptyString)) eqn:E; [eauto|].
      exfalso. apply (Hdates (Py.last_item (first :: rest) EmptyString)); [|assumption].
      unfold Py.last_item. rewrite last_cons. apply last_In.
Qed.
End Streaks.

Section StreakRuns.
Import ProgressManager Streak.
Variable strptime : string -> option Z.

Lemma run_iff (L L' : Z -> Prop) (first len : Z) :
  (forall d, L d <-> L' d) -> run L first len <-> run L' first len.
Proof. intros H. split; apply run_weaken; intros d; apply H. Qed.

Lemma logged_days (sessions : list DailySession.t) (days : list Z) :
  Forall2 (fun s d => strptime s = Some d) (streak_dates sessions) days ->
  forall d, In d days <-> logged strptime sessions d.
Proof.
  intros H d. rewrite (parsed_In_days strptime _ _ d H). unfold logged. split.
  - intros (s & Hs & Hp). apply streak_dates_In, in_map_iff in Hs as (x & <- & Hx). eauto.
  - intros (x & Hx & Hp). exists (DailySession.date x). split; [|assumption].
    apply streak_dates_In, in_map_iff. eauto.
Qed.

End StreakRuns.

(** ** Progress: the whole of a logged session *)

Section LoggedSession.
Import ProgressManager Streak.
Variable strptime : string -> option Z.

Lemma update_streak_returns (p : ProgressState.t) (today : Z) :
  dated strptime (ProgressState.daily_sessions p) ->
  exists p', _update_streak strptime p today = Some p'.
Proof.
  intros Hd. unfold _update_streak.
  destruct (ProgressState.daily_sessions p) as [| s0 ss] eqn:Es; [eauto |].
  pose proof (dated_dates strptime _ Hd) as Hdates. unfold streak_loop.
  destruct (streak_dates (s0 :: ss)) as [| first rest]; [eauto |].
  destruct (streak_scan_total strptime rest first 0 1 Hdates) as ([l t] & ->).
  destruct (strptime (Py.last_item (first :: rest) EmptyString)) eqn:E; [eauto |].
  exfalso. apply (Hdates (Py.last_item (first :: rest) EmptyString)); [| assumption].
  unfold Py.last_item. rewrite last_cons. apply last_In.
Qed.

(** Over a history that is not empty the streaks are computed from the
    history and the day alone: two states with the same history get the same
    streaks, whatever streaks they held. *)
Lemma update_streak_history_only (p q p' : ProgressState.t) (today : Z) :
  ProgressState.daily_sessions q = ProgressState.daily_sessions p ->
  ProgressState.daily_sessions p <> [] ->
  _update_streak strptime p today = Some p' ->
  exists q',
    _update_streak strptime q today = Some q'
    /\ ProgressState.current_streak q' = ProgressState.current_streak p'
    /\ ProgressState.longest_streak q' = ProgressState.longest_streak p'.
Proof.
  intros Hsame Hne. unfold _update_streak. rewrite Hsame.
  destruct (ProgressState.daily_sessions p) as [| s0 ss]; [contradiction |].
  destruct (streak_loop strptime (streak_dates (s0 :: ss))) as [[l t] |]; [| discriminate].
  destruct (streak_dates (s0 :: ss)) as [| first rest].
  - intros H. injection H as <-. eexists. repeat split.
  - destruct (strptime (Py.last_item (first :: rest) EmptyString)); [| discriminate].
    intros H. injection H as <-. eexists. repeat split.
Qed.

(** C6, as the code has it.  [log_session] checks nothing: for every
    progress state and every duration, the negative ones included, the
    state after the call has the session appended to [daily_sessions],
    [total_hours] replaced by the float sum of it and the duration,
    [last_session_date] set to today and [updated_at] set to the time of the
    call.  When every date of the history and today's can be read, the call
    returns the session, and the streaks of the state after it are the ones
    [_update_streak] computes from the extended history, whatever streaks
    the state held before. *)
Theorem log_session_appends (p : ProgressState.t) (duration_hours : float)
    (topics resources : list string) (notes : string) (mood : option string)
    (today stamp updated : string) (today_day : Z) :
  let session := DailySession.mk today duration_hours topics resources notes mood stamp in
  let r := log_session strptime p duration_hours topics resources notes mood
             today stamp updated today_day in
  (ProgressState.daily_sessions (fst r) = (ProgressState.daily_sessions p ++ [session])%list
   /\ ProgressState.total_hours (fst r)
      = PrimFloat.add (ProgressState.total_hours p) duration_hours
   /\ ProgressState.last_session_date (fst r) = Some today
   /\ ProgressState.updated_at (fst r) = updated
   /\ ProgressState.completed_milestones (fst r) = ProgressState.completed_milestones p
   /\ ProgressState.total_milestones (fst r) = ProgressState.total_milestones p)
  /\ (dated strptime (ProgressState.daily_sessions p) ->
      strptime today <> None ->
      snd r = Some session
      /\ forall q,
           ProgressState.daily_sessions q
           = (ProgressState.daily_sessions p ++ [session])%list ->
           exists q',
             _update_streak strptime q today_day = Some q'
             /\ ProgressState.current_streak (fst r) = ProgressState.current_streak q'
             /\ ProgressState.longest_streak (fst r) = ProgressState.longest_streak q').
Proof.
  intros session r. subst r. unfold log_session. fold session.
  set (p1 := ProgressState.mk (ProgressState.daily_sessions p ++ [session])
               (ProgressState.current_streak p) (ProgressState.longest_streak p)
               (Some today) (PrimFloat.add (ProgressState.total_hours p) duration_hours)
               (ProgressState.completed_milestones p) (ProgressState.total_milestones p)
               updated).
  split.
  - destruct (_update_streak strptime p1 today_day) as [p2 |] eqn:E; cbn [fst].
    + apply update_streak_sets in E. destruct E as (c & l & ->). cbn. auto 10.
    + cbn. auto 10.
  - intros Hdated Htoday.
    assert (Hd1 : dated strptime (ProgressState.daily_sessions p1)).
    { intros s Hs. cbn in Hs. apply in_app_or in Hs. destruct Hs as [Hs | [<- | []]].
      - apply Hdated. exact Hs.
      - exact Htoday. }
    destruct (update_streak_returns p1 today_day Hd1) as [p2 E]. rewrite E.
    cbn [fst snd]. split; [reflexivity |].
    intros q Hq.
    destruct (update_streak_history_only p1 q p2 today_day) as (q' & Eq & Hc & Hl).
    + exact Hq.
    + cbn. intros Hnil. apply app_eq_nil in Hnil. destruct Hnil as [_ Hnil]. discriminate Hnil.
    + exact E.
    + exists q'. auto.
Qed.
End LoggedSession.

(** C6 on the sample history of three days: a session of -1.5 hours logged
    on 2024-01-04 is returned, and the streaks after it, 4 and 4, are those
    of the four days, as they are computed for a state that held other
    streaks. *)
Lemma log_session_appends_witness :
  snd (ProgressManager.log_session Datetime.strptime (Sample.progress Sample.three_days 3 3)
         (-1.5)%float ["Test"] [] EmptyString None "2024-01-04" "2024-01-04T10:00:00"
         "2024-01-04T10:00:05" (Datetime.day_2024_01_01 + 3))
  = Some (Sample.session "2024-01-04" (-1.5)%float)
  /\ exists q',
       ProgressManager._update_streak Datetime.strptime
         (Sample.progress (Sample.three_days ++ [Sample.session "2024-01-04" (-1.5)%float]) 7 9)
         (Datetime.day_2024_01_01 + 3)
       = Some q'
       /\ ProgressState.current_streak q' = 4
       /\ ProgressState.longest_streak q' = 4.
Proof.
  destruct (log_session_appends Datetime.strptime (Sample.progress Sample.three_days 3 3)
              (-1.5)%float ["Test"] [] EmptyString None "2024-01-04" "2024-01-04T10:00:00"
              "2024-01-04T10:00:05" (Datetime.day_2024_01_01 + 3)) as [_ Hreturned].
  destruct Hreturned as [Hsession Hstreaks].
  - intros s Hs. unfold Sample.three_days in Hs. cbn [Sample.progress ProgressState.daily_sessions] in Hs.
    destruct Hs as [<- | [<- | [<- | [<- | []]]]]; vm_compute; discriminate.
  - vm_compute. discriminate.
  - split; [exact Hsession |].
    destruct (Hstreaks (Sample.progress
                (Sample.three_days ++ [Sample.session "2024-01-04" (-1.5)%float]) 7 9)
                eq_refl) as (q' & Hq & Hc & Hl).
    exists q'. split; [exact Hq |]. split.
    + rewrite <- Hc. vm_compute. reflexivity.
    + rewrite <- Hl. vm_compute. reflexivity.
Defined.

(** ** Progress: the streaks on the sample histories *)

(** Case analysis over the sessions of a history given in full. *)
Ltac each_session :=
  repeat match goal with
         | H : In _ (_ :: _) |- _ => destruct H as [<-|H]
         | H : In _ [] |- _ => destruct H
         end.

Lemma three_days_dated : Streak.dated Datetime.strptime Sample.three_days.
Proof. intros s H. unfold Sample.three_days in H. each_session; vm_compute; discriminate. Qed.

Lemma three_days_ordered :
  Streak.text_order_is_day_order Datetime.strptime Sample.three_days.
Proof.
  intros s1 s2 d1 d2 H1 H2. unfold Sample.three_days in H1, H2.
  each_session; vm_compute; intros [= <-] [= <-]; split; intros H;
    solve [reflexivity | discriminate H | exfalso; now apply H | discriminate].
Qed.


(** C2 on the same history. *)
Lemma update_streak_invariant_witness :
  (forall p',
     ProgressManager._update_streak Datetime.strptime
       (Sample.progress Sample.three_days 0 0) (Datetime.day_2024_01_01 + 2) = Some p' ->
     ProgressState.current_streak p' <= ProgressState.longest_streak p')
  /\ (Streak.dated Datetime.strptime Sample.three_days ->
      exists p',
        ProgressManager._update_streak Datetime.strptime
          (Sample.progress Sample.three_days 0 0) (Datetime.day_2024_01_01 + 2) = Some p').
Proof.
  apply (update_streak_invariant Datetime.strptime (Sample.progress Sample.three_days 0 0)
           (Datetime.day_2024_01_01 + 2)).
  simpl. lia.
Defined.

(** The examples of the specification: three consecutive days seen on the
    third day, the same seen two days later, and a history with a gap. *)
Example three_days_streak :
  ProgressManager._update_streak Datetime.strptime (Sample.progress Sample.three_days 0 0)
    (Datetime.day_2024_01_01 + 2)
  = Some (Sample.progress Sample.three_days 3 3).
Proof. vm_compute. reflexivity. Qed.

Example three_days_stale :
  ProgressManager._update_streak Datetime.strptime (Sample.progress Sample.three_days 3 3)
    (Datetime.day_2024_01_01 + 4)
  = Some (Sample.progress Sample.three_days 0 3).
Proof. vm_compute. reflexivity. Qed.

Example gap_days_streak :
  ProgressManager._update_streak Datetime.strptime (Sample.progress Sample.gap_days 0 0)
    (Datetime.day_2024_01_01 + 5)
  = Some (Sample.progress Sample.gap_days 1 2).
Proof. vm_compute. reflexivity. Qed.

(** * Further properties of the managers *)

(** ** Flashcards: what a review touches *)

Section ReviewFrame.
Import FlashcardManager.
Variable isoformat : Z -> string.

Lemma mark_in_cards_split (cards : list Flashcard.t) (card_id result : string)
    (t1 t2 : Z) (card : Flashcard.t) :
  find_in_cards card_id cards = Some card ->
  exists pre post,
    cards = (pre ++ card :: post)%list
    /\ mark_in_cards isoformat cards card_id result t1 t2
       = Some (pre ++ review_card isoformat card result t1 t2 :: post)%list
    /\ Forall (fun c => Flashcard.card_id c <> card_id) pre.
Proof.
  induction cards as [|c cards IH]; simpl; [discriminate|].
  destruct (String.eqb_spec (Flashcard.card_id c) card_id) as [E|E].
  - intros [= ->]. exists [], cards. auto.
  - intros H. destruct (IH H) as (pre & post & -> & -> & Hpre).
    exists (c :: pre), post. simpl. auto.
Qed.

Lemma find_in_cards_none (cards : list Flashcard.t) (card_id : string) :
  find_in_cards card_id cards = None ->
  Forall (fun c => Flashcard.card_id c <> card_id) cards.
Proof.
  induction cards as [|c cards IH]; simpl; [constructor|].
  destruct (String.eqb_spec (Flashcard.card_id c) card_id); [discriminate|auto].
Qed.

(** X1. [mark_card_review] returns False exactly when no card has the id,
    and then the decks are left as they were; it returns True whenever a
    card has the id. *)
Theorem mark_card_review_flag (decks : list FlashcardDeck.t) (card_id result : string)
    (t1 t2 : Z) :
  (find_card card_id decks = None ->
   mark_card_review isoformat decks card_id result t1 t2 = (false, decks))
  /\ (find_card card_id decks <> None ->
      fst (mark_card_review isoformat decks card_id result t1 t2) = true).
Proof.
  split.
  - apply mark_card_review_missing.
  - destruct (find_card card_id decks) as [[deck card]|] eqn:E; [|contradiction].
    intros _.
    destruct (mark_card_review_found isoformat _ _ result t1 t2 _ _ E) as (d & d' & -> & _).
    reflexivity.
Qed.

(** X2. A review changes one card only: the cards of all decks, taken in
    order, are after the call what they were before except for the first
    card with the id, which is replaced by its reviewed version; no deck is
    added, removed or renamed. *)
Theorem mark_card_review_frame (decks : list FlashcardDeck.t) (card_id result : string)
    (t1 t2 : Z) (deck : FlashcardDeck.t) (card : Flashcard.t) :
  find_card card_id decks = Some (deck, card) ->
  exists pre post,
    all_cards decks = (pre ++ card :: post)%list
    /\ all_cards (snd (mark_card_review isoformat decks card_id result t1 t2))
       = (pre ++ review_card isoformat card result t1 t2 :: post)%list
    /\ Forall (fun c => Flashcard.card_id c <> card_id) pre
    /\ map FlashcardDeck.deck_id (snd (mark_card_review isoformat decks card_id result t1 t2))
       = map FlashcardDeck.deck_id decks.
Proof.
  unfold mark_card_review, all_cards.
  induction decks as [|d decks IH]; simpl; [discriminate|].
  destruct (find_in_cards card_id (FlashcardDeck.cards d)) as [c|] eqn:E.
  - intros [= -> ->].
    destruct (mark_in_cards_split _ _ result t1 t2 _ E) as (pre & post & Hc & -> & Hpre).
    exists pre, (post ++ flat_map FlashcardDeck.cards decks)%list. simpl.
    rewrite Hc, <- !app_assoc. auto.
  - intros H. rewrite (mark_in_cards_missing isoformat _ _ result t1 t2 E).
    destruct (IH H) as (pre & post & Hall & Hall' & Hpre & Hids).
    destruct (mark_in_decks isoformat decks card_id result t1 t2) as [decks'|];
      simpl in *.
    + exists (FlashcardDeck.cards d ++ pre)%list, post.
      rewrite Hall, Hall', <- !app_assoc, Hids.
      repeat split; try reflexivity.
      apply Forall_app. split; [now apply find_in_cards_none|assumption].
    + exists (FlashcardDeck.cards d ++ pre)%list, post.
      rewrite Hall', <- !app_assoc.
      repeat split; try reflexivity.
      * rewrite Hall in Hall'. apply app_inv_head in Hall'. injection Hall' as Hsame.
        now rewrite <- Hsame.
      * apply Forall_app. split; [now apply find_in_cards_none|assumption].
Qed.

Lemma review_card_count (card : Flashcard.t) (result : string) (t1 t2 : Z) :
  Flashcard.review_count (review_card isoformat card result t1 t2)
  = Flashcard.review_count card + 1.
Proof.
  unfold review_card.
  repeat match goal with |- context [if ?b then _ else _] => destruct b end;
    reflexivity.
Qed.

Lemma review_card_status (card : Flashcard.t) (result : string) (t1 t2 : Z) :
  CardStatus.eqb (Flashcard.status (review_card isoformat card result t1 t2))
    CardStatus.NEW = false.
Proof.
  unfold review_card.
  repeat match goal with |- context [if ?b then _ else _] => destruct b eqn:? end;
    simpl; try reflexivity; congruence.
Qed.
End ReviewFrame.

(** ** Flashcards: a selection that cannot be made *)

Section SelectionErrors.
Import FlashcardManager Selection.
Variable fromisoformat : string -> option Z.

Lemma tier_unreadable (now : Z) (card : Flashcard.t) :
  ~ readable fromisoformat card -> tier fromisoformat now card = None.
Proof.
  unfold readable, tier.
  destruct (Flashcard.status card);
    try (intros H; exfalso; apply H; exact I);
    (destruct (Flashcard.next_review card) as [text|]; [|intros H; exfalso; now apply H]);
    (destruct (String.eqb_spec text EmptyString) as [->|Hne];
       [intros H; exfalso; apply H; now left|]);
    (destruct (fromisoformat text) as [t|]; [|reflexivity]);
    intros H; exfalso; apply H; right; discriminate.
Qed.

Lemma due_cards_readable (clock : nat -> Z) (cards : list Flashcard.t) (i : nat) :
  Forall (readable fromisoformat) cards ->
  exists due, due_cards fromisoformat clock i cards = Some due.
Proof.
  intros H. revert i. induction H as [|card cards Hc _ IH]; intros i; simpl.
  - eauto.
  - rewrite (tier_due_tier fromisoformat (clock i) _ Hc).
    destruct (IH (S i)) as (due & ->). eauto.
Qed.

Lemma due_cards_unreadable (clock : nat -> Z) (cards : list Flashcard.t) (i : nat) :
  Exists (fun card => ~ readable fromisoformat card) cards ->
  due_cards fromisoformat clock i cards = None.
Proof.
  intros H. revert i. induction H as [card cards Hc|card cards _ IH]; intros i; simpl.
  - now rewrite (tier_unreadable _ _ Hc).
  - rewrite IH. now destruct (tier fromisoformat (clock i) card).
Qed.

(** X3. [get_cards_for_review] raises exactly when it has to read a
    [next_review] it cannot read: with whatever clock and limit, it returns
    a list when the [next_review] of every card that is neither NEW nor
    DIFFICULT is absent, empty or a readable time, and it raises as soon as
    one such card has a non-empty text that [fromisoformat] rejects.  The
    [next_review] of NEW and DIFFICULT cards is never read. *)
Theorem get_cards_for_review_raises (decks : list FlashcardDeck.t) (num_cards : Z)
    (clock : nat -> Z) :
  (Forall (readable fromisoformat) (all_cards decks) ->
   exists cards, get_cards_for_review fromisoformat decks num_cards clock = Some cards)
  /\ (Exists (fun card => ~ readable fromisoformat card) (all_cards decks) ->
      get_cards_for_review fromisoformat decks num_cards clock = None).
Proof.
  unfold get_cards_for_review. split; intros H.
  - destruct (due_cards_readable clock _ 0%nat H) as (due & ->). eauto.
  - now rewrite (due_cards_unreadable clock _ 0%nat H).
Qed.
End SelectionErrors.

(** ** Flashcards: adding a card *)

Section AddCard.
Import FlashcardManager FlashcardDecks.


Variable isoformat : Z -> string.

Lemma find_in_cards_app_new (cards : list Flashcard.t) (card : Flashcard.t) :
  find_in_cards (Flashcard.card_id card) cards = None ->
  find_in_cards (Flashcard.card_id card) (cards ++ [card]) = Some card.
Proof.
  induction cards as [|c cards IH]; simpl.
  - now rewrite String.eqb_refl.
  - destruct (Flashcard.card_id c =? Flashcard.card_id card)%string; [discriminate|assumption].
Qed.

Lemma add_card_found (decks decks1 : list FlashcardDeck.t) (deck_id question answer : string)
    (difficulty : DifficultyLevel.t) (new_id now : string) (card : Flashcard.t) :
  add_card decks deck_id question answer difficulty new_id now = (Some card, decks1) ->
  find_card new_id decks = None ->
  exists deck1,
    find_card new_id decks1 = Some (deck1, card)
    /\ Flashcard.status card = CardStatus.NEW
    /\ Flashcard.review_count card = 0
    /\ Flashcard.question card = question
    /\ Flashcard.answer card = answer.
Proof.
  revert decks1. induction decks as [|d decks IH]; simpl; intros decks1; [discriminate|].
  destruct (find_in_cards new_id (FlashcardDeck.cards d)) eqn:E; [discriminate|].
  destruct (FlashcardDeck.deck_id d =? deck_id)%string.
  - intros [= <- <-] _. eexists. simpl.
    pose proof (find_in_cards_app_new (FlashcardDeck.cards d)
                  (new_card d question answer difficulty new_id now) E) as Hnew.
    change (Flashcard.card_id (new_card d question answer difficulty new_id now))
      with new_id in Hnew.
    rewrite Hnew. repeat split.
  - destruct (add_card decks deck_id question answer difficulty new_id now) as [r ds] eqn:Ea.
    intros [= -> <-] Hnone. destruct (IH ds eq_refl Hnone) as (deck1 & Hf & Hrest).
    exists deck1. simpl. now rewrite E, Hf.
Qed.

(** X5. A card just added can be reviewed by the id it was given: when no
    older card has that id, [mark_card_review] on the decks after [add_card]
    returns True and leaves the new card with the status of the outcome, one
    review counted and its [next_review] set; question and answer are the
    ones given. *)
Theorem add_card_then_review (decks decks1 : list FlashcardDeck.t)
    (deck_id question answer : string) (difficulty : DifficultyLevel.t)
    (new_id now : string) (card : Flashcard.t) (o : Outcome.t) (now_reviewed as_of : Z) :
  add_card decks deck_id question answer difficulty new_id now = (Some card, decks1) ->
  find_card new_id decks = None ->
  exists decks2 deck2 card2,
    mark_card_review isoformat decks1 new_id (Outcome.text o) now_reviewed as_of
      = (true, decks2)
    /\ find_card new_id decks2 = Some (deck2, card2)
    /\ Flashcard.status card2 = Outcome.new_status o
    /\ Flashcard.review_count card2 = 1
    /\ Flashcard.next_review card2 = Some (isoformat (as_of + Outcome.interval o))
    /\ Flashcard.question card2 = question
    /\ Flashcard.answer card2 = answer.
Proof.
  intros Hadd Hfresh.
  destruct (add_card_found _ _ _ _ _ _ _ _ _ Hadd Hfresh)
    as (deck1 & Hf & Hst & Hrc & Hq & Ha).
  destruct (mark_card_review_found isoformat _ _ (Outcome.text o) now_reviewed as_of _ _ Hf)
    as (decks2 & deck2 & Hm & Hf2 & _).
  exists decks2, deck2, (review_card isoformat card (Outcome.text o) now_reviewed as_of).
  rewrite review_card_recognized in *. simpl.
  repeat split; try assumption. rewrite Hrc. reflexivity.
Qed.

(** X6. Every call of [mark_card_review] that finds the card counts: after
    any sequence of reviews of one card, whatever the result texts, its
    [review_count] and the [total_reviews] of its deck have grown by the
    number of calls, and after at least one call the card is not NEW. *)
Theorem review_repeatedly_counts (reviews : list (string * (Z * Z))) :
  forall (decks : list FlashcardDeck.t) (card_id : string)
         (deck : FlashcardDeck.t) (card : Flashcard.t),
    find_card card_id decks = Some (deck, card) ->
    exists deck' card',
      find_card card_id (review_repeatedly isoformat decks card_id reviews)
        = Some (deck', card')
      /\ Flashcard.review_count card'
         = Flashcard.review_count card + Z.of_nat (List.length reviews)
      /\ FlashcardDeck.total_reviews deck'
         = FlashcardDeck.total_reviews deck + Z.of_nat (List.length reviews)
      /\ (reviews <> [] -> CardStatus.eqb (Flashcard.status card') CardStatus.NEW = false).
Proof.
  induction reviews as [|[result [t1 t2]] reviews IH]; intros decks card_id deck card Hf.
  - exists deck, card. simpl. repeat split; try lia; try assumption. congruence.
  - destruct (mark_card_review_found isoformat _ _ result t1 t2 _ _ Hf)
      as (decks1 & deck1 & Hm & Hf1 & Ht1 & _).
    simpl review_repeatedly. rewrite Hm. simpl snd.
    destruct (IH _ _ _ _ Hf1) as (deck' & card' & Hf' & Hrc & Htr & Hst).
    exists deck', card'. rewrite Hf', Hrc, Htr, Ht1, review_card_count.
    simpl List.length. repeat split; try lia.
    intros _. destruct reviews as [|r reviews'].
    + simpl in Hf'. rewrite Hf1 in Hf'. injection Hf' as _ <-.
      apply review_card_status.
    + apply Hst. discriminate.
Qed.
End AddCard.

(** X2 on the sample decks: the second card reviewed as hard. *)
Lemma mark_card_review_frame_witness :
  exists pre post,
    FlashcardManager.all_cards Sample.mixed_decks
    = (pre ++ Sample.reviewing_later :: post)%list
    /\ FlashcardManager.all_cards
         (snd (FlashcardManager.mark_card_review Datetime.isoformat Sample.mixed_decks "r"
                 "hard" Sample.t_review Sample.t_review))
       = (pre ++ FlashcardManager.review_card Datetime.isoformat Sample.reviewing_later
                   "hard" Sample.t_review Sample.t_review :: post)%list
    /\ Forall (fun c => Flashcard.card_id c <> "r") pre
    /\ map FlashcardDeck.deck_id
         (snd (FlashcardManager.mark_card_review Datetime.isoformat Sample.mixed_decks "r"
                 "hard" Sample.t_review Sample.t_review))
       = map FlashcardDeck.deck_id Sample.mixed_decks.
Proof.
  apply (mark_card_review_frame Datetime.isoformat Sample.mixed_decks "r" "hard"
           Sample.t_review Sample.t_review
           (Sample.deck [Sample.mastered_due; Sample.reviewing_later] 6)
           Sample.reviewing_later).
  reflexivity.
Defined.

(** X5 on the sample deck: a second card added and reviewed as easy, as in
    the test of the review. *)
Lemma add_card_then_review_witness :
  exists decks2 deck2 card2,
    FlashcardManager.mark_card_review Datetime.isoformat
      (snd (FlashcardDecks.add_card Sample.fresh_decks "d1" "Q2" "A2"
              DifficultyLevel.BEGINNER "c2" "2024-01-02T09:00:00"))
      "c2" (Outcome.text Outcome.EASY) Sample.t_review Sample.t_review = (true, decks2)
    /\ find_card "c2" decks2 = Some (deck2, card2)
    /\ Flashcard.status card2 = Outcome.new_status Outcome.EASY
    /\ Flashcard.review_count card2 = 1
    /\ Flashcard.next_review card2
       = Some (Datetime.isoformat (Sample.t_review + Outcome.interval Outcome.EASY))
    /\ Flashcard.question card2 = "Q2"
    /\ Flashcard.answer card2 = "A2".
Proof.
  apply (add_card_then_review Datetime.isoformat Sample.fresh_decks
           (snd (FlashcardDecks.add_card Sample.fresh_decks "d1" "Q2" "A2"
                   DifficultyLevel.BEGINNER "c2" "2024-01-02T09:00:00"))
           "d1" "Q2" "A2" DifficultyLevel.BEGINNER "c2" "2024-01-02T09:00:00"
           (FlashcardDecks.new_card (Sample.deck [Sample.card "c1" CardStatus.NEW 0 None None] 0)
              "Q2" "A2" DifficultyLevel.BEGINNER "c2" "2024-01-02T09:00:00")
           Outcome.EASY Sample.t_review Sample.t_review);
    reflexivity.
Defined.

(** X6 on the sample deck: the fresh card reviewed twice, the second time
    with a text that is no outcome. *)
Lemma review_repeatedly_counts_witness :
  exists deck' card',
    find_card "c1"
      (FlashcardDecks.review_repeatedly Datetime.isoformat Sample.fresh_decks "c1"
         [("easy", (Sample.t_review, Sample.t_review));
          ("great", (Sample.t_review + 1, Sample.t_review + 2))])
    = Some (deck', card')
    /\ Flashcard.review_count card' = 0 + Z.of_nat 2
    /\ FlashcardDeck.total_reviews deck' = 0 + Z.of_nat 2
    /\ ([("easy", (Sample.t_review, Sample.t_review));
         ("great", (Sample.t_review + 1, Sample.t_review + 2))] <> [] ->
        CardStatus.eqb (Flashcard.status card') CardStatus.NEW = false).
Proof.
  apply (review_repeatedly_counts Datetime.isoformat
           [("easy", (Sample.t_review, Sample.t_review));
            ("great", (Sample.t_review + 1, Sample.t_review + 2))]
           Sample.fresh_decks "c1"
           (Sample.deck [Sample.card "c1" CardStatus.NEW 0 None None] 0)
           (Sample.card "c1" CardStatus.NEW 0 None None)).
  reflexivity.
Defined.

(** ** Progress: a history with a date that cannot be read *)

Section StreakErrors.
Import ProgressManager Streak.
Variable strptime : string -> option Z.

Lemma streak_scan_unreadable (rest : list string) :
  forall (prev s : string) (longest temp : Z),
    rest <> [] -> In s (prev :: rest) -> strptime s = None ->
    streak_scan strptime prev rest longest temp = None.
Proof.
  induction rest as [|date rest IH]; intros prev s longest temp Hne Hin Hs;
    [contradiction|].
  simpl. destruct (strptime prev) as [prev_date|] eqn:Ep; [|reflexivity].
  destruct (strptime date) as [curr_date|] eqn:Ed; [|reflexivity].
  destruct Hin as [<-|Hin]; [congruence|].
  destruct rest as [|date' rest'].
  { destruct Hin as [<-|[]]. congruence. }
  destruct (curr_date - prev_date =? 1); apply (IH date s); auto; discriminate.
Qed.

Lemma update_streak_unreadable (p : ProgressState.t) (today : Z) :
  Exists (fun s => strptime (DailySession.date s) = None) (ProgressState.daily_sessions p) ->
  _update_streak strptime p today = None.
Proof.
  intros H. apply Exists_exists in H as (s & Hin & Hs).
  unfold _update_streak.
  destruct (ProgressState.daily_sessions p) as [|s0 ss] eqn:Es; [destruct Hin|].
  assert (Hdate : In (DailySession.date s) (streak_dates (s0 :: ss))).
  { apply streak_dates_In, in_map_iff. eauto. }
  unfold streak_loop.
  destruct (streak_dates (s0 :: ss)) as [|first rest]; [destruct Hdate|].
  destruct rest as [|second rest].
  - destruct Hdate as [->|[]]. simpl. now rewrite Hs.
  - rewrite (streak_scan_unreadable (second :: rest) first _ 0 1 ltac:(discriminate) Hdate Hs).
    reflexivity.
Qed.

(** X7. [_update_streak] raises exactly when some session of the history
    has a date that [strptime] rejects: one such session anywhere in the
    history makes the recomputation fail, and a history without one (the
    empty history included) is always recomputed. *)
Theorem update_streak_raises (p : ProgressState.t) (today : Z) :
  _update_streak strptime p today = None
  <-> Exists (fun s => strptime (DailySession.date s) = None)
        (ProgressState.daily_sessions p).
Proof.
  split; [|apply update_streak_unreadable].
  intros Hnone.
  destruct (Exists_dec (fun s => strptime (DailySession.date s) = None)
              (ProgressState.daily_sessions p)) as [|Hno]; [|assumption|].
  { intros s. destruct (strptime (DailySession.date s)); [right; discriminate|now left]. }
  exfalso.
  assert (Hdated : dated strptime (ProgressState.daily_sessions p)).
  { intros s Hs Hp. apply Hno, Exists_exists. eauto. }
  revert Hnone. unfold _update_streak.
  destruct (ProgressState.daily_sessions p) as [|s0 ss]; [discriminate|].
  pose proof (dated_dates strptime _ Hdated) as Hdates. unfold streak_loop.
  destruct (streak_dates (s0 :: ss)) as [|first rest]; [discriminate|].
  destruct (streak_scan_total strptime rest first 0 1 Hdates) as ([l t] & ->).
  destruct (strptime (Py.last_item (first :: rest) EmptyString)) eqn:E; [discriminate|].
  intros _. apply (Hdates (Py.last_item (first :: rest) EmptyString)); [|assumption].
  unfold Py.last_item. rewrite last_cons. apply last_In.
Qed.

(** X8. [log_session] is not all-or-nothing: when the text of today or the
    date of an earlier session cannot be read, the call raises out of
    [_update_streak] after the session has been appended, the hours added
    and [last_session_date] and [updated_at] written, while both streak
    fields keep their old values. *)
Theorem log_session_raises (p : ProgressState.t) (duration_hours : float)
    (topics resources : list string) (notes : string) (mood : option string)
    (today stamp updated : string) (today_day : Z) :
  Exists (fun s => strptime (DailySession.date s) = None) (ProgressState.daily_sessions p)
  \/ strptime today = None ->
  log_session strptime p duration_hours topics resources notes mood today stamp updated
    today_day
  = (ProgressState.mk
       (ProgressState.daily_sessions p
        ++ [DailySession.mk today duration_hours topics resources notes mood stamp])%list
       (ProgressState.current_streak p) (ProgressState.longest_streak p) (Some today)
       (PrimFloat.add (ProgressState.total_hours p) duration_hours)
       (ProgressState.completed_milestones p) (ProgressState.total_milestones p) updated,
     None).
Proof.
  intros H. unfold log_session. rewrite update_streak_unreadable; [reflexivity|].
  simpl. apply Exists_app. destruct H as [H|H]; [now left|right].
  constructor. assumption.
Qed.

Lemma dict_set_keys_present {V : Type} (k : string) (v : V) (d : list (string * V)) :
  In k (Py.dict_keys d) -> Py.dict_keys (Py.dict_set k v d) = Py.dict_keys d.
Proof.
  unfold Py.dict_keys. induction d as [|[k0 v0] d IH]; simpl; [intros []|].
  destruct (String.eqb_spec k0 k) as [->|Hne]; simpl; [reflexivity|].
  intros [E|Hin]; [contradiction|]. now rewrite IH.
Qed.

Lemma streak_dates_same_day (sessions : list DailySession.t) (s : DailySession.t) :
  In (DailySession.date s) (map DailySession.date sessions) ->
  streak_dates (sessions ++ [s]) = streak_dates sessions.
Proof.
  intros Hin. unfold streak_dates, sessions_by_date.
  rewrite fold_left_app. simpl. rewrite dict_set_keys_present; [reflexivity|].
  apply sessions_fold_keys. now right.
Qed.

(** X9. A further session on a day that already has one changes neither
    streak: the recomputation over the history with the session appended
    gives the same [current_streak] and [longest_streak] (or fails alike) as
    over the history without it, whatever the other fields of the state. *)
Theorem update_streak_same_day (p p1 : ProgressState.t) (s : DailySession.t) (today : Z) :
  ProgressState.daily_sessions p <> [] ->
  In (DailySession.date s) (map DailySession.date (ProgressState.daily_sessions p)) ->
  ProgressState.daily_sessions p1 = (ProgressState.daily_sessions p ++ [s])%list ->
  option_map (fun q => (ProgressState.current_streak q, ProgressState.longest_streak q))
    (_update_streak strptime p1 today)
  = option_map (fun q => (ProgressState.current_streak q, ProgressState.longest_streak q))
      (_update_streak strptime p today).
Proof.
  intros Hne Hin Hp1. unfold _update_streak. rewrite Hp1.
  destruct (ProgressState.daily_sessions p) as [|s0 ss] eqn:Es; [contradiction|].
  change ((s0 :: ss) ++ [s])%list with (s0 :: (ss ++ [s]))%list.
  cbv iota. change (s0 :: (ss ++ [s]))%list with ((s0 :: ss) ++ [s])%list.
  rewrite (streak_dates_same_day _ _ Hin).
  destruct (streak_loop strptime _) as [[l t]|]; [|reflexivity].
  destruct (streak_dates (s0 :: ss)); [reflexivity|].
  destruct (strptime _); reflexivity.
Qed.
End StreakErrors.

(** ** Progress: what a day's session does to the streaks *)

Section StreakUse.
Import ProgressManager Streak.
Variable strptime : string -> option Z.

(** The recomputation over a history that is not empty, in terms of the
    logged days: the loop's result with the days it went through. *)
Lemma update_streak_scanned (p : ProgressState.t) (today : Z) :
  ProgressState.daily_sessions p <> [] ->
  dated strptime (ProgressState.daily_sessions p) ->
  text_order_is_day_order strptime (ProgressState.daily_sessions p) ->
  exists days last longest temp,
    (forall d, In d days <-> logged strptime (ProgressState.daily_sessions p) d)
    /\ (List.length days <= List.length (ProgressState.daily_sessions p))%nat
    /\ scanned days last longest temp
    /\ _update_streak strptime p today
       = Some (set_streaks p
                 (if today - last =? 0 then temp
                  else if today - last =? 1 then temp else 0)
                 (Z.max longest temp)).
Proof.
  intros Hne Hdated Horder. unfold _update_streak.
  destruct (ProgressState.daily_sessions p) as [|s0 ss] eqn:Es; [contradiction|].
  clear Hne. set (sessions := s0 :: ss) in *.
  destruct (parse_all strptime _ (dated_dates strptime _ Hdated)) as (days & Hdays).
  pose proof (logged_days strptime _ _ Hdays) as Hlogged.
  assert (Hsorted : Sorted Z.lt days).
  { apply (sorted_texts_days strptime (streak_dates sessions)); try assumption.
    - apply streak_dates_Sorted.
    - apply streak_dates_NoDup.
    - intros a b da db Ha Hb.
      apply streak_dates_In, in_map_iff in Ha as (x & <- & Hx).
      apply streak_dates_In, in_map_iff in Hb as (y & <- & Hy).
      now apply Horder. }
  assert (Hlen : (List.length days <= List.length sessions)%nat).
  { rewrite <- (Forall2_length Hdays), <- (length_map DailySession.date sessions).
    apply NoDup_incl_length; [apply streak_dates_NoDup|].
    intros k Hk. now apply streak_dates_In. }
  destruct (streak_dates sessions) as [|first_s rest_s] eqn:Edates.
  { exfalso. assert (H : In (DailySession.date s0) []); [|destruct H].
    rewrite <- Edates. apply streak_dates_In, in_map_iff.
    exists s0. split; [reflexivity|now left]. }
  inversion Hdays as [|? first ? rest Hfirst Hrest]; subst days.
  unfold streak_loop.
  destruct (streak_scan_scanned strptime _ _ Hrest first_s first [first] 0 1 Hfirst Hsorted
              (scanned_first first)) as (lg & tp & -> & Hinv & Hlast).
  unfold Py.last_item. rewrite last_cons, Hlast.
  exists (first :: rest), (List.last rest first), lg, tp. auto.
Qed.

Lemma run_length (days : list Z) (first len : Z) :
  run (fun d => In d days) first len -> len <= Z.of_nat (List.length days).
Proof.
  intros Hrun. destruct (Z_lt_le_dec len 0) as [|Hlen]; [lia|].
  assert (Hincl : incl (map (fun j => first + Z.of_nat j) (seq 0 (Z.to_nat len))) days).
  { intros d Hd. apply in_map_iff in Hd as (j & <- & Hj). apply in_seq in Hj.
    apply Hrun. lia. }
  apply NoDup_incl_length in Hincl.
  - rewrite length_map, length_seq in Hincl. lia.
  - apply Finite.Injective_map_NoDup; [|apply seq_NoDup].
    intros a b. lia.
Qed.

(** X10. The longest streak of a history that is not empty, with readable
    dates in text order, is at least 1 and at most the number of sessions
    logged. *)
Theorem longest_streak_bounds (p : ProgressState.t) (today : Z) :
  ProgressState.daily_sessions p <> [] ->
  dated strptime (ProgressState.daily_sessions p) ->
  text_order_is_day_order strptime (ProgressState.daily_sessions p) ->
  exists p',
    _update_streak strptime p today = Some p'
    /\ 1 <= ProgressState.longest_streak p'
       <= Z.of_nat (List.length (ProgressState.daily_sessions p)).
Proof.
  intros Hne Hdated Horder.
  destruct (update_streak_scanned p today Hne Hdated Horder)
    as (days & last & lg & tp & _ & Hlen & Hinv & ->).
  eexists; split; [reflexivity|]. simpl.
  destruct Hinv as (_ & _ & (Ht & Hrun & _) & Hl0 & Hl & _).
  split; [lia|].
  apply run_length in Hrun.
  destruct Hl as [->|(a & Ha)]; [lia|]. apply run_length in Ha. lia.
Qed.

(** X11. After a session is logged today the current streak is alive: when
    the dates can be read, are written in text order and none lies after
    today, [log_session] returns the session and leaves
    [1 <= current_streak <= longest_streak], with [current_streak] the length
    of the run of logged days that ends today. *)
Theorem log_session_today (p : ProgressState.t) (duration_hours : float)
    (topics resources : list string) (notes : string) (mood : option string)
    (today stamp updated : string) (today_day : Z) :
  let session := DailySession.mk today duration_hours topics resources notes mood stamp in
  let sessions := (ProgressState.daily_sessions p ++ [session])%list in
  strptime today = Some today_day ->
  dated strptime sessions ->
  text_order_is_day_order strptime sessions ->
  (forall d, logged strptime (ProgressState.daily_sessions p) d -> d <= today_day) ->
  exists p',
    log_session strptime p duration_hours topics resources notes mood today stamp updated
      today_day = (p', Some session)
    /\ 1 <= ProgressState.current_streak p' <= ProgressState.longest_streak p'
    /\ run_ending_at (logged strptime sessions) today_day (ProgressState.current_streak p').
Proof.
  intros session sessions Htoday Hdated Horder Hpast. unfold log_session.
  fold session. fold sessions.
  set (p1 := ProgressState.mk sessions _ _ _ _ _ _ _).
  destruct (update_streak_scanned p1 today_day) as (days & last & lg & tp & Hlogged & _ & Hinv & ->).
  { subst sessions. simpl. now destruct (ProgressState.daily_sessions p). }
  { exact Hdated. }
  { exact Horder. }
  simpl in Hlogged.
  destruct Hinv as (Hin & Hmax & (Ht & Hrun & Hstop) & Hl0 & _ & _).
  assert (Hlast : last = today_day).
  { apply Z.le_antisymm.
    - apply Hlogged in Hin as (s & Hs & Hp). apply in_app_or in Hs as [Hs|[<-|[]]].
      + apply Hpast. exists s. auto.
      + unfold session in Hp. simpl in Hp. rewrite Htoday in Hp.
        injection Hp as <-. lia.
    - apply Hmax, Hlogged. exists session. split; [|exact Htoday].
      apply in_or_app. right. now left. }
  subst last. rewrite Z.sub_diag. simpl Z.eqb. cbv iota.
  eexists; split; [reflexivity|]. simpl.
  split; [lia|]. split; [assumption|]. split.
  - intros j Hj. apply Hlogged, Hrun, Hj.
  - intros H. now apply Hstop, Hlogged.
Qed.
End StreakUse.

(** X8 on a history with the date 2024-13-01. *)
Lemma log_session_raises_witness :
  ProgressManager.log_session Datetime.strptime (Sample.progress Cases.bad_days 1 1)
    2%float ["Test"] [] EmptyString None "2024-01-02" "2024-01-02T10:00:00"
    "2024-01-02T10:00:05" (Datetime.day_2024_01_01 + 1)
  = (ProgressState.mk
       (Cases.bad_days
        ++ [DailySession.mk "2024-01-02" 2%float ["Test"] [] EmptyString None
              "2024-01-02T10:00:00"])%list
       1 1 (Some "2024-01-02") (PrimFloat.add 0%float 2%float) 0 0 "2024-01-02T10:00:05",
     None).
Proof.
  apply (log_session_raises Datetime.strptime (Sample.progress Cases.bad_days 1 1)
           2%float ["Test"] [] EmptyString None "2024-01-02" "2024-01-02T10:00:00"
           "2024-01-02T10:00:05" (Datetime.day_2024_01_01 + 1)).
  left. apply Exists_cons_tl, Exists_cons_hd. reflexivity.
Defined.

(** X9 on the three sample days: one more session on 2024-01-03. *)
Lemma update_streak_same_day_witness :
  option_map (fun q => (ProgressState.current_streak q, ProgressState.longest_streak q))
    (ProgressManager._update_streak Datetime.strptime
       (Sample.progress (Sample.three_days ++ [Sample.session "2024-01-03" 2%float]) 0 0)
       (Datetime.day_2024_01_01 + 2))
  = option_map (fun q => (ProgressState.current_streak q, ProgressState.longest_streak q))
      (ProgressManager._update_streak Datetime.strptime
         (Sample.progress Sample.three_days 3 3) (Datetime.day_2024_01_01 + 2)).
Proof.
  apply (update_streak_same_day Datetime.strptime (Sample.progress Sample.three_days 3 3)
           (Sample.progress (Sample.three_days ++ [Sample.session "2024-01-03" 2%float]) 0 0)
           (Sample.session "2024-01-03" 2%float) (Datetime.day_2024_01_01 + 2)).
  - discriminate.
  - simpl. auto.
  - reflexivity.
Defined.

(** X10 on the three sample days. *)
Lemma longest_streak_bounds_witness :
  exists p',
    ProgressManager._update_streak Datetime.strptime (Sample.progress Sample.three_days 0 0)
      (Datetime.day_2024_01_01 + 2) = Some p'
    /\ 1 <= ProgressState.longest_streak p'
       <= Z.of_nat (List.length (ProgressState.daily_sessions
                                   (Sample.progress Sample.three_days 0 0))).
Proof.
  apply (longest_streak_bounds Datetime.strptime (Sample.progress Sample.three_days 0 0)
           (Datetime.day_2024_01_01 + 2)).
  - discriminate.
  - exact three_days_dated.
  - exact three_days_ordered.
Defined.

Lemma four_days_dated :
  Streak.dated Datetime.strptime (Sample.three_days ++ [Cases.fourth_day]).
Proof.
  intros s H. unfold Sample.three_days in H. cbn [app] in H.
  each_session; vm_compute; discriminate.
Qed.

Lemma four_days_ordered :
  Streak.text_order_is_day_order Datetime.strptime (Sample.three_days ++ [Cases.fourth_day]).
Proof.
  intros s1 s2 d1 d2 H1 H2. unfold Sample.three_days in H1, H2. cbn [app] in H1, H2.
  each_session; vm_compute; intros [= <-] [= <-]; split; intros H;
    solve [reflexivity | discriminate H | exfalso; now apply H | discriminate].
Qed.

Lemma three_days_past (d : Z) :
  Streak.logged Datetime.strptime Sample.three_days d -> d <= Datetime.day_2024_01_01 + 3.
Proof.
  intros (s & Hs & Hp). unfold Sample.three_days in Hs.
  each_session; vm_compute in Hp; injection Hp as <-; vm_compute; discriminate.
Qed.

(** X11 on the three sample days: a session logged on 2024-01-04. *)
Lemma log_session_today_witness :
  exists p',
    ProgressManager.log_session Datetime.strptime (Sample.progress Sample.three_days 3 3)
      2%float ["Test"] [] EmptyString None "2024-01-04" "2024-01-04T10:00:00"
      "2024-01-04T10:00:05" (Datetime.day_2024_01_01 + 3)
    = (p', Some Cases.fourth_day)
    /\ 1 <= ProgressState.current_streak p' <= ProgressState.longest_streak p'
    /\ Streak.run_ending_at
         (Streak.logged Datetime.strptime (Sample.three_days ++ [Cases.fourth_day]))
         (Datetime.day_2024_01_01 + 3) (ProgressState.current_streak p').
Proof.
  apply (log_session_today Datetime.strptime (Sample.progress Sample.three_days 3 3)
           2%float ["Test"] [] EmptyString None "2024-01-04" "2024-01-04T10:00:00"
           "2024-01-04T10:00:05" (Datetime.day_2024_01_01 + 3)).
  - reflexivity.
  - exact four_days_dated.
  - exact four_days_ordered.
  - exact three_days_past.
Defined.

Example four_days_streak :
  ProgressManager.log_session Datetime.strptime (Sample.progress Sample.three_days 3 3)
    2%float ["Test"] [] EmptyString None "2024-01-04" "2024-01-04T10:00:00"
    "2024-01-04T10:00:05" (Datetime.day_2024_01_01 + 3)
  = (ProgressState.mk (Sample.three_days ++ [Cases.fourth_day]) 4 4 (Some "2024-01-04")
       2%float 0 0 "2024-01-04T10:00:05",
     Some Cases.fourth_day).
Proof. vm_compute. reflexivity. Qed.

(** ** Resources and projects: updates by id *)

Section ResourceUpdates.
Import ResourceManager.

Lemma mark_resource_status_missing (resources : list Resource.t) (resource_id : string)
    (status : ResourceStatus.t) (now : string) :
  Forall (fun r => Resource.resource_id r <> resource_id) resources ->
  mark_resource_status resources resource_id status now = (false, resources).
Proof.
  induction 1 as [|r resources Hr _ IH]; simpl; [reflexivity|].
  destruct (String.eqb_spec (Resource.resource_id r) resource_id); [contradiction|].
  now rewrite IH.
Qed.

Lemma mark_resource_status_found (pre post : list Resource.t) (r : Resource.t)
    (resource_id : string) (status : ResourceStatus.t) (now : string) :
  Forall (fun r => Resource.resource_id r <> resource_id) pre ->
  Resource.resource_id r = resource_id ->
  mark_resource_status (pre ++ r :: post) resource_id status now
  = (true, (pre ++ with_status r status now :: post)%list).
Proof.
  intros Hpre Hid. induction Hpre as [|r0 pre Hr0 _ IH]; simpl.
  - now rewrite Hid, String.eqb_refl.
  - destruct (String.eqb_spec (Resource.resource_id r0) resource_id); [contradiction|].
    now rewrite IH.
Qed.

(** X12. [mark_resource_status] returns False and changes nothing when no
    resource has the id; otherwise it returns True and rewrites the first
    resource with the id and no other: that resource gets the status, and its
    [completion_date] becomes the time of the call when the status is
    COMPLETED and is left as it was for any other status. *)
Theorem mark_resource_status_result (resources : list Resource.t) (resource_id : string)
    (status : ResourceStatus.t) (now : string) :
  (Forall (fun r => Resource.resource_id r <> resource_id) resources ->
   mark_resource_status resources resource_id status now = (false, resources))
  /\ (forall pre r post,
        resources = (pre ++ r :: post)%list ->
        Forall (fun r => Resource.resource_id r <> resource_id) pre ->
        Resource.resource_id r = resource_id ->
        exists r',
          mark_resource_status resources resource_id status now
          = (true, (pre ++ r' :: post)%list)
          /\ Resource.status r' = status
          /\ Resource.completion_date r'
             = (if ResourceStatus.value status =? "completed" then Some now
                else Resource.completion_date r)%string
          /\ Resource.resource_id r' = resource_id
          /\ Resource.title r' = Resource.title r
          /\ Resource.added_date r' = Resource.added_date r
          /\ Resource.notes r' = Resource.notes r).
Proof.
  split; [apply mark_resource_status_missing|].
  intros pre r post -> Hpre Hid. exists (with_status r status now).
  rewrite (mark_resource_status_found _ _ _ _ _ _ Hpre Hid).
  destruct status; repeat split; assumption.
Qed.

(** X13. A completion date is never cleared: a resource marked COMPLETED
    and then given another status has that status and still the completion
    date of the first call. *)
Theorem completion_date_kept (pre post : list Resource.t) (r : Resource.t)
    (resource_id : string) (status : ResourceStatus.t) (now1 now2 : string) :
  Forall (fun r => Resource.resource_id r <> resource_id) pre ->
  Resource.resource_id r = resource_id ->
  status <> ResourceStatus.COMPLETED ->
  exists r',
    mark_resource_status
      (snd (mark_resource_status (pre ++ r :: post) resource_id ResourceStatus.COMPLETED now1))
      resource_id status now2
    = (true, (pre ++ r' :: post)%list)
    /\ Resource.status r' = status
    /\ Resource.completion_date r' = Some now1.
Proof.
  intros Hpre Hid Hstatus.
  rewrite (mark_resource_status_found _ _ _ _ _ _ Hpre Hid). simpl snd.
  rewrite (mark_resource_status_found pre post (with_status r ResourceStatus.COMPLETED now1)
             resource_id status now2 Hpre Hid).
  eexists; split; [reflexivity|]. destruct status; simpl; auto. contradiction.
Qed.
End ResourceUpdates.

Section ProjectUpdates.
Import GitHubProjectManager.

Lemma set_feature_missing (projects : list GitHubProject.t) (project_id feature : string)
    (value : bool) (now : string) :
  Forall (fun p => GitHubProject.project_id p <> project_id) projects ->
  set_feature projects project_id feature value now = (false, projects).
Proof.
  induction 1 as [|p projects Hp _ IH]; simpl; [reflexivity|].
  destruct (String.eqb_spec (GitHubProject.project_id p) project_id); [contradiction|].
  now rewrite IH.
Qed.

Lemma set_feature_found (pre post : list GitHubProject.t) (p : GitHubProject.t)
    (project_id feature : string) (value : bool) (now : string) :
  Forall (fun p => GitHubProject.project_id p <> project_id) pre ->
  GitHubProject.project_id p = project_id ->
  set_feature (pre ++ p :: post) project_id feature value now
  = (true, (pre ++ with_feature p feature value now :: post)%list).
Proof.
  intros Hpre Hid. induction Hpre as [|p0 pre Hp0 _ IH]; simpl.
  - now rewrite Hid, String.eqb_refl.
  - destruct (String.eqb_spec (GitHubProject.project_id p0) project_id); [contradiction|].
    now rewrite IH.
Qed.

(** X14. [add_project_feature] checks the feature name before it looks at
    the projects: a name other than has_readme, has_docs, has_tests and
    has_demo returns False and changes nothing, even when the project
    exists.  With one of the four names it returns False and changes nothing
    when no project has the id, and otherwise sets that one flag of the first
    project with the id and its [last_updated], leaving the other three flags,
    the status and every other project as they were. *)
Theorem add_project_feature_result (projects : list GitHubProject.t)
    (project_id feature : string) (value : bool) (now : string) :
  (~ In feature valid_features ->
   add_project_feature projects project_id feature value now = (false, projects))
  /\ (In feature valid_features ->
      (Forall (fun p => GitHubProject.project_id p <> project_id) projects ->
       add_project_feature projects project_id feature value now = (false, projects))
      /\ (forall pre p post,
            projects = (pre ++ p :: post)%list ->
            Forall (fun p => GitHubProject.project_id p <> project_id) pre ->
            GitHubProject.project_id p = project_id ->
            exists p',
              add_project_feature projects project_id feature value now
              = (true, (pre ++ p' :: post)%list)
              /\ GitHubProject.last_updated p' = now
              /\ GitHubProject.status p' = GitHubProject.status p
              /\ GitHubProject.has_readme p'
                 = (if feature =? "has_readme" then value else GitHubProject.has_readme p)%string
              /\ GitHubProject.has_docs p'
                 = (if feature =? "has_docs" then value else GitHubProject.has_docs p)%string
              /\ GitHubProject.has_tests p'
                 = (if feature =? "has_tests" then value else GitHubProject.has_tests p)%string
              /\ GitHubProject.has_demo p'
                 = (if feature =? "has_demo" then value else GitHubProject.has_demo p)%string)).
Proof.
  unfold add_project_feature.
  assert (Hvalid : existsb (String.eqb feature) valid_features = true
                   <-> In feature valid_features).
  { rewrite existsb_exists. split.
    - intros (x & Hx & E). apply String.eqb_eq in E. now subst.
    - intros H. exists feature. split; [assumption|apply String.eqb_refl]. }
  split.
  - intros Hno. destruct (existsb _ _) eqn:E; [|reflexivity].
    exfalso. now apply Hno, Hvalid.
  - intros Hin. apply Hvalid in Hin. rewrite Hin. split.
    + apply set_feature_missing.
    + intros pre p post -> Hpre Hid. exists (with_feature p feature value now).
      rewrite (set_feature_found _ _ _ _ _ _ _ Hpre Hid). repeat split.
Qed.

(** X15. [update_project_status] returns False and changes nothing when no
    project has the id; otherwise it returns True and gives the first
    project with the id the status and a new [last_updated], leaving its
    flags, its [created_at] and every other project as they were. *)
Theorem update_project_status_result (projects : list GitHubProject.t)
    (project_id : string) (status : ProjectStatus.t) (now : string) :
  (Forall (fun p => GitHubProject.project_id p <> project_id) projects ->
   update_project_status projects project_id status now = (false, projects))
  /\ (forall pre p post,
        projects = (pre ++ p :: post)%list ->
        Forall (fun p => GitHubProject.project_id p <> project_id) pre ->
        GitHubProject.project_id p = project_id ->
        exists p',
          update_project_status projects project_id status now
          = (true, (pre ++ p' :: post)%list)
          /\ GitHubProject.status p' = status
          /\ GitHubProject.last_updated p' = now
          /\ GitHubProject.created_at p' = GitHubProject.created_at p
          /\ (GitHubProject.has_readme p', GitHubProject.has_docs p',
              GitHubProject.has_tests p', GitHubProject.has_demo p')
             = (GitHubProject.has_readme p, GitHubProject.has_docs p,
                GitHubProject.has_tests p, GitHubProject.has_demo p)).
Proof.
  split.
  - induction 1 as [|p projects Hp _ IH]; simpl; [reflexivity|].
    destruct (String.eqb_spec (GitHubProject.project_id p) project_id); [contradiction|].
    now rewrite IH.
  - intros pre p post -> Hpre Hid. exists (with_status p status now).
    split; [|repeat split].
    induction Hpre as [|p0 pre Hp0 _ IH]; simpl.
    + now rewrite Hid, String.eqb_refl.
    + destruct (String.eqb_spec (GitHubProject.project_id p0) project_id); [contradiction|].
      now rewrite IH.
Qed.
End ProjectUpdates.

(** X13 on two resources: the second completed on 2024-01-02 and put back
    in progress the day after. *)
Lemma completion_date_kept_witness :
  exists r',
    ResourceManager.mark_resource_status
      (snd (ResourceManager.mark_resource_status
              ([Cases.resource "r1" "First"] ++ Cases.resource "r2" "Second" :: [])
              "r2" ResourceStatus.COMPLETED "2024-01-02T10:00:00"))
      "r2" ResourceStatus.IN_PROGRESS "2024-01-03T10:00:00"
    = (true, ([Cases.resource "r1" "First"] ++ r' :: [])%list)
    /\ Resource.status r' = ResourceStatus.IN_PROGRESS
    /\ Resource.completion_date r' = Some "2024-01-02T10:00:00".
Proof.
  apply (completion_date_kept [Cases.resource "r1" "First"] []
           (Cases.resource "r2" "Second") "r2" ResourceStatus.IN_PROGRESS
           "2024-01-02T10:00:00" "2024-01-03T10:00:00").
  - repeat constructor. discriminate.
  - reflexivity.
  - discriminate.
Defined.

(** ** Coaching tips: the tips of a week *)

Section WeeklyTips.
Import CoachingTipsManager.

Lemma index_in_range {T : Type} (l : list T) (i : Z) (d : T) :
  0 <= i < Z.of_nat (List.length l) ->
  PyStr.index l i = Some (nth (Z.to_nat i) l d).
Proof.
  intros Hi. unfold PyStr.index.
  destruct (Z.ltb_spec i 0) as [Hneg | _]; [lia |].
  apply nth_error_nth'. lia.
Qed.

Lemma tips_loop_turn (uuid now : nat -> string) (week_num : Z) (k : nat)
    (category : string) (cats : list string) (tips tips_list : list WeeklyTip.t) :
  List.length (PyStr.dict_get TEMPLATE_TIPS category []) = 7%nat ->
  tips_loop uuid now week_num k (category :: cats) tips tips_list
  = tips_loop uuid now week_num (S k) cats
      (tips ++ [new_tip (uuid k) (now k) week_num category (Tips.tip_of_week category week_num)])%list
      (tips_list ++ [new_tip (uuid k) (now k) week_num category (Tips.tip_of_week category week_num)])%list.
Proof.
  intros Hlen. cbn [tips_loop]. rewrite Hlen.
  change (PyStr.modulo week_num (Z.of_nat 7)) with (Some (week_num mod 7)).
  cbn [Err.bind].
  rewrite (index_in_range _ _ EmptyString).
  - reflexivity.
  - rewrite Hlen. pose proof (Z.mod_pos_bound week_num 7). lia.
Qed.

Lemma generate_weekly_tips_eq (tips_list : list WeeklyTip.t) (uuid now : nat -> string)
    (week_num : Z) (current_focus : string) :
  generate_weekly_tips tips_list uuid now week_num current_focus
  = Some (Tips.of_week uuid now week_num, (tips_list ++ Tips.of_week uuid now week_num)%list).
Proof.
  unfold generate_weekly_tips, categories.
  do 4 (rewrite tips_loop_turn by reflexivity).
  cbn [tips_loop]. rewrite <- !app_assoc. reflexivity.
Qed.

Lemma tip_of_week_In (category : string) (week_num : Z) :
  In category categories ->
  In (Tips.tip_of_week category week_num) (PyStr.dict_get TEMPLATE_TIPS category []).
Proof.
  intros Hc. unfold Tips.tip_of_week. apply nth_In.
  assert (Hlen : List.length (PyStr.dict_get TEMPLATE_TIPS category []) = 7%nat).
  { cbn in Hc. destruct Hc as [<- | [<- | [<- | [<- | []]]]]; reflexivity. }
  rewrite Hlen. pose proof (Z.mod_pos_bound week_num 7). lia.
Qed.

Lemma tip_of_week_inj (week_num week_num' : Z) :
  Tips.tip_of_week "learning_strategy" week_num = Tips.tip_of_week "learning_strategy" week_num' ->
  week_num mod 7 = week_num' mod 7.
Proof.
  unfold Tips.tip_of_week. intros Heq.
  pose proof (Z.mod_pos_bound week_num 7) as Hb.
  pose proof (Z.mod_pos_bound week_num' 7) as Hb'.
  assert (Hnd : NoDup (PyStr.dict_get TEMPLATE_TIPS "learning_strategy" [])).
  { cbn. repeat (apply NoDup_cons; [cbn; intuition discriminate |]). apply NoDup_nil. }
  assert (Hi : Z.to_nat (week_num mod 7) = Z.to_nat (week_num' mod 7)).
  { apply (proj1 (NoDup_nth _ EmptyString) Hnd); [cbn; lia | cbn; lia | exact Heq]. }
  lia.
Qed.

(** X16: for every integer week, negative ones too, [generate_weekly_tips]
    returns without an exception; it returns four tips, one per category in
    the order of the categories, each for the week asked, from the
    templates, with a text of the table of its category and the title of
    the category; and the same four tips are appended to the stored list,
    whose earlier tips stay in front. *)
Theorem generate_weekly_tips_result (tips_list : list WeeklyTip.t) (uuid now : nat -> string)
    (week_num : Z) (current_focus : string) :
  exists tips,
    generate_weekly_tips tips_list uuid now week_num current_focus
    = Some (tips, (tips_list ++ tips)%list)
    /\ map WeeklyTip.category tips = categories
    /\ map WeeklyTip.title tips
       = ["Learning Strategy Tip"; "Time Management Tip"; "Portfolio Tip"; "Networking Tip"]
    /\ map WeeklyTip.tip_id tips = map uuid (seq 0 4)
    /\ map WeeklyTip.created_at tips = map now (seq 0 4)
    /\ Forall (fun tip =>
                 WeeklyTip.week tip = week_num
                 /\ WeeklyTip.source tip = "template"
                 /\ In (WeeklyTip.content tip)
                      (PyStr.dict_get TEMPLATE_TIPS (WeeklyTip.category tip) []))
         tips.
Proof.
  exists (Tips.of_week uuid now week_num).
  split; [apply generate_weekly_tips_eq |].
  split; [reflexivity |]. split; [reflexivity |]. split; [reflexivity |].
  split; [reflexivity |].
  unfold Tips.of_week. cbn [seq combine categories map].
  repeat (apply Forall_cons;
          [split; [reflexivity | split; [reflexivity |]];
           cbn [new_tip WeeklyTip.content WeeklyTip.category fst snd];
           apply tip_of_week_In; cbn; tauto |]).
  apply Forall_nil.
Qed.

(** X17: the texts come round every seven weeks and not before: two calls
    return the same four texts exactly when their weeks differ by a
    multiple of 7, whatever the stored lists, ids and clock readings. *)
Theorem generate_weekly_tips_period (tips_list tips_list' : list WeeklyTip.t)
    (uuid now uuid' now' : nat -> string) (week_num week_num' : Z)
    (current_focus current_focus' : string) :
  exists tips tips' stored stored',
    generate_weekly_tips tips_list uuid now week_num current_focus = Some (tips, stored)
    /\ generate_weekly_tips tips_list' uuid' now' week_num' current_focus' = Some (tips', stored')
    /\ (map WeeklyTip.content tips = map WeeklyTip.content tips'
        <-> week_num mod 7 = week_num' mod 7).
Proof.
  exists (Tips.of_week uuid now week_num), (Tips.of_week uuid' now' week_num').
  exists (tips_list ++ Tips.of_week uuid now week_num)%list.
  exists (tips_list' ++ Tips.of_week uuid' now' week_num')%list.
  split; [apply generate_weekly_tips_eq |].
  split; [apply generate_weekly_tips_eq |].
  unfold Tips.of_week.
  cbn [seq combine categories map new_tip WeeklyTip.content fst snd].
  split.
  - intros Heq. injection Heq as Hfirst _. apply tip_of_week_inj. exact Hfirst.
  - intros Hmod. unfold Tips.tip_of_week. rewrite Hmod. reflexivity.
Qed.

Lemma last_items_app {T : Type} (old recent : list T) (n : nat) :
  List.length recent = n -> PyStr.last_items (old ++ recent) n = recent.
Proof.
  intros Hn. unfold PyStr.last_items. rewrite length_app, Hn.
  replace (List.length old + n - n)%nat with (List.length old + 0)%nat by lia.
  rewrite skipn_app, Nat.add_0_r, skipn_all.
  replace (List.length old - List.length old)%nat with 0%nat by lia.
  reflexivity.
Qed.

Lemma recent_tips_app (old recent : list WeeklyTip.t) :
  List.length recent = 4%nat -> recent_tips (old ++ recent) = recent.
Proof.
  intros Hn. unfold recent_tips.
  destruct (old ++ recent)%list eqn:E.
  - apply app_eq_nil in E. destruct E as [_ ->]. discriminate Hn.
  - rewrite <- E. apply last_items_app. exact Hn.
Qed.

(** X18: the summary printed after a generation shows the four tips of that
    call and nothing of what was stored before: under the heading, for each
    category in order, the category in capitals and the text of the week. *)
Theorem summary_after_generation (tips_list : list WeeklyTip.t) (uuid now : nat -> string)
    (week_num : Z) (current_focus : string) :
  exists tips stored,
    generate_weekly_tips tips_list uuid now week_num current_focus = Some (tips, stored)
    /\ get_weekly_tips_summary stored = get_weekly_tips_summary tips
    /\ get_weekly_tips_summary stored
       = PyStr.join PyStr.nl
           [ rule; "THIS WEEK'S COACHING TIPS"; rule
           ; (PyStr.nl ++ "LEARNING STRATEGY")%string
           ; ("  " ++ Tips.tip_of_week "learning_strategy" week_num)%string
           ; (PyStr.nl ++ "TIME MANAGEMENT")%string
           ; ("  " ++ Tips.tip_of_week "time_management" week_num)%string
           ; (PyStr.nl ++ "PORTFOLIO")%string
           ; ("  " ++ Tips.tip_of_week "portfolio" week_num)%string
           ; (PyStr.nl ++ "NETWORKING")%string
           ; ("  " ++ Tips.tip_of_week "networking" week_num)%string ].
Proof.
  exists (Tips.of_week uuid now week_num).
  exists (tips_list ++ Tips.of_week uuid now week_num)%list.
  split; [apply generate_weekly_tips_eq |].
  assert (Hrecent : recent_tips (tips_list ++ Tips.of_week uuid now week_num)
                    = Tips.of_week uuid now week_num)
    by (apply recent_tips_app; reflexivity).
  unfold get_weekly_tips_summary. rewrite Hrecent.
  split; [reflexivity |].
  reflexivity.
Qed.
End WeeklyTips.

(** ** Roadmap: completing a task *)

Section TaskCompletion.
Import MilestoneStatus RoadmapTasks RoadmapState.

Lemma update_first_none {A : Type} (f : A -> option A) (l : list A) :
  update_first f l = None <-> Forall (fun x => f x = None) l.
Proof.
  induction l as [| x l IH]; cbn.
  - split; [constructor | reflexivity].
  - destruct (f x) eqn:Ex.
    + split; [discriminate |]. intros H. inversion H; congruence.
    + destruct (update_first f l).
      * split; [discriminate |]. intros H. inversion H as [| ? ? _ Hl]; subst.
        apply IH in Hl. discriminate Hl.
      * split; [| reflexivity]. intros _. constructor; [exact Ex | now apply IH].
Qed.

Lemma update_first_some {A : Type} (f : A -> option A) (l l' : list A) :
  update_first f l = Some l' ->
  exists pre x x' post,
    l = (pre ++ x :: post)%list /\ l' = (pre ++ x' :: post)%list
    /\ f x = Some x' /\ Forall (fun y => f y = None) pre.
Proof.
  revert l'. induction l as [| x l IH]; cbn; intros l' H; [discriminate |].
  destruct (f x) as [x' |] eqn:Ex.
  - injection H as <-. exists [], x, x', l. repeat split; auto.
  - destruct (update_first f l) as [l'' |]; [| discriminate].
    injection H as <-.
    destruct (IH l'' eq_refl) as (pre & y & y' & post & -> & -> & Hy & Hpre).
    exists (x :: pre), y, y', post. repeat split; auto.
Qed.

Lemma complete_task_spec (task_id : string) (task : WeeklyTask.t) :
  (complete_task task_id task = None /\ WeeklyTask.task_id task <> task_id)
  \/ (complete_task task_id task = Some (done task) /\ WeeklyTask.task_id task = task_id).
Proof.
  unfold complete_task.
  destruct (String.eqb_spec (WeeklyTask.task_id task) task_id) as [E | E]; [right | left]; auto.
Qed.

Lemma in_week_tasks (task_id : string) (week : Week.t) :
  match in_week task_id week with
  | None => absent task_id (Week.tasks week)
  | Some week' => marks task_id (Week.tasks week) (Week.tasks week')
  end.
Proof.
  unfold in_week.
  destruct (update_first (complete_task task_id) (Week.tasks week)) as [tasks |] eqn:E; cbn.
  - apply update_first_some in E.
    destruct E as (pre & x & x' & post & Hl & -> & Hx & Hpre).
    exists pre, x, post.
    destruct (complete_task_spec task_id x) as [[Hn _] | [Hs Hid]]; [congruence |].
    rewrite Hs in Hx. injection Hx as <-.
    repeat split; auto.
    eapply Forall_impl; [| exact Hpre]. intros t Ht.
    destruct (complete_task_spec task_id t) as [[_ Hne] | [Hs' _]]; [exact Hne | congruence].
  - apply update_first_none in E.
    eapply Forall_impl; [| exact E]. intros t Ht.
    destruct (complete_task_spec task_id t) as [[_ Hne] | [Hs' _]]; [exact Hne | congruence].
Qed.

(** One level up: the tasks of the items of a list searched by
    [update_first]. *)
Lemma update_first_tasks {A : Type} (task_id : string) (f : A -> option A)
    (tasks : A -> list WeeklyTask.t) (l : list A) :
  (forall x, match f x with
             | None => absent task_id (tasks x)
             | Some x' => marks task_id (tasks x) (tasks x')
             end) ->
  match update_first f l with
  | None => absent task_id (flat_map tasks l)
  | Some l' => marks task_id (flat_map tasks l) (flat_map tasks l')
  end.
Proof.
  intros Hf.
  destruct (update_first f l) as [l' |] eqn:E.
  - apply update_first_some in E.
    destruct E as (pre & x & x' & post & -> & -> & Hx & Hpre).
    pose proof (Hf x) as Hfx. rewrite Hx in Hfx.
    destruct Hfx as (p & t & q & Hb & Ha & Hp & Hid).
    exists (flat_map tasks pre ++ p)%list, t, (q ++ flat_map tasks post)%list.
    rewrite !flat_map_app. cbn [flat_map]. rewrite Hb, Ha.
    rewrite <- !app_assoc. cbn [app].
    repeat split; auto.
    apply Forall_app. split; [| exact Hp].
    apply Forall_flat_map.
    eapply Forall_impl; [| exact Hpre]. intros y Hy.
    pose proof (Hf y) as Hfy. rewrite Hy in Hfy. exact Hfy.
  - apply update_first_none in E.
    apply Forall_flat_map.
    eapply Forall_impl; [| exact E]. intros y Hy.
    pose proof (Hf y) as Hfy. rewrite Hy in Hfy. exact Hfy.
Qed.

Lemma in_month_tasks (task_id : string) (month : Month.t) :
  match in_month task_id month with
  | None => absent task_id (tasks_of_month month)
  | Some month' => marks task_id (tasks_of_month month) (tasks_of_month month')
  end.
Proof.
  pose proof (update_first_tasks task_id (in_week task_id) Week.tasks (Month.weeks month)
                (in_week_tasks task_id)) as H.
  unfold in_month. destruct (update_first (in_week task_id) (Month.weeks month)); exact H.
Qed.

Lemma in_quarter_tasks (task_id : string) (quarter : Quarter.t) :
  match in_quarter task_id quarter with
  | None => absent task_id (tasks_of_quarter quarter)
  | Some quarter' => marks task_id (tasks_of_quarter quarter) (tasks_of_quarter quarter')
  end.
Proof.
  pose proof (update_first_tasks task_id (in_month task_id) tasks_of_month
                (Quarter.months quarter) (in_month_tasks task_id)) as H.
  unfold in_quarter. destruct (update_first (in_month task_id) (Quarter.months quarter)); exact H.
Qed.

Lemma in_year_tasks (task_id : string) (year : Year.t) :
  match in_year task_id year with
  | None => absent task_id (tasks_of_year year)
  | Some year' => marks task_id (tasks_of_year year) (tasks_of_year year')
  end.
Proof.
  pose proof (update_first_tasks task_id (in_quarter task_id) tasks_of_quarter
                (Year.quarters year) (in_quarter_tasks task_id)) as H.
  unfold in_year. destruct (update_first (in_quarter task_id) (Year.quarters year)); exact H.
Qed.

(** X19: [mark_task_complete] returns False and leaves the roadmap as it is
    when no task has the id.  Otherwise it returns True, and of all the
    tasks of the roadmap, in the order of years, quarters, months, weeks and
    tasks, the first one with the id is COMPLETED and keeps its other
    fields, every other task is as before (later tasks with the same id
    too), and the two dates of the roadmap are not touched. *)
Theorem mark_task_complete_result (roadmap : Roadmap.t) (task_id : string) :
  (Forall (fun t => WeeklyTask.task_id t <> task_id) (all_tasks roadmap)
   /\ mark_task_complete roadmap task_id = (false, roadmap))
  \/ (exists pre task post roadmap',
        mark_task_complete roadmap task_id = (true, roadmap')
        /\ all_tasks roadmap = (pre ++ task :: post)%list
        /\ all_tasks roadmap' = (pre ++ done task :: post)%list
        /\ Forall (fun t => WeeklyTask.task_id t <> task_id) pre
        /\ WeeklyTask.task_id task = task_id
        /\ Roadmap.created_at roadmap' = Roadmap.created_at roadmap
        /\ Roadmap.last_updated roadmap' = Roadmap.last_updated roadmap).
Proof.
  pose proof (update_first_tasks task_id (in_year task_id) tasks_of_year
                (Roadmap.years roadmap) (in_year_tasks task_id)) as H.
  unfold mark_task_complete.
  destruct (update_first (in_year task_id) (Roadmap.years roadmap)) as [years |].
  - right. destruct H as (pre & task & post & Hb & Ha & Hp & Hid).
    exists pre, task, post. eexists. split; [reflexivity |].
    unfold all_tasks. cbn. auto 10.
  - left. split; [exact H | reflexivity].
Qed.
End TaskCompletion.

(** ** Roadmap: statuses only advance *)

Section StatusAdvance.
Import MilestoneStatus RoadmapTasks RoadmapState.

Lemma advanced_refl (st : t) : advanced st st.
Proof. left. reflexivity. Qed.

Lemma checked_advanced {A : Type} (status : A -> t) (items : list A) (old : t) :
  advanced old (checked status items old).
Proof. unfold checked. destruct (all_completed status items); [right | left]; reflexivity. Qed.

Lemma Forall2_same {A : Type} (R : A -> A -> Prop) (l : list A) :
  (forall x, R x x) -> Forall2 R l l.
Proof. intros HR. induction l; constructor; auto. Qed.

Lemma update_first_Forall2 {A : Type} (R : A -> A -> Prop) (f : A -> option A)
    (l l' : list A) :
  (forall x, R x x) ->
  (forall x x', f x = Some x' -> R x x') ->
  update_first f l = Some l' -> Forall2 R l l'.
Proof.
  intros Hrefl Hf H. apply update_first_some in H.
  destruct H as (pre & x & x' & post & -> & -> & Hx & _).
  apply Forall2_app; [apply Forall2_same; exact Hrefl |].
  constructor; [apply Hf; exact Hx | apply Forall2_same; exact Hrefl].
Qed.

Lemma task_after_refl (task : WeeklyTask.t) : task_after task task.
Proof. apply advanced_refl. Qed.

Lemma week_after_refl (week : Week.t) : week_after week week.
Proof. split; [apply Forall2_same, task_after_refl | apply advanced_refl]. Qed.

Lemma month_after_refl (month : Month.t) : month_after month month.
Proof. split; [apply Forall2_same, week_after_refl | apply advanced_refl]. Qed.

Lemma quarter_after_refl (quarter : Quarter.t) : quarter_after quarter quarter.
Proof. split; [apply Forall2_same, month_after_refl | apply advanced_refl]. Qed.

Lemma year_after_refl (year : Year.t) : year_after year year.
Proof. split; [apply Forall2_same, quarter_after_refl | apply advanced_refl]. Qed.

Lemma complete_task_after (task_id : string) (task task' : WeeklyTask.t) :
  complete_task task_id task = Some task' -> task_after task task'.
Proof.
  unfold complete_task. destruct (_ =? _)%string; [| discriminate].
  intros H. injection H as <-. right. reflexivity.
Qed.

Lemma in_week_after (task_id : string) (week week' : Week.t) :
  in_week task_id week = Some week' -> week_after week week'.
Proof.
  unfold in_week.
  destruct (update_first (complete_task task_id) (Week.tasks week)) as [tasks |] eqn:E;
    [| discriminate].
  cbn. intros H. injection H as <-. split; cbn.
  - eapply update_first_Forall2; [apply task_after_refl | apply complete_task_after | exact E].
  - apply checked_advanced.
Qed.

Lemma in_month_after (task_id : string) (month month' : Month.t) :
  in_month task_id month = Some month' -> month_after month month'.
Proof.
  unfold in_month.
  destruct (update_first (in_week task_id) (Month.weeks month)) as [weeks |] eqn:E;
    [| discriminate].
  cbn. intros H. injection H as <-. split; cbn.
  - eapply update_first_Forall2; [apply week_after_refl | apply in_week_after | exact E].
  - apply checked_advanced.
Qed.

Lemma in_quarter_after (task_id : string) (quarter quarter' : Quarter.t) :
  in_quarter task_id quarter = Some quarter' -> quarter_after quarter quarter'.
Proof.
  unfold in_quarter.
  destruct (update_first (in_month task_id) (Quarter.months quarter)) as [months |] eqn:E;
    [| discriminate].
  cbn. intros H. injection H as <-. split; cbn.
  - eapply update_first_Forall2; [apply month_after_refl | apply in_month_after | exact E].
  - apply checked_advanced.
Qed.

Lemma in_year_after (task_id : string) (year year' : Year.t) :
  in_year task_id year = Some year' -> year_after year year'.
Proof.
  unfold in_year.
  destruct (update_first (in_quarter task_id) (Year.quarters year)) as [quarters |] eqn:E;
    [| discriminate].
  cbn. intros H. injection H as <-. split; cbn.
  - eapply update_first_Forall2; [apply quarter_after_refl | apply in_quarter_after | exact E].
  - apply checked_advanced.
Qed.

Lemma mark_task_complete_after (roadmap : Roadmap.t) (task_id : string) :
  Forall2 year_after (Roadmap.years roadmap)
    (Roadmap.years (snd (mark_task_complete roadmap task_id))).
Proof.
  unfold mark_task_complete.
  destruct (update_first (in_year task_id) (Roadmap.years roadmap)) as [years |] eqn:E; cbn.
  - eapply update_first_Forall2; [apply year_after_refl | apply in_year_after | exact E].
  - apply Forall2_same, year_after_refl.
Qed.

Lemma Forall2_flat_map {A B : Type} (R : A -> A -> Prop) (S : B -> B -> Prop)
    (g : A -> list B) (l l' : list A) :
  (forall x x', R x x' -> Forall2 S (g x) (g x')) ->
  Forall2 R l l' -> Forall2 S (flat_map g l) (flat_map g l').
Proof.
  intros Hg H. induction H; cbn; [constructor |].
  apply Forall2_app; auto.
Qed.

Lemma Forall2_map_both {A B : Type} (R : A -> A -> Prop) (S : B -> B -> Prop)
    (g : A -> B) (l l' : list A) :
  (forall x x', R x x' -> S (g x) (g x')) ->
  Forall2 R l l' -> Forall2 S (map g l) (map g l').
Proof. intros Hg H. induction H; cbn; constructor; auto. Qed.

Lemma completed_count_advanced (sts sts' : list t) :
  Forall2 advanced sts sts' ->
  RoadmapManager.completed_count sts <= RoadmapManager.completed_count sts'.
Proof.
  intros H.
  induction H as [| st st' sts sts' Hst _ IH]; cbn [RoadmapManager.completed_count]; [lia |].
  destruct Hst as [-> | ->]; [lia |].
  change (eqb COMPLETED COMPLETED) with true.
  destruct (eqb st COMPLETED); lia.
Qed.

Lemma completed_count_range (sts : list t) :
  0 <= RoadmapManager.completed_count sts <= Z.of_nat (List.length sts).
Proof.
  induction sts as [| st sts IH]; cbn [RoadmapManager.completed_count List.length]; [lia |].
  destruct (eqb st COMPLETED); lia.
Qed.

(** The percentage of a list of statuses, as [_calculate_completion] takes
    it of the list it has chosen. *)
Lemma completion_advanced (sts sts' : list t) :
  Forall2 advanced sts sts' ->
  exists c c',
    match sts with
    | [] => Some 0
    | _ => RoadmapManager.percent_of (RoadmapManager.completed_count sts)
             (Z.of_nat (List.length sts))
    end = Some c
    /\ match sts' with
       | [] => Some 0
       | _ => RoadmapManager.percent_of (RoadmapManager.completed_count sts')
                (Z.of_nat (List.length sts'))
       end = Some c'
    /\ c <= c'.
Proof.
  intros H. pose proof (Forall2_length H) as Hlen.
  pose proof (completed_count_advanced _ _ H) as Hle.
  destruct H as [| st st' sts sts' Hst H].
  - exists 0, 0. repeat split; lia.
  - unfold RoadmapManager.percent_of. rewrite <- Hlen.
    set (n := Z.of_nat (List.length (st :: sts))).
    assert (Hn : 0 < n) by (subst n; cbn [List.length]; lia).
    destruct (Z.eqb_spec n 0) as [E | _]; [lia |].
    eexists _, _. split; [reflexivity |]. split; [reflexivity |].
    apply Z.quot_le_mono; lia.
Qed.

Lemma node_completion (n : RoadmapManager.node) :
  RoadmapManager._calculate_completion n
  = match RoadmapManager.item_statuses n with
    | None => Some 0
    | Some sts =>
        match sts with
        | [] => Some 0
        | _ => RoadmapManager.percent_of (RoadmapManager.completed_count sts)
                 (Z.of_nat (List.length sts))
        end
    end.
Proof.
  unfold RoadmapManager._calculate_completion.
  destruct (RoadmapManager.item_statuses n) as [[| st sts] |]; reflexivity.
Qed.

Lemma advanced_statuses {A : Type} (R : A -> A -> Prop) (status : A -> t) (l l' : list A) :
  (forall x x', R x x' -> advanced (status x) (status x')) ->
  Forall2 R l l' -> Forall2 advanced (map status l) (map status l').
Proof. apply Forall2_map_both. Qed.

Lemma week_after_status (w w' : Week.t) :
  week_after w w' -> advanced (Week.status w) (Week.status w').
Proof. intros [_ H]. exact H. Qed.

Lemma month_after_status (m m' : Month.t) :
  month_after m m' -> advanced (Month.status m) (Month.status m').
Proof. intros [_ H]. exact H. Qed.

Lemma quarter_after_status (q q' : Quarter.t) :
  quarter_after q q' -> advanced (Quarter.status q) (Quarter.status q').
Proof. intros [_ H]. exact H. Qed.

End StatusAdvance.

(** ** Roadmap: a consistent roadmap stays consistent *)

Section Consistency.
Import MilestoneStatus RoadmapTasks RoadmapState.

Lemma all_completed_advanced {A : Type} (R : A -> A -> Prop) (status : A -> t)
    (l l' : list A) :
  (forall x x', R x x' -> advanced (status x) (status x')) ->
  Forall2 R l l' ->
  all_completed status l = true -> all_completed status l' = true.
Proof.
  intros HR H. unfold all_completed.
  induction H as [| x x' l l' Hx _ IH]; cbn [forallb]; [reflexivity |].
  intros Hall. apply andb_prop in Hall. destruct Hall as [Hx1 Hl].
  rewrite (IH Hl), Bool.andb_true_r.
  destruct (HR _ _ Hx) as [-> | ->]; [exact Hx1 | reflexivity].
Qed.

Lemma update_first_forallb {A : Type} (ok : A -> bool) (f : A -> option A) (l l' : list A) :
  (forall x x', f x = Some x' -> ok x = true -> ok x' = true) ->
  update_first f l = Some l' ->
  forallb ok l = true -> forallb ok l' = true.
Proof.
  intros Hf H. apply update_first_some in H.
  destruct H as (pre & x & x' & post & -> & -> & Hx & _).
  rewrite !forallb_app. cbn [forallb]. intros Hall.
  apply andb_prop in Hall. destruct Hall as [-> Hall].
  apply andb_prop in Hall. destruct Hall as [Hok ->].
  rewrite (Hf _ _ Hx Hok). reflexivity.
Qed.

(** The check of a parent over parts that have advanced keeps [sound]. *)
Lemma checked_sound {A : Type} (R : A -> A -> Prop) (status : A -> t)
    (items items' : list A) (old : t) :
  (forall x x', R x x' -> advanced (status x) (status x')) ->
  Forall2 R items items' ->
  sound status items old = true ->
  sound status items' (checked status items' old) = true.
Proof.
  intros HR H Hs. unfold sound, checked in *.
  destruct (all_completed status items') eqn:E'.
  - destruct (eqb COMPLETED COMPLETED); reflexivity.
  - destruct (eqb old COMPLETED); [| reflexivity].
    cbn in Hs. rewrite (all_completed_advanced R status items items' HR H Hs) in E'.
    discriminate E'.
Qed.

Lemma in_week_ok (task_id : string) (week week' : Week.t) :
  in_week task_id week = Some week' -> week_ok week = true -> week_ok week' = true.
Proof.
  unfold in_week.
  destruct (update_first (complete_task task_id) (Week.tasks week)) as [tasks |] eqn:E;
    [| discriminate].
  cbn [Err.bind]. intros H. injection H as <-.
  unfold week_ok. cbn [Week.status Week.tasks]. unfold checked.
  intros Hok. apply Bool.eqb_prop in Hok.
  destruct (all_completed WeeklyTask.status tasks) eqn:E'; [reflexivity |].
  rewrite Hok.
  destruct (all_completed WeeklyTask.status (Week.tasks week)) eqn:E0; [| reflexivity].
  assert (Hadv : Forall2 task_after (Week.tasks week) tasks).
  { eapply update_first_Forall2; [apply task_after_refl | apply complete_task_after | exact E]. }
  rewrite (all_completed_advanced task_after WeeklyTask.status _ _ (fun x x' H => H) Hadv E0)
    in E'.
  discriminate E'.
Qed.

Lemma in_month_ok (task_id : string) (month month' : Month.t) :
  in_month task_id month = Some month' -> month_ok month = true -> month_ok month' = true.
Proof.
  unfold in_month.
  destruct (update_first (in_week task_id) (Month.weeks month)) as [weeks |] eqn:E;
    [| discriminate].
  cbn [Err.bind]. intros H. injection H as <-.
  unfold month_ok. cbn [Month.status Month.weeks].
  intros Hok. apply andb_prop in Hok. destruct Hok as [Hs Hparts].
  apply andb_true_intro. split.
  - eapply checked_sound; [apply week_after_status | | exact Hs].
    eapply update_first_Forall2; [apply week_after_refl | apply in_week_after | exact E].
  - eapply update_first_forallb; [apply in_week_ok | exact E | exact Hparts].
Qed.

Lemma in_quarter_ok (task_id : string) (quarter quarter' : Quarter.t) :
  in_quarter task_id quarter = Some quarter' ->
  quarter_ok quarter = true -> quarter_ok quarter' = true.
Proof.
  unfold in_quarter.
  destruct (update_first (in_month task_id) (Quarter.months quarter)) as [months |] eqn:E;
    [| discriminate].
  cbn [Err.bind]. intros H. injection H as <-.
  unfold quarter_ok. cbn [Quarter.status Quarter.months].
  intros Hok. apply andb_prop in Hok. destruct Hok as [Hs Hparts].
  apply andb_true_intro. split.
  - eapply checked_sound; [apply month_after_status | | exact Hs].
    eapply update_first_Forall2; [apply month_after_refl | apply in_month_after | exact E].
  - eapply update_first_forallb; [apply in_month_ok | exact E | exact Hparts].
Qed.

Lemma in_year_ok (task_id : string) (year year' : Year.t) :
  in_year task_id year = Some year' -> year_ok year = true -> year_ok year' = true.
Proof.
  unfold in_year.
  destruct (update_first (in_quarter task_id) (Year.quarters year)) as [quarters |] eqn:E;
    [| discriminate].
  cbn [Err.bind]. intros H. injection H as <-.
  unfold year_ok. cbn [Year.status Year.quarters].
  intros Hok. apply andb_prop in Hok. destruct Hok as [Hs Hparts].
  apply andb_true_intro. split.
  - eapply checked_sound; [apply quarter_after_status | | exact Hs].
    eapply update_first_Forall2; [apply quarter_after_refl | apply in_quarter_after | exact E].
  - eapply update_first_forallb; [apply in_quarter_ok | exact E | exact Hparts].
Qed.

Lemma mark_task_complete_consistent (roadmap : Roadmap.t) (task_id : string) :
  consistent roadmap = true ->
  consistent (snd (mark_task_complete roadmap task_id)) = true.
Proof.
  unfold mark_task_complete, consistent.
  destruct (update_first (in_year task_id) (Roadmap.years roadmap)) as [years |] eqn:E; cbn;
    [| auto].
  eapply update_first_forallb; [apply in_year_ok | exact E].
Qed.

(** X21: a roadmap in which every week is COMPLETED exactly when all its
    tasks are, and every COMPLETED month, quarter and year has all its
    parts COMPLETED, is still such a roadmap after any sequence of calls of
    [mark_task_complete], whatever the ids. *)
Theorem mark_tasks_complete_consistent (roadmap : Roadmap.t) (task_ids : list string) :
  consistent roadmap = true ->
  consistent (mark_tasks_complete roadmap task_ids) = true.
Proof.
  unfold mark_tasks_complete. revert roadmap.
  induction task_ids as [| task_id task_ids IH]; intros roadmap Hok; cbn [fold_left].
  - exact Hok.
  - apply IH. apply mark_task_complete_consistent. exact Hok.
Qed.
End Consistency.

(** X21 on the sample roadmap: the task to do of the first week, an id
    that no task has, and the task of the second week. *)
Lemma mark_tasks_complete_consistent_witness :
  RoadmapState.consistent (RoadmapTasks.mark_tasks_complete Cases.roadmap ["b"; "zz"; "c"])
  = true.
Proof.
  apply (mark_tasks_complete_consistent Cases.roadmap ["b"; "zz"; "c"]).
  vm_compute. reflexivity.
Defined.

(** ** Roadmap: the current focus *)

Section CurrentFocus.
Import MilestoneStatus RoadmapTasks RoadmapState.

Local Abbreviation place := ((string * string * string) * Week.t)%type.
Local Abbreviation to_do := (fun p : place => has_pending (snd p)).

Lemma find_over_app {A : Type} (p : A -> bool) (l1 l2 : list A) :
  find p (l1 ++ l2) = match find p l1 with Some x => Some x | None => find p l2 end.
Proof.
  induction l1 as [| x l1 IH]; cbn; [reflexivity |].
  destruct (p x); [reflexivity | exact IH].
Qed.

Lemma not_all_completed (tasks : list WeeklyTask.t) :
  negb (all_completed WeeklyTask.status tasks)
  = existsb (fun task => pending (WeeklyTask.status task)) tasks.
Proof.
  unfold all_completed, pending.
  induction tasks as [| task tasks IH]; cbn; [reflexivity |].
  rewrite Bool.negb_andb, IH. reflexivity.
Qed.

Lemma week_pending (week : Week.t) :
  week_ok week = true -> pending (Week.status week) = has_pending week.
Proof.
  unfold week_ok, pending, has_pending. intros Hok.
  apply Bool.eqb_prop in Hok. rewrite Hok. apply not_all_completed.
Qed.

Lemma all_completed_In {A : Type} (status : A -> t) (items : list A) (x : A) :
  all_completed status items = true -> In x items -> pending (status x) = false.
Proof.
  unfold all_completed, pending. intros Hall Hx.
  rewrite forallb_forall in Hall. rewrite (Hall x Hx). reflexivity.
Qed.

Lemma sound_completed {A : Type} (status : A -> t) (items : list A) (st : t) :
  sound status items st = true -> pending st = false ->
  all_completed status items = true.
Proof.
  unfold sound, pending. intros Hs Hp.
  destruct (eqb st COMPLETED); [exact Hs | discriminate Hp].
Qed.

Lemma first_return_places {A : Type} (body : A -> option focus) (g : A -> list place)
    (l : list A) :
  (forall x, In x l -> body x = option_map focus_on (find to_do (g x))) ->
  first_return body l = option_map focus_on (find to_do (flat_map g l)).
Proof.
  induction l as [| x l IH]; intros Hb; cbn [first_return flat_map]; [reflexivity |].
  rewrite find_over_app, (Hb x (or_introl eq_refl)).
  destruct (find to_do (g x)); cbn [option_map]; [reflexivity |].
  apply IH. intros y Hy. apply Hb. right. exact Hy.
Qed.

Lemma quiet_places {A : Type} (g : A -> list place) (l : list A) :
  (forall x, In x l -> find to_do (g x) = None) ->
  find to_do (flat_map g l) = None.
Proof.
  induction l as [| x l IH]; intros Hq; cbn [flat_map]; [reflexivity |].
  rewrite find_over_app, (Hq x (or_introl eq_refl)).
  apply IH. intros y Hy. apply Hq. right. exact Hy.
Qed.

Lemma located_in_month_flat (year quarter : string) (month : Month.t) :
  located_in_month year quarter month
  = flat_map (fun week => [((year, quarter, Month.name month), week)]) (Month.weeks month).
Proof.
  unfold located_in_month. induction (Month.weeks month) as [| w ws IH]; cbn; [reflexivity |].
  rewrite IH. reflexivity.
Qed.

Lemma focus_of_week_place (year quarter month : string) (week : Week.t) :
  week_ok week = true ->
  focus_of_week year quarter month week
  = option_map focus_on (find to_do [((year, quarter, month), week)]).
Proof.
  intros Hok. unfold focus_of_week. rewrite (week_pending _ Hok). cbn [find snd].
  destruct (has_pending week); reflexivity.
Qed.

Lemma focus_of_month_places (year quarter : string) (month : Month.t) :
  month_ok month = true ->
  focus_of_month year quarter month
  = option_map focus_on (find to_do (located_in_month year quarter month)).
Proof.
  unfold month_ok. intros Hok. apply andb_prop in Hok. destruct Hok as [Hs Hparts].
  rewrite forallb_forall in Hparts.
  rewrite located_in_month_flat. unfold focus_of_month.
  destruct (pending (Month.status month)) eqn:Ep.
  - apply first_return_places. intros w Hw. apply focus_of_week_place. auto.
  - rewrite quiet_places; [reflexivity |].
    intros w Hw. cbn [find snd].
    rewrite <- (week_pending _ (Hparts w Hw)).
    rewrite (all_completed_In Week.status _ w (sound_completed _ _ _ Hs Ep) Hw).
    reflexivity.
Qed.

Lemma focus_of_quarter_places (year : string) (quarter : Quarter.t) :
  quarter_ok quarter = true ->
  focus_of_quarter year quarter
  = option_map focus_on (find to_do (located_in_quarter year quarter)).
Proof.
  unfold quarter_ok. intros Hok. apply andb_prop in Hok. destruct Hok as [Hs Hparts].
  rewrite forallb_forall in Hparts.
  unfold focus_of_quarter, located_in_quarter.
  destruct (pending (Quarter.status quarter)) eqn:Ep.
  - apply first_return_places. intros m Hm. apply focus_of_month_places. auto.
  - rewrite quiet_places; [reflexivity |].
    intros m Hm.
    pose proof (focus_of_month_places year (Quarter.name quarter) m (Hparts m Hm)) as Hf.
    unfold focus_of_month in Hf.
    rewrite (all_completed_In Month.status _ m (sound_completed _ _ _ Hs Ep) Hm) in Hf.
    destruct (find to_do (located_in_month year (Quarter.name quarter) m));
      [discriminate Hf | reflexivity].
Qed.

Lemma focus_of_year_places (year : Year.t) :
  year_ok year = true ->
  focus_of_year year = option_map focus_on (find to_do (located_in_year year)).
Proof.
  unfold year_ok. intros Hok. apply andb_prop in Hok. destruct Hok as [Hs Hparts].
  rewrite forallb_forall in Hparts.
  unfold focus_of_year, located_in_year.
  destruct (pending (Year.status year)) eqn:Ep.
  - apply first_return_places. intros q Hq. apply focus_of_quarter_places. auto.
  - rewrite quiet_places; [reflexivity |].
    intros q Hq.
    pose proof (focus_of_quarter_places (Year.name year) q (Hparts q Hq)) as Hf.
    unfold focus_of_quarter in Hf.
    rewrite (all_completed_In Quarter.status _ q (sound_completed _ _ _ Hs Ep) Hq) in Hf.
    destruct (find to_do (located_in_quarter (Year.name year) q));
      [discriminate Hf | reflexivity].
Qed.

Lemma current_focus_places (roadmap : Roadmap.t) :
  consistent roadmap = true ->
  first_return focus_of_year (Roadmap.years roadmap)
  = option_map focus_on (find to_do (located roadmap)).
Proof.
  unfold consistent. intros Hok. rewrite forallb_forall in Hok.
  apply first_return_places. intros y Hy. apply focus_of_year_places. auto.
Qed.

(** X22: on a consistent roadmap [get_current_focus] names the first week,
    in the order of years, quarters, months and weeks, that has a task not
    COMPLETED, with the names of its year, quarter and month and of its
    tasks to do; it reports a finished roadmap exactly when no week has a
    task to do. *)
Theorem get_current_focus_first_pending (roadmap : Roadmap.t) :
  consistent roadmap = true ->
  get_current_focus roadmap = first_pending_week roadmap.
Proof.
  intros Hok. unfold get_current_focus, first_pending_week.
  rewrite (current_focus_places roadmap Hok).
  destruct (find to_do (located roadmap)); reflexivity.
Qed.

(** A roadmap without a task to do has no week to name. *)
Lemma located_tasks (roadmap : Roadmap.t) (p : place) :
  In p (located roadmap) -> incl (Week.tasks (snd p)) (all_tasks roadmap).
Proof.
  unfold located, located_in_year, located_in_quarter, located_in_month.
  unfold all_tasks, tasks_of_year, tasks_of_quarter, tasks_of_month.
  intros Hp task Htask.
  apply in_flat_map in Hp. destruct Hp as (y & Hy & Hp).
  apply in_flat_map in Hp. destruct Hp as (q & Hq & Hp).
  apply in_flat_map in Hp. destruct Hp as (m & Hm & Hp).
  apply in_map_iff in Hp. destruct Hp as (w & <- & Hw). cbn [snd] in Htask.
  apply in_flat_map. exists y. split; [exact Hy |].
  apply in_flat_map. exists q. split; [exact Hq |].
  apply in_flat_map. exists m. split; [exact Hm |].
  apply in_flat_map. exists w. split; [exact Hw | exact Htask].
Qed.

Lemma nothing_to_do_finished (roadmap : Roadmap.t) :
  consistent roadmap = true ->
  pending_tasks (all_tasks roadmap) = [] ->
  get_current_focus roadmap = Finished.
Proof.
  intros Hok Hnone. unfold get_current_focus.
  rewrite (current_focus_places roadmap Hok).
  assert (Hquiet : find to_do (located roadmap) = None).
  { destruct (find to_do (located roadmap)) as [p |] eqn:E; [| reflexivity].
    apply find_some in E. destruct E as [Hp Htodo].
    unfold has_pending in Htodo. apply existsb_exists in Htodo.
    destruct Htodo as (task & Htask & Hpending).
    assert (Hin : In task (pending_tasks (all_tasks roadmap))).
    { unfold pending_tasks. apply filter_In. split; [| exact Hpending].
      exact (located_tasks roadmap p Hp task Htask). }
    rewrite Hnone in Hin. destruct Hin. }
  rewrite Hquiet. reflexivity.
Qed.
End CurrentFocus.

(** X22 on the sample roadmap: the focus is the first week, with its one
    task to do. *)
Lemma get_current_focus_first_pending_witness :
  RoadmapTasks.get_current_focus Cases.roadmap = RoadmapState.first_pending_week Cases.roadmap
  /\ RoadmapTasks.get_current_focus Cases.roadmap
     = RoadmapTasks.Focus "Year 1" "Q1" "Month 1" "Week 1" ["Code"].
Proof.
  split.
  - apply (get_current_focus_first_pending Cases.roadmap). vm_compute. reflexivity.
  - vm_compute. reflexivity.
Defined.

(** ** Roadmap: the upcoming tasks *)

Section Upcoming.
Import MilestoneStatus RoadmapTasks RoadmapState.

Lemma upcoming_of_week_result (week : Week.t) (upcoming : list string) :
  loop_result upcoming (entries_of_week week) (upcoming_of_week week upcoming).
Proof.
  unfold upcoming_of_week.
  destruct (Nat.leb_spec 5 (List.length (upcoming ++ entries_of_week week))) as [H | H]; cbn.
  - exists []. rewrite app_nil_r. auto.
  - reflexivity.
Qed.

Lemma upcoming_loop_result {A : Type}
    (body : A -> list string -> list string + list string) (entries : A -> list string)
    (l : list A) :
  (forall x upcoming, loop_result upcoming (entries x) (body x upcoming)) ->
  forall upcoming, loop_result upcoming (flat_map entries l) (upcoming_loop body l upcoming).
Proof.
  intros Hb. induction l as [| x l IH]; intros upcoming; cbn [upcoming_loop flat_map].
  - cbn. rewrite app_nil_r. reflexivity.
  - pose proof (Hb x upcoming) as Hx.
    destruct (body x upcoming) as [returned | upcoming']; cbn in Hx.
    + destruct Hx as (rest & Hrest & Hlen). cbn.
      exists (rest ++ flat_map entries l)%list.
      rewrite (app_assoc upcoming), Hrest, <- app_assoc. auto.
    + subst upcoming'. pose proof (IH (upcoming ++ entries x)%list) as Hl.
      unfold loop_result in *.
      destruct (upcoming_loop body l (upcoming ++ entries x)) as [returned | upcoming'].
      * destruct Hl as (rest & Hrest & Hlen). exists rest.
        rewrite app_assoc. auto.
      * rewrite app_assoc. exact Hl.
Qed.

Lemma flat_map_flat_map {A B C : Type} (f : A -> list B) (g : B -> list C) (l : list A) :
  flat_map g (flat_map f l) = flat_map (fun x => flat_map g (f x)) l.
Proof.
  induction l as [| x l IH]; cbn; [reflexivity |].
  rewrite flat_map_app, IH. reflexivity.
Qed.

(** X23: [get_upcoming_tasks] returns the entries of the tasks not
    COMPLETED from the start of the roadmap, in its order: all of them, or
    five or more of them followed in the roadmap by the rest.  So fewer than
    five entries are returned only when there are no others. *)
Theorem get_upcoming_tasks_prefix (roadmap : Roadmap.t) (days_ahead : Z) :
  exists rest,
    pending_entries roadmap = (get_upcoming_tasks roadmap days_ahead ++ rest)%list
    /\ (rest = [] \/ (5 <= List.length (get_upcoming_tasks roadmap days_ahead))%nat).
Proof.
  assert (Hloop : loop_result []
            (flat_map (fun y => flat_map (fun q => flat_map (fun m =>
               flat_map entries_of_week (Month.weeks m)) (Quarter.months q)) (Year.quarters y))
               (Roadmap.years roadmap))
            (upcoming_loop upcoming_of_year (Roadmap.years roadmap) [])).
  { apply upcoming_loop_result. intros y. unfold upcoming_of_year.
    apply upcoming_loop_result. intros q. unfold upcoming_of_quarter.
    apply upcoming_loop_result. intros m. unfold upcoming_of_month.
    apply upcoming_loop_result. apply upcoming_of_week_result. }
  assert (Hall : pending_entries roadmap
                 = flat_map (fun y => flat_map (fun q => flat_map (fun m =>
                     flat_map entries_of_week (Month.weeks m)) (Quarter.months q))
                     (Year.quarters y)) (Roadmap.years roadmap)).
  { unfold pending_entries, all_weeks, all_months, all_quarters.
    rewrite !flat_map_flat_map. reflexivity. }
  rewrite Hall. unfold get_upcoming_tasks.
  destruct (upcoming_loop upcoming_of_year (Roadmap.years roadmap) []) as [returned | upcoming];
    cbn in Hloop.
  - destruct Hloop as (rest & Hrest & Hlen). exists rest. auto.
  - exists []. rewrite app_nil_r. auto.
Qed.
End Upcoming.

(** ** Roadmap: parts that cannot be completed *)

Section Blocked.
Import MilestoneStatus RoadmapTasks RoadmapState.

Lemma blocked_not_all_completed {A : Type} (blocked : A -> bool) (status : A -> t)
    (items : list A) :
  (forall x, blocked x = true -> pending (status x) = true) ->
  existsb blocked items = true -> all_completed status items = false.
Proof.
  intros Hb Hex. apply existsb_exists in Hex. destruct Hex as (x & Hx & Hbx).
  destruct (all_completed status items) eqn:E; [| reflexivity].
  specialize (Hb x Hbx).
  rewrite (all_completed_In status items x E Hx) in Hb. discriminate Hb.
Qed.

(** The parts of a blocked item after a call that has changed one of them:
    one of them is blocked still, and the check leaves the status. *)
Lemma update_first_blocked {A : Type} (blocked : A -> bool) (status : A -> t)
    (f : A -> option A) (l l' : list A) (old : t) :
  (forall x, blocked x = true -> pending (status x) = true) ->
  (forall x x', f x = Some x' -> blocked x = true -> blocked x' = true) ->
  update_first f l = Some l' ->
  pending old && (no_items l || existsb blocked l) = true ->
  pending (checked status l' old) && (no_items l' || existsb blocked l') = true.
Proof.
  intros Hb Hf H Hold. apply update_first_some in H.
  destruct H as (pre & x & x' & post & -> & -> & Hx & _).
  apply andb_prop in Hold. destruct Hold as [Hp Hex].
  assert (Hno : no_items (pre ++ x :: post) = false) by (destruct pre; reflexivity).
  rewrite Hno in Hex. cbn [orb] in Hex.
  assert (Hex' : existsb blocked (pre ++ x' :: post) = true).
  { rewrite existsb_app in *. cbn [existsb] in *.
    apply Bool.orb_true_iff in Hex. destruct Hex as [-> | Hex]; [reflexivity |].
    apply Bool.orb_true_iff in Hex. destruct Hex as [Hbx | ->].
    - rewrite (Hf _ _ Hx Hbx). apply Bool.orb_true_r.
    - rewrite !Bool.orb_true_r. reflexivity. }
  rewrite Hex', Bool.orb_true_r, Bool.andb_true_r.
  unfold checked. rewrite (blocked_not_all_completed blocked status _ Hb Hex'). exact Hp.
Qed.

Lemma week_blocked_pending (week : Week.t) :
  week_blocked week = true -> pending (Week.status week) = true.
Proof. unfold week_blocked. intros H. apply andb_prop in H. tauto. Qed.

Lemma month_blocked_pending (month : Month.t) :
  month_blocked month = true -> pending (Month.status month) = true.
Proof. unfold month_blocked. intros H. apply andb_prop in H. tauto. Qed.

Lemma quarter_blocked_pending (quarter : Quarter.t) :
  quarter_blocked quarter = true -> pending (Quarter.status quarter) = true.
Proof. unfold quarter_blocked. intros H. apply andb_prop in H. tauto. Qed.

Lemma year_blocked_pending (year : Year.t) :
  year_blocked year = true -> pending (Year.status year) = true.
Proof. unfold year_blocked. intros H. apply andb_prop in H. tauto. Qed.

(** A week in which a task is found has tasks: it was not blocked. *)
Lemma in_week_blocked (task_id : string) (week week' : Week.t) :
  in_week task_id week = Some week' -> week_blocked week = true -> week_blocked week' = true.
Proof.
  unfold in_week, week_blocked.
  destruct (Week.tasks week) as [| task tasks]; [discriminate |].
  intros _ H. rewrite Bool.andb_false_r in H. discriminate H.
Qed.

Lemma in_month_blocked (task_id : string) (month month' : Month.t) :
  in_month task_id month = Some month' ->
  month_blocked month = true -> month_blocked month' = true.
Proof.
  unfold in_month.
  destruct (update_first (in_week task_id) (Month.weeks month)) as [weeks |] eqn:E;
    [| discriminate].
  cbn [Err.bind]. intros H. injection H as <-.
  unfold month_blocked. cbn [Month.status Month.weeks].
  apply (update_first_blocked week_blocked Week.status (in_week task_id));
    [apply week_blocked_pending | apply in_week_blocked | exact E].
Qed.

Lemma in_quarter_blocked (task_id : string) (quarter quarter' : Quarter.t) :
  in_quarter task_id quarter = Some quarter' ->
  quarter_blocked quarter = true -> quarter_blocked quarter' = true.
Proof.
  unfold in_quarter.
  destruct (update_first (in_month task_id) (Quarter.months quarter)) as [months |] eqn:E;
    [| discriminate].
  cbn [Err.bind]. intros H. injection H as <-.
  unfold quarter_blocked. cbn [Quarter.status Quarter.months].
  apply (update_first_blocked month_blocked Month.status (in_month task_id));
    [apply month_blocked_pending | apply in_month_blocked | exact E].
Qed.

Lemma in_year_blocked (task_id : string) (year year' : Year.t) :
  in_year task_id year = Some year' ->
  year_blocked year = true -> year_blocked year' = true.
Proof.
  unfold in_year.
  destruct (update_first (in_quarter task_id) (Year.quarters year)) as [quarters |] eqn:E;
    [| discriminate].
  cbn [Err.bind]. intros H. injection H as <-.
  unfold year_blocked. cbn [Year.status Year.quarters].
  apply (update_first_blocked quarter_blocked Quarter.status (in_quarter task_id));
    [apply quarter_blocked_pending | apply in_quarter_blocked | exact E].
Qed.

Lemma mark_task_complete_blocked (roadmap : Roadmap.t) (task_id : string) :
  forallb year_blocked (Roadmap.years roadmap) = true ->
  forallb year_blocked (Roadmap.years (snd (mark_task_complete roadmap task_id))) = true.
Proof.
  unfold mark_task_complete.
  destruct (update_first (in_year task_id) (Roadmap.years roadmap)) as [years |] eqn:E; cbn;
    [| auto].
  eapply update_first_forallb; [apply in_year_blocked | exact E].
Qed.

Lemma mark_tasks_complete_blocked (roadmap : Roadmap.t) (task_ids : list string) :
  forallb year_blocked (Roadmap.years roadmap) = true ->
  forallb year_blocked (Roadmap.years (mark_tasks_complete roadmap task_ids)) = true.
Proof.
  unfold mark_tasks_complete. revert roadmap.
  induction task_ids as [| task_id task_ids IH]; intros roadmap Hb; cbn [fold_left].
  - exact Hb.
  - apply IH. apply mark_task_complete_blocked. exact Hb.
Qed.

(** X24: a year that is not COMPLETED and has a part that cannot be
    completed (a quarter without months, a month without weeks, a week
    without tasks, not COMPLETED itself) never becomes COMPLETED: when all
    the years of a roadmap are such years, no sequence of calls of
    [mark_task_complete] makes one of them COMPLETED. *)
Theorem blocked_years_never_complete (roadmap : Roadmap.t) (task_ids : list string) :
  forallb year_blocked (Roadmap.years roadmap) = true ->
  Forall (fun year => Year.status year <> COMPLETED /\ year_blocked year = true)
    (Roadmap.years (mark_tasks_complete roadmap task_ids)).
Proof.
  intros Hb. apply (mark_tasks_complete_blocked roadmap task_ids) in Hb.
  rewrite forallb_forall in Hb. apply Forall_forall. intros y Hy.
  split; [| auto].
  pose proof (year_blocked_pending y (Hb y Hy)) as Hp. unfold pending in Hp.
  intros E. rewrite E in Hp. discriminate Hp.
Qed.
End Blocked.

(** ** Roadmap: marking every task *)

Section Finishing.
Import MilestoneStatus RoadmapTasks RoadmapState.

Local Abbreviation ids_of := (map WeeklyTask.task_id).

Lemma mark_tasks_complete_keeps (P : Roadmap.t -> Prop) (roadmap : Roadmap.t)
    (task_ids : list string) :
  (forall r task_id, P r -> P (snd (mark_task_complete r task_id))) ->
  P roadmap -> P (mark_tasks_complete roadmap task_ids).
Proof.
  intros Hstep. unfold mark_tasks_complete. revert roadmap.
  induction task_ids as [| task_id task_ids IH]; intros roadmap HP; cbn [fold_left]; auto.
Qed.

Lemma pending_done (task : WeeklyTask.t) : pending (WeeklyTask.status (done task)) = false.
Proof. reflexivity. Qed.

(** One call: the ids of the tasks stay, and a task still to do was to do
    before and has another id than the one marked. *)
Lemma mark_task_complete_to_do (roadmap : Roadmap.t) (task_id : string) :
  NoDup (ids_of (all_tasks roadmap)) ->
  ids_of (all_tasks (snd (mark_task_complete roadmap task_id))) = ids_of (all_tasks roadmap)
  /\ forall x,
       In x (ids_of (pending_tasks (all_tasks (snd (mark_task_complete roadmap task_id))))) ->
       In x (ids_of (pending_tasks (all_tasks roadmap))) /\ x <> task_id.
Proof.
  intros Hnd.
  pose proof (update_first_tasks task_id (in_year task_id) tasks_of_year
                (Roadmap.years roadmap) (in_year_tasks task_id)) as H.
  unfold mark_task_complete.
  destruct (update_first (in_year task_id) (Roadmap.years roadmap)) as [years |]; cbn [snd].
  - destruct H as (pre & task & post & Hb & Ha & Hp & Hid).
    change (flat_map tasks_of_year (Roadmap.years roadmap)) with (all_tasks roadmap) in Hb.
    change (all_tasks (Roadmap.mk years (Roadmap.created_at roadmap)
                         (Roadmap.last_updated roadmap)))
      with (flat_map tasks_of_year years).
    rewrite Ha, Hb in *. split.
    + rewrite !map_app. reflexivity.
    + intros x Hx. unfold pending_tasks in *.
      rewrite filter_app in Hx. cbn [filter] in Hx. rewrite pending_done in Hx.
      rewrite <- filter_app in Hx.
      apply in_map_iff in Hx. destruct Hx as (t0 & <- & Ht0).
      apply filter_In in Ht0. destruct Ht0 as [Hin Hpend].
      split.
      * apply in_map. apply filter_In. split; [| exact Hpend].
        apply in_app_iff in Hin. apply in_app_iff.
        destruct Hin as [Hin | Hin]; [left | right; right]; exact Hin.
      * rewrite map_app in Hnd. cbn [map] in Hnd. rewrite Hid in Hnd.
        apply NoDup_remove_2 in Hnd. intros E. apply Hnd.
        rewrite <- E, <- map_app. apply in_map. exact Hin.
  - split; [reflexivity |]. intros x Hx. split; [exact Hx |].
    apply in_map_iff in Hx. destruct Hx as (t0 & <- & Ht0).
    apply filter_In in Ht0. destruct Ht0 as [Hin _].
    unfold absent in H. rewrite Forall_forall in H. exact (H t0 Hin).
Qed.

Lemma mark_tasks_complete_to_do (roadmap : Roadmap.t) (task_ids : list string) :
  NoDup (ids_of (all_tasks roadmap)) ->
  forall x,
    In x (ids_of (pending_tasks (all_tasks (mark_tasks_complete roadmap task_ids)))) ->
    In x (ids_of (pending_tasks (all_tasks roadmap))) /\ ~ In x task_ids.
Proof.
  unfold mark_tasks_complete. revert roadmap.
  induction task_ids as [| task_id task_ids IH]; intros roadmap Hnd x Hx; cbn [fold_left] in Hx.
  - split; [exact Hx | intros []].
  - destruct (mark_task_complete_to_do roadmap task_id Hnd) as [Hids Hstep].
    apply IH in Hx; [| rewrite Hids; exact Hnd].
    destruct Hx as [Hx Hnot]. apply Hstep in Hx. destruct Hx as [Hx Hne].
    split; [exact Hx |]. intros [E | Hin]; [congruence | exact (Hnot Hin)].
Qed.

Lemma all_marked_nothing_to_do (roadmap : Roadmap.t) (task_ids : list string) :
  NoDup (ids_of (all_tasks roadmap)) ->
  incl (ids_of (all_tasks roadmap)) task_ids ->
  pending_tasks (all_tasks (mark_tasks_complete roadmap task_ids)) = [].
Proof.
  intros Hnd Hincl.
  destruct (pending_tasks (all_tasks (mark_tasks_complete roadmap task_ids)))
    as [| task rest] eqn:E; [reflexivity |].
  destruct (mark_tasks_complete_to_do roadmap task_ids Hnd (WeeklyTask.task_id task))
    as [Hin Hnot].
  - rewrite E. left. reflexivity.
  - exfalso. apply Hnot, Hincl.
    apply in_map_iff in Hin. destruct Hin as (t0 & Hid & Ht0).
    apply filter_In in Ht0. destruct Ht0 as [Ht0 _].
    rewrite <- Hid. apply in_map. exact Ht0.
Qed.

Lemma all_marked_finished (roadmap : Roadmap.t) (task_ids : list string) :
  consistent roadmap = true ->
  NoDup (ids_of (all_tasks roadmap)) ->
  incl (ids_of (all_tasks roadmap)) task_ids ->
  get_current_focus (mark_tasks_complete roadmap task_ids) = Finished.
Proof.
  intros Hok Hnd Hincl. apply nothing_to_do_finished.
  - apply (mark_tasks_complete_keeps (fun r => consistent r = true)); [| exact Hok].
    intros r task_id. apply mark_task_complete_consistent.
  - apply all_marked_nothing_to_do; assumption.
Qed.

(** X25: on a consistent roadmap whose tasks have distinct ids, once
    [mark_task_complete] has been called with the id of every task, in any
    order and with any other calls in between, no task is left to do and
    [get_current_focus] reports the finished roadmap. *)
Theorem all_tasks_marked_finished (roadmap : Roadmap.t) (task_ids : list string) :
  consistent roadmap = true ->
  NoDup (map WeeklyTask.task_id (all_tasks roadmap)) ->
  incl (map WeeklyTask.task_id (all_tasks roadmap)) task_ids ->
  pending_tasks (all_tasks (mark_tasks_complete roadmap task_ids)) = []
  /\ get_current_focus (mark_tasks_complete roadmap task_ids) = Finished.
Proof.
  intros Hok Hnd Hincl. split.
  - apply all_marked_nothing_to_do; assumption.
  - apply all_marked_finished; assumption.
Qed.

Lemma default_roadmap_ids (created updated : string) :
  NoDup (ids_of (all_tasks (StorageFile._create_default_roadmap created updated))).
Proof.
  assert (E : nodup string_dec
                (ids_of (all_tasks (StorageFile._create_default_roadmap created updated)))
              = ids_of (all_tasks (StorageFile._create_default_roadmap created updated)))
    by (vm_compute; reflexivity).
  rewrite <- E. apply NoDup_nodup.
Qed.

(** X26: the roadmap of a first start, the one [load_state] returns when
    there is no state file.  Whatever tasks are marked afterwards, its
    statuses stay consistent and neither of its two years becomes
    COMPLETED, for each has quarters without months; and once all its
    tasks are marked, [get_current_focus] reports the finished roadmap all
    the same. *)
Theorem fresh_roadmap_progress (clock : nat -> string) (now : string)
    (task_ids : list string) :
  consistent
    (mark_tasks_complete (AppState.roadmap (StorageFile.load_state clock now StorageFile.Absent))
       task_ids) = true
  /\ Forall (fun year => Year.status year <> COMPLETED)
       (Roadmap.years
          (mark_tasks_complete
             (AppState.roadmap (StorageFile.load_state clock now StorageFile.Absent)) task_ids))
  /\ (incl
        (map WeeklyTask.task_id
           (all_tasks (AppState.roadmap (StorageFile.load_state clock now StorageFile.Absent))))
        task_ids ->
      get_current_focus
        (mark_tasks_complete
           (AppState.roadmap (StorageFile.load_state clock now StorageFile.Absent)) task_ids)
      = Finished).
Proof.
  cbn [StorageFile.load_state StorageFile._create_default_state AppState.roadmap].
  set (roadmap := StorageFile._create_default_roadmap (clock 0%nat) (clock 1%nat)).
  assert (Hok : consistent roadmap = true) by (vm_compute; reflexivity).
  assert (Hblocked : forallb year_blocked (Roadmap.years roadmap) = true)
    by (vm_compute; reflexivity).
  split; [| split].
  - apply (mark_tasks_complete_keeps (fun r => consistent r = true)); [| exact Hok].
    intros r task_id. apply mark_task_complete_consistent.
  - apply (mark_tasks_complete_blocked roadmap task_ids) in Hblocked.
    rewrite forallb_forall in Hblocked. apply Forall_forall. intros y Hy.
    pose proof (year_blocked_pending y (Hblocked y Hy)) as Hp. unfold pending in Hp.
    intros E. rewrite E in Hp. discriminate Hp.
  - intros Hincl. apply all_marked_finished; [exact Hok | | exact Hincl].
    apply default_roadmap_ids.
Qed.
End Finishing.

(** X24 on the default roadmap: after all its tasks are marked, its two
    years are not COMPLETED. *)
Lemma blocked_years_never_complete_witness :
  Forall (fun year => Year.status year <> MilestoneStatus.COMPLETED
                      /\ RoadmapState.year_blocked year = true)
    (Roadmap.years
       (RoadmapTasks.mark_tasks_complete
          (StorageFile._create_default_roadmap "2024-01-01T09:00:00" "2024-01-01T09:00:00")
          (map WeeklyTask.task_id
             (RoadmapTasks.all_tasks
                (StorageFile._create_default_roadmap "2024-01-01T09:00:00"
                   "2024-01-01T09:00:00"))))).
Proof.
  apply (blocked_years_never_complete
           (StorageFile._create_default_roadmap "2024-01-01T09:00:00" "2024-01-01T09:00:00")).
  vm_compute. reflexivity.
Defined.

(** X25 on the sample roadmap: its three tasks marked from the last to the
    first, with an id that no task has in between. *)
Lemma all_tasks_marked_finished_witness :
  RoadmapTasks.pending_tasks
    (RoadmapTasks.all_tasks
       (RoadmapTasks.mark_tasks_complete Cases.roadmap ["c"; "zz"; "b"; "a"])) = []
  /\ RoadmapTasks.get_current_focus
       (RoadmapTasks.mark_tasks_complete Cases.roadmap ["c"; "zz"; "b"; "a"])
     = RoadmapTasks.Finished.
Proof.
  apply (all_tasks_marked_finished Cases.roadmap ["c"; "zz"; "b"; "a"]).
  - vm_compute. reflexivity.
  - cbn. repeat (apply NoDup_cons; [cbn; intuition discriminate |]). apply NoDup_nil.
  - intros x Hx. cbn in Hx. cbn.
    destruct Hx as [<- | [<- | [<- | []]]]; auto 6.
Defined.

(** ** Persistence: the state file *)

Section StateFile.
Import StorageManager StorageFile.

(** X27: what [save_state] writes is what [load_state] reads: after a save
    that could open the file, whatever the file held before, [load_state]
    returns the state saved, field for field; and a save that could not
    open the file leaves the file as it was. *)
Theorem save_then_load (clock : nat -> string) (now : string) (state : AppState.t)
    (f : file) :
  load_state clock now (save_state state true f) = state
  /\ save_state state false f = f.
Proof.
  split; [| reflexivity].
  unfold save_state, load_state.
  assert (E : _deserialize_state now (_serialize_state state) = Some state).
  { destruct state. unfold _deserialize_state, get_items. cbn.
    rewrite roadmap_roundtrip. cbn.
    rewrite progress_roundtrip. cbn.
    rewrite (mapM_map _ _ _ (resource_roundtrip now)). cbn.
    rewrite (mapM_map _ _ _ (deck_roundtrip now)). cbn.
    rewrite (mapM_map _ _ _ (project_roundtrip now)). cbn.
    rewrite (mapM_map _ _ _ (tip_roundtrip now)). reflexivity. }
  rewrite E. reflexivity.
Qed.

Lemma mapM_unreadable {A B : Type} (f : A -> option B) (pre post : list A) (x : A) :
  f x = None -> Err.mapM f (pre ++ x :: post) = None.
Proof.
  intros Hx. induction pre as [| a pre IH]; cbn.
  - rewrite Hx. reflexivity.
  - destruct (f a); [rewrite IH |]; reflexivity.
Qed.

Lemma deserialize_resource_unreadable (now : string) (fields : list (string * Json.t))
    (s : string) :
  Json.assoc "resource_id" fields = None
  \/ (Json.assoc "status" fields = Some (Json.Str s) /\ ResourceStatus.of_value s = None) ->
  _deserialize_resource now (Json.Dict fields) = None.
Proof.
  intros [Hid | [Hst Hval]]; unfold _deserialize_resource.
  - unfold item_str at 1. cbn [Json.item]. rewrite Hid. reflexivity.
  - assert (Henum : get_enum ResourceStatus.of_value "status" "todo" (Json.Dict fields) = None).
    { unfold get_enum. cbn [Json.get]. rewrite Hst. cbn. exact Hval. }
    repeat match goal with
           | |- Err.bind (get_enum _ _ _ _) _ = None => rewrite Henum; reflexivity
           | |- Err.bind ?o _ = None => destruct o; cbn [Err.bind]; [| reflexivity]
           end.
Qed.

(** X28: one resource record that cannot be read costs the whole file.  When
    the list of resources of the document holds a record without its
    [resource_id], or with a status that is no value of ResourceStatus,
    [load_state] returns the default state, whatever else the document
    holds; the next save writes the default state over the document. *)
Theorem load_state_unreadable_resource (clock : nat -> string) (now : string)
    (d fields : list (string * Json.t)) (pre post : list Json.t) (s : string) :
  Json.assoc "resources" d = Some (Json.List (pre ++ Json.Dict fields :: post)) ->
  (Json.assoc "resource_id" fields = None
   \/ (Json.assoc "status" fields = Some (Json.Str s) /\ ResourceStatus.of_value s = None)) ->
  load_state clock now (Holds (Json.Dict d)) = _create_default_state clock
  /\ save_state (load_state clock now (Holds (Json.Dict d))) true (Holds (Json.Dict d))
     = Holds (_serialize_state (_create_default_state clock)).
Proof.
  intros Hres Hbad.
  assert (E : _deserialize_state now (Json.Dict d) = None).
  { unfold _deserialize_state.
    assert (Hitems : get_items (_deserialize_resource now) "resources" (Json.Dict d) = None).
    { unfold get_items. cbn [Json.get]. rewrite Hres. cbn [Err.bind Json.as_list].
      apply mapM_unreadable. apply (deserialize_resource_unreadable now fields s Hbad). }
    repeat match goal with
           | |- Err.bind (get_items (_deserialize_resource _) _ _) _ = None =>
               rewrite Hitems; reflexivity
           | |- Err.bind ?o _ = None => destruct o; cbn [Err.bind]; [| reflexivity]
           end. }
  assert (Hload : load_state clock now (Holds (Json.Dict d)) = _create_default_state clock).
  { unfold load_state. rewrite E. reflexivity. }
  split; [exact Hload |]. rewrite Hload. reflexivity.
Qed.
End StateFile.

(** X28 on a document whose only resource has the status [done]. *)
Lemma load_state_unreadable_resource_witness :
  StorageFile.load_state (fun _ => "2024-01-01T09:00:00") "2024-01-01T09:00:00"
    (StorageFile.Holds (Json.Dict Cases.document))
  = StorageFile._create_default_state (fun _ => "2024-01-01T09:00:00")
  /\ StorageFile.save_state
       (StorageFile.load_state (fun _ => "2024-01-01T09:00:00") "2024-01-01T09:00:00"
          (StorageFile.Holds (Json.Dict Cases.document)))
       true (StorageFile.Holds (Json.Dict Cases.document))
     = StorageFile.Holds
         (StorageManager._serialize_state
            (StorageFile._create_default_state (fun _ => "2024-01-01T09:00:00"))).
Proof.
  apply (load_state_unreadable_resource (fun _ => "2024-01-01T09:00:00") "2024-01-01T09:00:00"
           Cases.document Cases.resource_fields [] [] "done").
  - reflexivity.
  - right. split; reflexivity.
Defined.

(** ** A review session *)

Section ReviewSession.
Import FlashcardManager.
Variable isoformat : Z -> string.
Variable fromisoformat : string -> option Z.

Local Abbreviation card_ids := (map Flashcard.card_id).

Local Abbreviation one_reviewed := (Session.one_reviewed isoformat).

Lemma mark_in_cards_cases (cards : list Flashcard.t) (card_id result : string) (t1 t2 : Z) :
  match mark_in_cards isoformat cards card_id result t1 t2 with
  | None => Forall (fun c => Flashcard.card_id c <> card_id) cards
  | Some cards' => one_reviewed card_id result t1 t2 cards cards'
  end.
Proof.
  induction cards as [| c cards IH]; cbn [mark_in_cards]; [constructor |].
  destruct (String.eqb_spec (Flashcard.card_id c) card_id) as [E | E].
  - exists [], c, cards. repeat split; auto.
  - destruct (mark_in_cards isoformat cards card_id result t1 t2) as [cards' |].
    + destruct IH as (pre & card & post & -> & -> & Hpre & Hid).
      exists (c :: pre), card, post. repeat split; auto.
    + constructor; assumption.
Qed.

Lemma mark_in_decks_cases (decks : list FlashcardDeck.t) (card_id result : string)
    (t1 t2 : Z) :
  match mark_in_decks isoformat decks card_id result t1 t2 with
  | None => Forall (fun c => Flashcard.card_id c <> card_id) (all_cards decks)
  | Some decks' =>
      one_reviewed card_id result t1 t2 (all_cards decks) (all_cards decks')
      /\ Session.reviews decks' = Session.reviews decks + 1
  end.
Proof.
  unfold all_cards.
  induction decks as [| d decks IH]; cbn [mark_in_decks flat_map]; [constructor |].
  pose proof (mark_in_cards_cases (FlashcardDeck.cards d) card_id result t1 t2) as Hd.
  destruct (mark_in_cards isoformat (FlashcardDeck.cards d) card_id result t1 t2)
    as [cards' |].
  - cbn [flat_map FlashcardDeck.cards Session.reviews FlashcardDeck.total_reviews].
    split; [| lia].
    destruct Hd as (pre & card & post & -> & -> & Hpre & Hid).
    exists pre, card, (post ++ flat_map FlashcardDeck.cards decks)%list.
    rewrite <- !app_assoc. repeat split; auto.
  - destruct (mark_in_decks isoformat decks card_id result t1 t2) as [decks' |].
    + cbn [flat_map Session.reviews]. destruct IH as [IH Hsum]. split; [| lia].
      destruct IH as (pre & card & post & -> & -> & Hpre & Hid).
      exists (FlashcardDeck.cards d ++ pre)%list, card, post.
      rewrite <- !app_assoc. repeat split; auto.
      apply Forall_app. split; assumption.
    + apply Forall_app. split; assumption.
Qed.

Lemma map_unmatched (card_id result : string) (t1 t2 : Z) (cards : list Flashcard.t) :
  Forall (fun c => Flashcard.card_id c <> card_id) cards ->
  map (fun c => if (Flashcard.card_id c =? card_id)%string
                then review_card isoformat c result t1 t2 else c) cards
  = cards.
Proof.
  intros H. induction H as [| c cards Hc _ IH]; cbn [map]; [reflexivity |].
  rewrite IH. destruct (String.eqb_spec (Flashcard.card_id c) card_id); [contradiction |].
  reflexivity.
Qed.

(** One call on decks whose cards have distinct ids. *)
Lemma mark_card_review_cards (decks : list FlashcardDeck.t) (card_id result : string)
    (t1 t2 : Z) :
  NoDup (card_ids (all_cards decks)) ->
  all_cards (snd (mark_card_review isoformat decks card_id result t1 t2))
  = map (fun c => if (Flashcard.card_id c =? card_id)%string
                  then review_card isoformat c result t1 t2 else c)
      (all_cards decks).
Proof.
  intros Hnd. unfold mark_card_review.
  pose proof (mark_in_decks_cases decks card_id result t1 t2) as H.
  destruct (mark_in_decks isoformat decks card_id result t1 t2) as [decks' |]; cbn [snd].
  - destruct H as [(pre & card & post & Hb & Ha & Hpre & Hid) _].
    rewrite Ha, Hb in *. rewrite map_app. cbn [map].
    rewrite Hid, String.eqb_refl, (map_unmatched _ _ _ _ _ Hpre).
    rewrite map_unmatched; [reflexivity |].
    rewrite map_app in Hnd. cbn [map] in Hnd. rewrite Hid in Hnd.
    apply NoDup_remove_2 in Hnd.
    apply Forall_forall. intros c Hc E. apply Hnd.
    apply in_or_app. right. rewrite <- E. apply in_map. exact Hc.
  - symmetry. apply map_unmatched. exact H.
Qed.

Lemma mark_card_review_ids (decks : list FlashcardDeck.t) (card_id result : string)
    (t1 t2 : Z) :
  card_ids (all_cards (snd (mark_card_review isoformat decks card_id result t1 t2)))
  = card_ids (all_cards decks).
Proof.
  unfold mark_card_review.
  pose proof (mark_in_decks_cases decks card_id result t1 t2) as H.
  destruct (mark_in_decks isoformat decks card_id result t1 t2) as [decks' |]; cbn [snd];
    [| reflexivity].
  destruct H as [(pre & card & post & -> & -> & _ & _) _].
  rewrite !map_app. cbn [map]. rewrite review_card_id. reflexivity.
Qed.

Lemma mark_card_review_reviews (decks : list FlashcardDeck.t) (card_id result : string)
    (t1 t2 : Z) :
  In card_id (card_ids (all_cards decks)) ->
  Session.reviews (snd (mark_card_review isoformat decks card_id result t1 t2))
  = Session.reviews decks + 1.
Proof.
  intros Hin. unfold mark_card_review.
  pose proof (mark_in_decks_cases decks card_id result t1 t2) as H.
  destruct (mark_in_decks isoformat decks card_id result t1 t2) as [decks' |]; cbn [snd].
  - destruct H as [_ H]. exact H.
  - exfalso. apply in_map_iff in Hin. destruct Hin as (c & Hid & Hc).
    rewrite Forall_forall in H. exact (H c Hc Hid).
Qed.

Lemma position_absent (card_id : string) (cards : list Flashcard.t) (i : nat) :
  ~ In card_id (card_ids cards) -> Session.position card_id cards i = None.
Proof.
  revert i. induction cards as [| c cards IH]; intros i Hnot; cbn; [reflexivity |].
  destruct (String.eqb_spec (Flashcard.card_id c) card_id) as [E | E].
  - exfalso. apply Hnot. left. exact E.
  - apply IH. intros Hin. apply Hnot. right. exact Hin.
Qed.

(** The loop over cards with distinct ids, on decks whose cards have
    distinct ids. *)
Lemma review_cards_each (cards : list Flashcard.t) (answers : nat -> string * (Z * Z)) :
  NoDup (card_ids cards) ->
  forall (decks : list FlashcardDeck.t) (i : nat),
    NoDup (card_ids (all_cards decks)) ->
    incl (card_ids cards) (card_ids (all_cards decks)) ->
    all_cards (CareerCoach.review_cards isoformat decks cards answers i)
    = map (Session.reviewed isoformat cards answers i) (all_cards decks)
    /\ Session.reviews (CareerCoach.review_cards isoformat decks cards answers i)
       = Session.reviews decks + Z.of_nat (List.length cards).
Proof.
  induction cards as [| k cards IH]; intros Hsel decks i Hnd Hincl.
  - cbn. split; [| lia]. symmetry. apply map_id.
  - cbn [CareerCoach.review_cards].
    destruct (answers i) as [result [t1 t2]] eqn:Ea.
    cbn [map] in Hsel. inversion Hsel as [| ? ? Hk Hsel']. subst.
    set (decks1 := snd (mark_card_review isoformat decks (Flashcard.card_id k) result t1 t2)).
    assert (Hids : card_ids (all_cards decks1) = card_ids (all_cards decks))
      by apply mark_card_review_ids.
    destruct (IH Hsel' decks1 (S i)) as [Hcards Hsum].
    + rewrite Hids. exact Hnd.
    + rewrite Hids. intros x Hx. apply Hincl. right. exact Hx.
    + split.
      * rewrite Hcards. unfold decks1.
        rewrite (mark_card_review_cards decks _ result t1 t2 Hnd), map_map.
        apply map_ext. intros c. unfold Session.reviewed. cbn [Session.position].
        rewrite (String.eqb_sym (Flashcard.card_id k) (Flashcard.card_id c)).
        destruct (String.eqb_spec (Flashcard.card_id c) (Flashcard.card_id k)) as [E | E].
        -- rewrite review_card_id, E, (position_absent _ _ _ Hk), Ea. reflexivity.
        -- reflexivity.
      * rewrite Hsum. unfold decks1.
        rewrite mark_card_review_reviews by (apply Hincl; left; reflexivity).
        cbn [List.length]. lia.
Qed.

Lemma due_cards_cards (clock : nat -> Z) (cards : list Flashcard.t) (i : nat)
    (due : list (Z * Flashcard.t)) :
  due_cards fromisoformat clock i cards = Some due -> map snd due = cards.
Proof.
  revert i due. induction cards as [| c cards IH]; intros i due; cbn [due_cards].
  - intros H. injection H as <-. reflexivity.
  - destruct (tier fromisoformat (clock i) c) as [k |]; [| discriminate].
    destruct (due_cards fromisoformat clock (S i) cards) as [rest |] eqn:E; [| discriminate].
    intros H. injection H as <-. cbn [map snd]. rewrite (IH _ _ E). reflexivity.
Qed.

Lemma NoDup_front {T : Type} (n : nat) (l : list T) : NoDup l -> NoDup (firstn n l).
Proof.
  intros H. rewrite <- (firstn_skipn n l) in H. exact (NoDup_app_remove_r _ _ H).
Qed.

Lemma In_front {T : Type} (n : nat) (l : list T) (x : T) : In x (firstn n l) -> In x l.
Proof.
  intros H. rewrite <- (firstn_skipn n l). apply in_or_app. left. exact H.
Qed.

Lemma selected_cards (decks : list FlashcardDeck.t) (num_cards : Z) (clock : nat -> Z)
    (cards : list Flashcard.t) :
  get_cards_for_review fromisoformat decks num_cards clock = Some cards ->
  NoDup (card_ids (all_cards decks)) ->
  NoDup (card_ids cards) /\ incl (card_ids cards) (card_ids (all_cards decks)).
Proof.
  unfold get_cards_for_review.
  destruct (due_cards fromisoformat clock 0 (all_cards decks)) as [due |] eqn:E;
    [| discriminate].
  intros H Hnd. injection H as <-.
  apply due_cards_cards in E.
  assert (Hperm : Permutation (card_ids (map snd (Py.sorted key_le due)))
                    (card_ids (all_cards decks))).
  { rewrite <- E. apply Permutation_map, Permutation_map, sorted_perm. }
  unfold Py.slice_to.
  destruct (0 <=? num_cards);
    rewrite <- !firstn_map;
    (split;
     [ apply NoDup_front; apply (Permutation_NoDup (Permutation_sym Hperm)); exact Hnd
     | intros x Hx; apply (Permutation_in _ Hperm); eapply In_front; exact Hx ]).
Qed.

End ReviewSession.


